(** * glyphica-mods: poem harvesting and difficulty shortlisting

    A shallow embedding of the Python scripts [scrape_poems.py],
    [1-dedupe_poems_csv.py], [shortlist_poems.py] and
    [3-build_band_mods.py], and the properties of the harvesting pipeline
    checked against them.

    Conventions of the embedding.
    - A Python [str] is a [string]; a character is a Unicode code point
      below 256, so the character tables below are the ones Python uses on
      that range.
    - A Python [int] is a [Z]; a [float] that the code only adds, compares
      and multiplies is an exact rational [Q]: the rounding of the floating
      point operations is left out, and so are the infinities and NaN. The
      conversion of an integer to a [float], which can raise, is modelled
      where the code has one.
    - A function that can raise returns an [option] ([None] is the
      exception) or threads an explicit outcome.
    - The file system, the network and the random generator are explicit:
      a world holds the files by path and the trace of what was done, and an
      environment gives the answers of the server, the draws of
      [random.random()] and the functions of the libraries that the scripts
      call (the HTML parser, [json], [hashlib], [float]). *)

From Stdlib Require Import ZArith QArith Qpower Qminmax List String Ascii Lia.
From Stdlib Require Import DecimalString Sorted Permutation.
From stdpp Require Import base option list gmap sets strings sorting.

Import ListNotations.
Local Open Scope string_scope.
Local Open Scope list_scope.
Local Open Scope Z_scope.

(** ** Python built-ins on [str] *)

Module Py.

Definition code (c : ascii) : N := N_of_ascii c.

Definition in_range (lo hi : N) (c : ascii) : bool :=
  ((lo <=? code c) && (code c <=? hi))%N.

(** [str.isspace] on one character, which is also the class [\s] of [re]
    for [str] patterns: TAB..CR, FS..US, space, NEL, NBSP. *)
Definition isspace (c : ascii) : bool :=
  in_range 9 13 c || in_range 28 31 c || in_range 32 32 c
  || in_range 133 133 c || in_range 160 160 c.

(** The line boundaries of [str.splitlines]: LF, VT, FF, CR, FS, GS, RS,
    NEL (US is white space but no boundary). *)
Definition is_linebreak (c : ascii) : bool :=
  in_range 10 13 c || in_range 28 30 c || in_range 133 133 c.

(** The class [\d] of [re], and the digits [int] accepts. *)
Definition isdecimal (c : ascii) : bool := in_range 48 57 c.

(** [str.isdigit] on one character: the decimal digits and the
    superscripts two, three and one. *)
Definition isdigit (c : ascii) : bool :=
  isdecimal c || in_range 178 179 c || in_range 185 185 c.

Definition is_ascii_letter (c : ascii) : bool :=
  in_range 65 90 c || in_range 97 122 c.

(** The class [\w] of [re] for [str] patterns: underscore and what
    [str.isalnum] accepts. *)
Definition is_word (c : ascii) : bool :=
  is_ascii_letter c || isdecimal c || in_range 95 95 c
  || in_range 170 170 c || in_range 178 179 c || in_range 181 181 c
  || in_range 185 186 c || in_range 188 190 c
  || in_range 192 214 c || in_range 216 246 c || in_range 248 255 c.

(** [str.lower] on one character. *)
Definition lower_char (c : ascii) : ascii :=
  if in_range 65 90 c || in_range 192 214 c || in_range 216 222 c
  then ascii_of_N (code c + 32) else c.

Fixpoint lower (s : string) : string :=
  match s with
  | EmptyString => EmptyString
  | String c s' => String (lower_char c) (lower s')
  end.

(** [len(s)] *)
Definition len (s : string) : Z := Z.of_nat (String.length s).

Definition is_empty (s : string) : bool :=
  match s with EmptyString => true | String _ _ => false end.

(** [s.startswith(p)] *)
Definition startswith (s p : string) : bool := String.prefix p s.

(** [sub in s] *)
Fixpoint contains (sub s : string) : bool :=
  String.prefix sub s ||
  match s with
  | EmptyString => false
  | String _ s' => contains sub s'
  end.

Fixpoint lstrip (s : string) : string :=
  match s with
  | EmptyString => EmptyString
  | String c s' => if isspace c then lstrip s' else s
  end.

Fixpoint rstrip (s : string) : string :=
  match s with
  | EmptyString => EmptyString
  | String c s' =>
      let r := rstrip s' in
      if is_empty r && isspace c then EmptyString else String c r
  end.

(** [s.strip()] *)
Definition strip (s : string) : string := rstrip (lstrip s).

Definition CR : ascii := ascii_of_N 13.
Definition LF : ascii := ascii_of_N 10.

(** [s.splitlines()]: [after_cr] tells that the previous character was a
    carriage return, whose line feed belongs to the same boundary; [acc]
    is the line read so far. *)
Fixpoint splitlines_go (after_cr : bool) (acc s : string) : list string :=
  match s with
  | EmptyString => if is_empty acc then [] else [acc]
  | String c s' =>
      if after_cr && Ascii.eqb c LF then splitlines_go false acc s'
      else if is_linebreak c
           then acc :: splitlines_go (Ascii.eqb c CR) EmptyString s'
           else splitlines_go false (acc +:+ String c EmptyString) s'
  end.

Definition splitlines (s : string) : list string :=
  splitlines_go false EmptyString s.

(** [sep.join(parts)] *)
Fixpoint join (sep : string) (parts : list string) : string :=
  match parts with
  | [] => EmptyString
  | [p] => p
  | p :: rest => p +:+ sep +:+ join sep rest
  end.

Fixpoint all_chars (p : ascii -> bool) (s : string) : bool :=
  match s with
  | EmptyString => true
  | String c s' => p c && all_chars p s'
  end.

(** [s.isdigit()]: at least one character, all of them digits. *)
Definition str_isdigit (s : string) : bool :=
  negb (is_empty s) && all_chars isdigit s.

Fixpoint digits_value (acc : Z) (s : string) : Z :=
  match s with
  | EmptyString => acc
  | String c s' => digits_value (10 * acc + (Z.of_N (code c) - 48)) s'
  end.

(** The longest string of digits that [int] converts:
    [sys.int_info.default_max_str_digits], the limit of Python 3.11 and
    later (and of the security releases of 3.7 to 3.10) unless it is lifted
    by [sys.set_int_max_str_digits] or [PYTHONINTMAXSTRDIGITS], which the
    scripts do not do. Leading zeros count. *)
Definition int_max_str_digits : nat := 4300.

(** [int(s)] on the strings the scripts pass to it, those for which
    [s.isdigit()] holds: the value of a string of decimal digits, and
    [ValueError] ([None]) when a superscript digit occurs or when the
    string has more than [int_max_str_digits] digits. *)
Definition int_of_digits (s : string) : option Z :=
  if negb (is_empty s) && all_chars isdecimal s
     && (String.length s <=? int_max_str_digits)%nat
  then Some (digits_value 0 s) else None.

(** A stable insertion sort: [lt] is the strict order of the keys, and an
    element goes before the elements that are not smaller than it. Python's
    [sorted] and [list.sort] are stable, and the sorted stable arrangement
    of a list is unique, so this is their result. *)
Fixpoint insert_by {A} (lt : A -> A -> bool) (x : A) (l : list A) : list A :=
  match l with
  | [] => [x]
  | y :: l' => if lt y x then y :: insert_by lt x l' else x :: l
  end.

Definition sort_by {A} (lt : A -> A -> bool) (l : list A) : list A :=
  foldr (insert_by lt) [] l.

(** The order that the sort establishes: [x] may stand before [y] when
    [y] is not smaller than [x]. *)
Definition may_precede {A} (lt : A -> A -> bool) (x y : A) : Prop := lt y x = false.

(** [sorted(l)] on integers *)
Definition sorted (l : list Z) : list Z := sort_by Z.ltb l.

(** [min(l)] and [max(l)] of a list that is not empty; the value at the
    empty list stands for its [ValueError], which the callers exclude. *)
Definition min_list (l : list Z) : Z :=
  match l with [] => 0 | x :: l' => fold_left Z.min l' x end.

Definition max_list (l : list Z) : Z :=
  match l with [] => 0 | x :: l' => fold_left Z.max l' x end.

(** [max(l, key=key)] of a list that is not empty: the first element whose
    key is the greatest. *)
Definition max_by_key {A} (key : A -> Z) (l : list A) : option A :=
  match l with
  | [] => None
  | x :: l' =>
      Some (fold_left (fun best y => if key best <? key y then y else best) l' x)
  end.

(** [sum(l)] *)
Definition sum (l : list Z) : Z := fold_left Z.add l 0.

(** [int(x)] on a float: truncation toward zero. *)
Definition int_of_float (q : Q) : Z := Z.quot (Qnum q) (Zpos (Qden q)).

(** [str(n)] *)
Definition str_of_int (n : Z) : string := NilZero.string_of_int (Z.to_int n).

(** [d.get(key)] on a dictionary given by its items *)
Fixpoint dict_get {V} (items : list (string * V)) (key : string) : option V :=
  match items with
  | [] => None
  | (k, v) :: items' => if String.eqb k key then Some v else dict_get items' key
  end.

(** [range(a, b)] *)
Definition range (a b : Z) : list Z :=
  map (fun k => a + Z.of_nat k) (seq 0 (Z.to_nat (b - a))).

(** [s[:n]] for a length [n] that is not negative *)
Definition slice_to (n : nat) (s : string) : string := String.substring 0 n s.

(** [f"{n:02d}"]: the decimal writing of [n], with a zero before a single
    digit. *)
Definition format_02d (n : Z) : string :=
  let s := str_of_int n in
  if (String.length s <? 2)%nat then "0" +:+ s else s.

End Py.

(** ** The regular expressions of [re] that the scripts use *)

Module Re.

Inductive regex : Type :=
| Eps : regex
| Chr : (ascii -> bool) -> regex
| Seq : regex -> regex -> regex
| Alt : regex -> regex -> regex
| Star : regex -> regex
| Bol : regex
| Eol : regex.

Definition Plus (r : regex) : regex := Seq r (Star r).
Definition Opt (r : regex) : regex := Alt r Eps.

Fixpoint Seqs (rs : list regex) : regex :=
  match rs with
  | [] => Eps
  | r :: rs' => Seq r (Seqs rs')
  end.

(** [\s], [\w], [\d], [.] (no DOTALL) and a character of the pattern *)
Definition ws : regex := Chr Py.isspace.
Definition word : regex := Chr Py.is_word.
Definition digit : regex := Chr Py.isdecimal.
Definition dot : regex := Chr (fun c => negb (Ascii.eqb c Py.LF)).
Definition chr (x : ascii) : regex := Chr (Ascii.eqb x).

(** A character of the pattern under [re.IGNORECASE]. *)
Definition chr_ci (x : ascii) : regex :=
  Chr (fun c => Ascii.eqb (Py.lower_char c) (Py.lower_char x)).

(** A literal text under [re.IGNORECASE], which is also what
    [re.escape(text)] matches under that flag. *)
Fixpoint lit_ci (s : string) : regex :=
  match s with
  | EmptyString => Eps
  | String c s' => Seq (chr_ci c) (lit_ci s')
  end.

(** The backtracking matcher. The position is the remaining input [s] and
    the flag [b], true at the start of the text; [k] continues the match
    after [r]. The first alternative and the longest repetition are tried
    first, as [re] does. An iteration of a repetition that consumes
    nothing is refused: no pattern of the scripts has one. *)
Fixpoint star {A} (step : bool -> string -> (bool -> string -> option A) -> option A)
    (fuel : nat) (b : bool) (s : string) (k : bool -> string -> option A) : option A :=
  match fuel with
  | O => k b s
  | S fuel' =>
      match step b s (fun b' s' =>
              if (String.length s' <? String.length s)%nat
              then star step fuel' b' s' k else None) with
      | Some x => Some x
      | None => k b s
      end
  end.

Fixpoint run {A} (r : regex) (b : bool) (s : string)
    (k : bool -> string -> option A) : option A :=
  match r with
  | Eps => k b s
  | Chr p =>
      match s with
      | String c s' => if p c then k false s' else None
      | EmptyString => None
      end
  | Seq r1 r2 => run r1 b s (fun b' s' => run r2 b' s' k)
  | Alt r1 r2 =>
      match run r1 b s k with
      | Some x => Some x
      | None => run r2 b s k
      end
  | Star r' => star (run r') (String.length s) b s k
  | Bol => if b then k b s else None
  | Eol =>
      if Py.is_empty s || String.eqb s (String Py.LF EmptyString)
      then k b s else None
  end.

(** The match of [r] at the current position: what is left after it. *)
Definition match_at (r : regex) (b : bool) (s : string) : option string :=
  run r b s (fun _ s' => Some s').

(** [re.match(r, s)] as a truth value *)
Definition matches (r : regex) (s : string) : bool :=
  bool_decide (is_Some (match_at r true s)).

(** [re.sub(r, repl, s)]: the matches are found from left to right and do
    not overlap; [skip] is the number of characters of the current match
    still to drop. *)
Fixpoint sub_go (r : regex) (repl : string) (b : bool) (skip : nat) (s : string) : string :=
  match s with
  | EmptyString =>
      match skip, match_at r b s with
      | O, Some _ => repl
      | _, _ => EmptyString
      end
  | String c s' =>
      match skip with
      | S n => sub_go r repl false n s'
      | O =>
          match match_at r b s with
          | Some rest =>
              match (String.length s - String.length rest)%nat with
              | O => repl +:+ String c (sub_go r repl false 0 s')
              | S n => repl +:+ sub_go r repl false n s'
              end
          | None => String c (sub_go r repl false 0 s')
          end
      end
  end.

Definition sub (r : regex) (repl s : string) : string := sub_go r repl true 0 s.

(** [len(re.findall(r, s))] *)
Fixpoint count_go (r : regex) (b : bool) (skip : nat) (s : string) : Z :=
  match s with
  | EmptyString =>
      match skip, match_at r b s with
      | O, Some _ => 1
      | _, _ => 0
      end
  | String c s' =>
      match skip with
      | S n => count_go r false n s'
      | O =>
          match match_at r b s with
          | Some rest =>
              1 + count_go r false (Nat.pred (String.length s - String.length rest)) s'
          | None => count_go r false 0 s'
          end
      end
  end.

Definition findall_count (r : regex) (s : string) : Z := count_go r true 0 s.

End Re.

(** ** The world outside the scripts *)

Module Os.

Inductive platform : Type := Posix | Windows.

(** [os.linesep] *)
Definition linesep (pf : platform) : string :=
  match pf with
  | Posix => String Py.LF EmptyString
  | Windows => String Py.CR (String Py.LF EmptyString)
  end.

(** What [Path.write_text(data, encoding="utf-8")] stores: the file is
    opened in text mode with the default [newline=None], so every line feed
    is written as [os.linesep]. The encoding to UTF-8 is one to one and is
    left out. *)
Fixpoint write_text (pf : platform) (data : string) : string :=
  match data with
  | EmptyString => EmptyString
  | String c data' =>
      if Ascii.eqb c Py.LF then linesep pf +:+ write_text pf data'
      else String c (write_text pf data')
  end.

(** What [Path.read_text(encoding="utf-8", errors="ignore")] returns for
    the stored characters: text mode with universal newlines, so a carriage
    return, alone or followed by a line feed, is read as one line feed. *)
Fixpoint read_text_go (after_cr : bool) (stored : string) : string :=
  match stored with
  | EmptyString => EmptyString
  | String c stored' =>
      if after_cr && Ascii.eqb c Py.LF then read_text_go false stored'
      else if Ascii.eqb c Py.CR then String Py.LF (read_text_go true stored')
      else String c (read_text_go false stored')
  end.

Definition read_text (stored : string) : string := read_text_go false stored.

(** A response: its status code, its [Retry-After] header when it has
    one, and its text. *)
Record response : Type := {
  status_code : Z;
  retry_after : option string;
  text : string
}.

(** What [session.get(url, timeout=...)] gives: a [RequestException] of
    the transport, or a response. *)
Inductive http_outcome : Type :=
| TransportError : http_outcome
| Got : response -> http_outcome.

(** [response.raise_for_status()] raises for the statuses 400 to 599. *)
Definition is_error_status (status : Z) : bool :=
  (400 <=? status) && (status <? 600).

(** A JSON document as [json.loads] returns it. *)
#[local] Unset Elimination Schemes.
Inductive json : Type :=
| JNull : json
| JBool : bool -> json
| JInt : Z -> json
| JFloat : Q -> json
| JStr : string -> json
| JList : list json -> json
| JDict : list (string * json) -> json.
#[local] Set Elimination Schemes.

(** A cell of a listing table: whether it is a [td] (or a [th]), its
    [get_text(" ", strip=True)] and the [href] of its first anchor that has
    one. A row is the list of its cells, a table the list of its rows. *)
Record cell : Type := {
  is_td : bool;
  cell_text : string;
  cell_href : option string
}.

(** What the scripts take from their libraries and from the outside. *)
Record env : Type := {
  os : platform;
  (** [hashlib.sha256(url.encode("utf-8")).hexdigest()] *)
  sha256_hex : string -> string;
  (** the answer of the server to a request, given the number of requests
      made before it *)
  http_get : nat -> string -> http_outcome;
  (** the successive values of [random.random()] *)
  random : nat -> Q;
  (** [float(s)] for a string that it reads as a finite number, [None] for
      its [ValueError]; the strings that [float] reads as an infinity or as
      a NaN ("inf", "nan", "1e999") have no rational value and are left out
      of the model *)
  float_of_str : string -> option Q;
  (** [json.loads(s)], [None] when it raises, and [json.dumps(v, indent=2)] *)
  json_loads : string -> option json;
  json_dumps : json -> string;
  (** [[td.get_text("\n", strip=True) for td in soup.find_all("td")]] of
      the parsed document; no cell for a document that the parser rejects
      (it raises [ParserRejectedMarkup]): where the scripts parse a page for
      its text, the exception is caught and counts as an empty text *)
  td_texts : string -> list string;
  (** the tables of the parsed document, [soup.find_all("table")], each
      with its rows [table.find_all("tr")]; no table for a document that
      the parser rejects: [parse_poem_rows] raises in both cases *)
  soup_tables : string -> list (list (list cell));
  (** [urllib.parse.urljoin(base, url)], [None] for its [ValueError] (an
      address with an unbalanced bracket, as "//[") *)
  urljoin : string -> string -> option string
}.

Inductive event : Type :=
| EvGet : string -> event
| EvSleep : Q -> event
| EvWriteText : string -> string -> event
| EvAppendRows : string -> list (list string) -> event.

(** The state of the outside: the text files by path, the CSV files by
    path with their rows, the number of random draws made, and what was
    done so far, oldest first. *)
Record world : Type := {
  files : gmap string string;
  tables : gmap string (list (list string));
  draws : nat;
  trace : list event
}.

Definition is_get (e : event) : bool :=
  match e with EvGet _ => true | _ => false end.

Definition is_write (e : event) : bool :=
  match e with EvWriteText _ _ => true | _ => false end.

(** The number of network requests made so far. *)
Definition requests (w : world) : nat := List.length (List.filter is_get (trace w)).

Definition log (e : event) (w : world) : world :=
  {| files := files w; tables := tables w; draws := draws w;
     trace := trace w ++ [e] |}.

(** [session.get(url, timeout=timeout)] *)
Definition get (E : env) (url : string) (w : world) : http_outcome * world :=
  (http_get E (requests w) url, log (EvGet url) w).

(** [path.write_text(data, encoding="utf-8")] *)
Definition write_file (E : env) (path data : string) (w : world) : world :=
  log (EvWriteText path data)
    {| files := <[ path := write_text (os E) data ]> (files w);
       tables := tables w; draws := draws w; trace := trace w |}.

(** [time.sleep(seconds)]: the call, taken to return. [time.sleep] raises
    [ValueError] for a negative time, and [OverflowError] or [OSError] for a
    time that the clock of the platform cannot hold: 2^63 nanoseconds
    (about 9.2e9 seconds) less the running time of the machine, and 2^32
    milliseconds on Windows before Python 3.11. The [ValueError] of a
    negative delay is in the model of the loop of the classifier; the
    theorems that need a sleep to return assume [can_sleep] of its time. *)
Definition sleep (seconds : Q) (w : world) : world := log (EvSleep seconds) w.

(** A time below every limit of [time.sleep]: 4,000,000 seconds, about 46
    days. *)
Definition max_sleep : Q := 4000000.

(** The times for which [time.sleep] returns on every platform. *)
Definition can_sleep (seconds : Q) : Prop := (0 <= seconds <= max_sleep)%Q.

(** [cache_dir / name] *)
Definition path_join (dir name : string) : string := dir +:+ "/" +:+ name.

End Os.

(** ** [statistics.quantiles] *)

Module Statistics.

(** [data[i]] for an index in range *)
Definition item (data : list Z) (i : Z) : Z := nth (Z.to_nat i) data 0.

(** The cut point number [i] of [n] under the inclusive method:
    [j, delta = divmod(i * m, n)] and
    [(data[j] * (n - delta) + data[j + 1] * delta) / n]. The quotient of
    the two integers is kept exact; the script takes [int] of it, and the
    truncation of the float quotient of two integers below 2^53 is the
    truncation of their exact quotient. *)
Definition cut_point (data : list Z) (m n i : Z) : Q :=
  let j := (i * m) / n in
  let delta := (i * m) mod n in
  Qmake (item data j * (n - delta) + item data (j + 1) * delta) (Z.to_pos n).

(** [quantiles(data, n=n, method="inclusive")]. A single data point raises
    [StatisticsError] before Python 3.13 and is repeated [n - 1] times from
    3.13 on: [py313] tells which. *)
Definition quantiles (py313 : bool) (data : list Z) (n : Z) : option (list Q) :=
  if n <? 1 then None
  else
    let data := Py.sorted data in
    let ld := Z.of_nat (List.length data) in
    if ld <? 2 then
      if py313 && (ld =? 1)
      then Some (concat (repeat (map inject_Z data) (Z.to_nat (n - 1))))
      else None
    else
      let m := ld - 1 in
      Some (map (cut_point data m n) (Py.range 1 n)).

End Statistics.

(** ** [shortlist_poems.py] *)

Module Shortlist.

Record Candidate : Type := {
  title : string;
  link : string;
  lines : Z;
  views : Z;
  typed_chars : Z;
  words : Z;
  text : string
}.

Definition normalize_for_difficulty (text : string) : string :=
  let text :=
    Re.sub (Re.Chr (fun c => negb (Py.is_word c || Py.isspace c))) "" text in
  Py.strip (Re.sub (Re.Plus Re.ws) " " text).

Definition score_text (text : string) : Z * Z :=
  let normalized := normalize_for_difficulty text in
  let words := Re.findall_count (Re.Plus Re.word) normalized in
  (Py.len normalized, words).

(** A band: the range of the typed characters and the range of the words,
    both ends included. *)
Definition Band : Type := (Z * Z) * (Z * Z).

(** [load_baseline_ranges], from the passages that
    [json.loads(...).get("mod", [])] gives. The result is the dictionary in
    its insertion order. *)
Definition load_baseline_ranges (py313 : bool) (passages : list string)
    : option (list (string * Band)) :=
  match passages with
  | [] => None
  | _ =>
      let metrics := map score_text passages in
      let char_values := Py.sorted (map fst metrics) in
      let word_values := Py.sorted (map snd metrics) in
      match Statistics.quantiles py313 char_values 3,
            Statistics.quantiles py313 word_values 3 with
      | Some [char_q1; char_q2], Some [word_q1; word_q2] =>
          let char_min := Py.min_list char_values in
          let char_max := Py.max_list char_values in
          let word_min := Py.min_list word_values in
          let word_max := Py.max_list word_values in
          let int := Py.int_of_float in
          Some
            [ ("easy", ((char_min, int char_q1), (word_min, int word_q1)));
              ("medium", ((int char_q1 + 1, int char_q2),
                          (int word_q1 + 1, int word_q2)));
              ("hard", ((int char_q2 + 1, char_max + 80),
                        (int word_q2 + 1, word_max + 20))) ]
      | _, _ => None
      end
  end.

(** A row of [poems.csv] as [csv.DictReader] gives it, and
    [(row.get(key) or "").strip()]. *)
Definition field (row : gmap string string) (key : string) : string :=
  Py.strip (default "" (row !! key)).

(** A row that [load_poems] keeps. *)
Record Poem : Type := {
  p_title : string;
  p_link : string;
  p_lines : Z;
  p_views : Z
}.

(** The rows that pass the guards of [load_poems] on their own fields: a
    title and a link that are not empty, a title that does not start with
    "Sponsored Links", a line count made of digits. *)
Definition eligible (row : gmap string string) : bool :=
  negb (Py.is_empty (field row "title"))
  && negb (Py.is_empty (field row "link"))
  && negb (Py.startswith (field row "title") "Sponsored Links")
  && Py.str_isdigit (field row "lines").

(** The loop of [load_poems]: [rows] and [seen_links] are its two
    accumulators, [None] is the [ValueError] of [int]. *)
Fixpoint load_poems_loop (reader : list (gmap string string))
    (rows : list Poem) (seen_links : gset string) : option (list Poem) :=
  match reader with
  | [] => Some rows
  | row :: reader' =>
      let title := field row "title" in
      let link := field row "link" in
      let lines_raw := field row "lines" in
      let views_raw := field row "views" in
      if Py.is_empty title || Py.is_empty link
         || Py.startswith title "Sponsored Links"
      then load_poems_loop reader' rows seen_links
      else if negb (Py.str_isdigit lines_raw)
      then load_poems_loop reader' rows seen_links
      else if bool_decide (link ∈ seen_links)
      then load_poems_loop reader' rows seen_links
      else
        match Py.int_of_digits lines_raw,
              (if Py.str_isdigit views_raw
               then Py.int_of_digits views_raw else Some 0) with
        | Some lines, Some views =>
            load_poems_loop reader'
              (rows ++ [ {| p_title := title; p_link := link;
                            p_lines := lines; p_views := views |} ])
              ({[ link ]} ∪ seen_links)
        | _, _ => None
        end
  end.

Definition load_poems (reader : list (gmap string string)) : option (list Poem) :=
  load_poems_loop reader [] ∅.

(** The loop of [extract_poem_text] over the table cells. *)
Fixpoint collect_candidates (tds candidates : list string) : list string :=
  match tds with
  | [] => candidates
  | text :: tds' =>
      if Py.len text <? 250 then collect_candidates tds' candidates
      else if Py.contains "Main Menu" text || Py.contains "Sponsored Links" text
      then collect_candidates tds' candidates
      else collect_candidates tds' (candidates ++ [text])
  end.

(** [[line.strip() for line in text.splitlines() if line.strip()]] *)
Definition stripped_lines (text : string) : list string :=
  map Py.strip
    (List.filter (fun line => negb (Py.is_empty (Py.strip line))) (Py.splitlines text)).

Definition drop_prefixes : list string :=
  ["Public Domain Poetry"; "By "; "Read, rate"; "Main Menu"].

(** [extract_poem_text] after the parse: [tds] is
    [[td.get_text("\n", strip=True) for td in soup.find_all("td")]]. *)
Definition extract_poem_text_of_cells (tds : list string) : string :=
  let candidates := collect_candidates tds [] in
  match Py.max_by_key Py.len candidates with
  | None => ""
  | Some best =>
      let lines := stripped_lines best in
      let cleaned :=
        List.filter (fun line => negb (existsb (Py.startswith line) drop_prefixes)) lines in
      Py.join " " cleaned
  end.

(** [extract_poem_text(html)] *)
Definition extract_poem_text (E : Os.env) (html : string) : string :=
  extract_poem_text_of_cells (Os.td_texts E html).

Definition _cache_path (E : Os.env) (cache_dir url : string) : string :=
  Os.path_join cache_dir (Os.sha256_hex E url +:+ ".html").

(** [fetch_candidate_text_cached]: [None] is the exception of the request
    or of [raise_for_status]. *)
Definition fetch_candidate_text_cached (E : Os.env) (url cache_dir : string)
    (w : Os.world) : option string * Os.world :=
  let cache_file := _cache_path E cache_dir url in
  match Os.files w !! cache_file with
  | Some stored =>
      let html := Os.read_text stored in
      (Some (extract_poem_text E html), w)
  | None =>
      match Os.get E url w with
      | (Os.TransportError, w) => (None, w)
      | (Os.Got response, w) =>
          if Os.is_error_status (Os.status_code response) then (None, w)
          else
            let html := Os.text response in
            let w := Os.write_file E cache_file html w in
            (Some (extract_poem_text E html), w)
      end
  end.

Definition in_band (candidate : Candidate) (band : Band) : bool :=
  let '((char_min, char_max), (word_min, word_max)) := band in
  (char_min <=? typed_chars candidate) && (typed_chars candidate <=? char_max)
  && (word_min <=? words candidate) && (words candidate <=? word_max).

(** The key of the sort in [main] and the order of the tuples. *)
Definition pool_key (row : Poem) : Z * Z := (p_views row, - p_lines row).

Definition tuple_lt (a b : Z * Z) : bool :=
  (fst a <? fst b) || ((fst a =? fst b) && (snd a <? snd b)).

(** [rough_pool] in [main]: the filter, then
    [sort(key=..., reverse=True)], which puts the greater keys first and
    keeps the rows of equal keys in their order. *)
Definition rough_pool (all_poems : list Poem) : list Poem :=
  let rough_pool :=
    List.filter (fun row => (8 <=? p_lines row) && (p_lines row <=? 60)) all_poems in
  Py.sort_by (fun a b => tuple_lt (pool_key b) (pool_key a)) rough_pool.

(** The loop over [bands.items()] in [main], for one candidate:
    [shortlisted] maps a band name to the candidates it holds. *)
Fixpoint assign (bands : list (string * Band)) (per_band : Z)
    (shortlisted : gmap string (list Candidate)) (candidate : Candidate)
    : gmap string (list Candidate) :=
  match bands with
  | [] => shortlisted
  | (band_name, band) :: bands' =>
      let held := default [] (shortlisted !! band_name) in
      if per_band <=? Z.of_nat (List.length held)
      then assign bands' per_band shortlisted candidate
      else if in_band candidate band
      then <[ band_name := held ++ [candidate] ]> shortlisted
      else assign bands' per_band shortlisted candidate
  end.

(** The arguments of the command line that the scan of [main] depends
    on. *)
Record Args : Type := {
  per_band : Z;
  max_fetch : Z;
  delay : Q;
  cache_dir : string
}.

(** [all(len(shortlisted[name]) >= args.per_band for name in shortlisted)]:
    the keys of [shortlisted] are the three band names, from the start. *)
Definition all_full (per_band : Z) (shortlisted : gmap string (list Candidate)) : bool :=
  forallb
    (fun name => per_band <=? Z.of_nat (List.length (default [] (shortlisted !! name))))
    ["easy"; "medium"; "hard"].

(** The loop of [main] over [rough_pool]. An exception of the fetch and an
    empty text go on to the next row without the sleep. [None] is the
    [ValueError] that [time.sleep] raises for a negative delay; the sleep
    of a delay that is not negative is taken to return, see [Os.sleep]. *)
Fixpoint scan_loop (E : Os.env) (args : Args) (bands : list (string * Band))
    (rough_pool : list Poem) (shortlisted : gmap string (list Candidate))
    (attempted : Z) (w : Os.world)
    : option (gmap string (list Candidate) * Z) * Os.world :=
  match rough_pool with
  | [] => (Some (shortlisted, attempted), w)
  | row :: rough_pool' =>
      if all_full (per_band args) shortlisted then (Some (shortlisted, attempted), w)
      else if max_fetch args <=? attempted then (Some (shortlisted, attempted), w)
      else
        let attempted := attempted + 1 in
        match fetch_candidate_text_cached E (p_link row) (cache_dir args) w with
        | (None, w) => scan_loop E args bands rough_pool' shortlisted attempted w
        | (Some text, w) =>
            if Py.is_empty text
            then scan_loop E args bands rough_pool' shortlisted attempted w
            else
              let candidate :=
                {| title := p_title row; link := p_link row;
                   lines := p_lines row; views := p_views row;
                   typed_chars := fst (score_text text);
                   words := snd (score_text text);
                   text := text |} in
              let shortlisted := assign bands (per_band args) shortlisted candidate in
              if Qle_bool 0 (delay args)
              then scan_loop E args bands rough_pool' shortlisted attempted
                     (Os.sleep (delay args) w)
              else (None, w)
        end
  end.

(** [main] up to the end of the scan, from the passages of the baseline
    file and the rows of the corpus: the shortlist and the number of
    attempts. [None] is an exception: of the baseline, of [load_poems] or of
    the sleep. *)
Definition scan (E : Os.env) (py313 : bool) (args : Args) (passages : list string)
    (reader : list (gmap string string)) (w : Os.world)
    : option (gmap string (list Candidate) * Z) * Os.world :=
  match load_baseline_ranges py313 passages with
  | None => (None, w)
  | Some bands =>
      match load_poems reader with
      | None => (None, w)
      | Some all_poems =>
          scan_loop E args bands (rough_pool all_poems)
            (<[ "easy" := [] ]> (<[ "medium" := [] ]> (<[ "hard" := [] ]> ∅))) 0 w
      end
  end.

(** The rows that [main] writes to the output file: the header, then the
    candidates of the three bands in turn. *)
Definition output_fieldnames : list string :=
  ["band"; "title"; "link"; "lines"; "views"; "typed_chars"; "words"; "sample_text"].

Definition output_row (band_name : string) (candidate : Candidate) : list string :=
  [ band_name; title candidate; link candidate; Py.str_of_int (lines candidate);
    Py.str_of_int (views candidate); Py.str_of_int (typed_chars candidate);
    Py.str_of_int (words candidate); Py.slice_to 300 (text candidate) ].

Definition output_rows (shortlisted : gmap string (list Candidate)) : list (list string) :=
  output_fieldnames
  :: flat_map
       (fun band_name => map (output_row band_name) (default [] (shortlisted !! band_name)))
       ["easy"; "medium"; "hard"].

(** [main]: the scan, then the output file, which is opened for writing
    and so replaced. *)
Definition main (E : Os.env) (py313 : bool) (args : Args) (output : string)
    (passages : list string) (reader : list (gmap string string)) (w : Os.world)
    : option (gmap string (list Candidate) * Z) * Os.world :=
  match scan E py313 args passages reader w with
  | (Some (shortlisted, attempted), w) =>
      (Some (shortlisted, attempted),
       {| Os.files := Os.files w;
          Os.tables := <[ output := output_rows shortlisted ]> (Os.tables w);
          Os.draws := Os.draws w; Os.trace := Os.trace w |})
  | (None, w) => (None, w)
  end.

End Shortlist.

(** ** [3-build_band_mods.py] *)

Module BandMods.

(** [r"\s+"] and [re.sub(r"\s+", " ", s).strip()] *)
Definition ws_run : Re.regex := Re.Plus Re.ws.

Definition squeeze (s : string) : string := Py.strip (Re.sub ws_run " " s).

(** [r"^By\s+"] under [re.IGNORECASE] *)
Definition byline : Re.regex := Re.Seqs [Re.Bol; Re.lit_ci "By"; Re.Plus Re.ws].

(** The loop of [clean_poem_lines] with its three variables. *)
Fixpoint clean_loop (normalized_title : string) (lines cleaned : list string)
    (dropped_title dropped_byline : bool) : list string :=
  match lines with
  | [] => cleaned
  | line :: lines' =>
      let text := squeeze line in
      if Py.is_empty text
      then clean_loop normalized_title lines' cleaned dropped_title dropped_byline
      else if negb dropped_title && String.eqb (Py.lower text) normalized_title
      then clean_loop normalized_title lines' cleaned true dropped_byline
      else if negb dropped_byline && Re.matches byline text
      then clean_loop normalized_title lines' cleaned dropped_title true
      else if Py.contains "Sponsored Links" text
              || Py.startswith text "Public Domain Poetry"
      then clean_loop normalized_title lines' cleaned dropped_title dropped_byline
      else clean_loop normalized_title lines' (cleaned ++ [text])
             dropped_title dropped_byline
  end.

Definition clean_poem_lines (lines : list string) (title : string) : list string :=
  let normalized_title := Py.lower (squeeze title) in
  clean_loop normalized_title lines [] false false.

(** [[line.strip() for line in raw_text.splitlines() if line.strip()]] *)
Definition block_lines (raw_text : string) : list string :=
  map Py.strip
    (List.filter (fun line => negb (Py.is_empty (Py.strip line))) (Py.splitlines raw_text)).

(** The first loop of [extract_poem_text] over the table cells. *)
Fixpoint primary_pass (tds : list string) (blocks : list (list string))
    : list (list string) :=
  match tds with
  | [] => blocks
  | raw_text :: tds' =>
      if Py.len raw_text <? 250 then primary_pass tds' blocks
      else if Py.contains "Main Menu" raw_text
              || Py.contains "Sponsored Links" raw_text
      then primary_pass tds' blocks
      else
        let lines := block_lines raw_text in
        if Z.of_nat (List.length lines) <? 6 then primary_pass tds' blocks
        else primary_pass tds' (blocks ++ [lines])
  end.

(** The second loop, run when the first one kept nothing. *)
Fixpoint fallback_pass (tds : list string) (blocks : list (list string))
    : list (list string) :=
  match tds with
  | [] => blocks
  | raw_text :: tds' =>
      if Py.len raw_text <? 180 then fallback_pass tds' blocks
      else
        let lines := block_lines raw_text in
        if 6 <=? Z.of_nat (List.length lines)
        then fallback_pass tds' (blocks ++ [lines])
        else fallback_pass tds' blocks
  end.

(** [blocks] when the two loops are over. *)
Definition collect_blocks (tds : list string) : list (list string) :=
  let blocks := primary_pass tds [] in
  match blocks with
  | [] => fallback_pass tds blocks
  | _ => blocks
  end.

(** [r"\s*Extra\s+Info:.*$"] under [re.IGNORECASE] *)
Definition extra_info : Re.regex :=
  Re.Seqs [Re.Star Re.ws; Re.lit_ci "Extra"; Re.Plus Re.ws; Re.lit_ci "Info:";
           Re.Star Re.dot; Re.Eol].

(** [r"\s*Printable\s+Page\s+This\s+page\s+viewed\s+\d+\s+times\.?$"] under
    [re.IGNORECASE] *)
Definition printable_page : Re.regex :=
  Re.Seqs [Re.Star Re.ws; Re.lit_ci "Printable"; Re.Plus Re.ws; Re.lit_ci "Page";
           Re.Plus Re.ws; Re.lit_ci "This"; Re.Plus Re.ws; Re.lit_ci "page";
           Re.Plus Re.ws; Re.lit_ci "viewed"; Re.Plus Re.ws; Re.Plus Re.digit;
           Re.Plus Re.ws; Re.lit_ci "times"; Re.Opt (Re.chr "."); Re.Eol].

(** [[A-Z]] under [re.IGNORECASE], [[\w'.\-]] and [[^)]] *)
Definition name_start : Re.regex := Re.Chr Py.is_ascii_letter.

Definition name_char : Re.regex :=
  Re.Chr (fun c => Py.is_word c || Ascii.eqb c "'" || Ascii.eqb c "."
                   || Ascii.eqb c "-").

Definition not_paren : Re.regex := Re.Chr (fun c => negb (Ascii.eqb c ")")).

(** [rf"^\s*{title_pattern}\s+By\s+[A-Z][\w'.\-]*(?:\s+[A-Z][\w'.\-]*(?:\s*\([^)]+\))?)*\s+"]
    under [re.IGNORECASE], for [title_pattern = re.escape(title)] *)
Definition title_byline (title : string) : Re.regex :=
  Re.Seqs [Re.Bol; Re.Star Re.ws; Re.lit_ci title; Re.Plus Re.ws; Re.lit_ci "By";
           Re.Plus Re.ws; name_start; Re.Star name_char;
           Re.Star (Re.Seqs [Re.Plus Re.ws; name_start; Re.Star name_char;
                             Re.Opt (Re.Seqs [Re.Star Re.ws; Re.chr "(";
                                              Re.Plus not_paren; Re.chr ")"])]);
           Re.Plus Re.ws].

(** What [extract_poem_text] does with the block it selected. *)
Definition clean_block (best_lines : list string) (title : string) : string :=
  let cleaned_lines := clean_poem_lines best_lines title in
  let text := Py.join " " cleaned_lines in
  let text := Re.sub extra_info "" text in
  let text := Re.sub printable_page "" text in
  let text :=
    if negb (Py.is_empty title)
    then Re.sub (title_byline (squeeze title)) "" text
    else text in
  squeeze text.

(** [extract_poem_text] after the parse: [tds] is
    [[td.get_text("\n", strip=True) for td in soup.find_all("td")]]. *)
Definition extract_poem_text_of_cells (tds : list string) (title : string) : string :=
  let blocks := collect_blocks tds in
  match Py.max_by_key (fun lines => Py.sum (map Py.len lines)) blocks with
  | None => ""
  | Some best_lines => clean_block best_lines title
  end.

(** [extract_poem_text(html, title)] *)
Definition extract_poem_text (E : Os.env) (html title : string) : string :=
  extract_poem_text_of_cells (Os.td_texts E html) title.

Definition _cache_path (E : Os.env) (cache_dir url : string) : string :=
  Os.path_join cache_dir (Os.sha256_hex E url +:+ ".html").

(** [fetch_html_cached]: [None] is the exception of the request or of
    [raise_for_status]. *)
Definition fetch_html_cached (E : Os.env) (url cache_dir : string) (w : Os.world)
    : option string * Os.world :=
  let cache_file := _cache_path E cache_dir url in
  match Os.files w !! cache_file with
  | Some stored => (Some (Os.read_text stored), w)
  | None =>
      match Os.get E url w with
      | (Os.TransportError, w) => (None, w)
      | (Os.Got response, w) =>
          if Os.is_error_status (Os.status_code response) then (None, w)
          else
            let html := Os.text response in
            let w := Os.write_file E cache_file html w in
            (Some html, w)
      end
  end.

(** [clean_sample_text] *)
Definition clean_sample_text (text : string) : string :=
  let cleaned := Re.sub extra_info "" text in
  squeeze cleaned.

(** [read_shortlist]: the loop over the rows of the shortlist, which are
    the dictionaries of [csv.DictReader]; [by_band] has the three band
    names as its keys from the start. *)
Fixpoint read_shortlist_loop (reader : list (gmap string string))
    (by_band : gmap string (list (gmap string string)))
    : gmap string (list (gmap string string)) :=
  match reader with
  | [] => by_band
  | row :: reader' =>
      let band := Py.lower (Py.strip (default "" (row !! "band"))) in
      match by_band !! band with
      | None => read_shortlist_loop reader' by_band
      | Some rows => read_shortlist_loop reader' (<[ band := rows ++ [row] ]> by_band)
      end
  end.

Definition read_shortlist (reader : list (gmap string string))
    : gmap string (list (gmap string string)) :=
  read_shortlist_loop reader
    (<[ "easy" := [] ]> (<[ "medium" := [] ]> (<[ "hard" := [] ]> ∅))).

(** [write_mod_file]; [dumps] is
    [json.dumps(payload, ensure_ascii=False, indent=2)]. *)
Definition write_mod_file (E : Os.env) (dumps : Os.json -> string) (path : string)
    (paragraphs : list string) (w : Os.world) : Os.world :=
  let payload := Os.JDict [("mod", Os.JList (map Os.JStr paragraphs))] in
  Os.write_file E path (dumps payload) w.

(** The arguments of the command line that the build depends on. *)
Record Args : Type := {
  out_dir : string;
  target_per_band : Z;
  cache_dir : string
}.

(** The loop of [main] over the attempts for one row: an exception of the
    fetch and an empty text are followed by the sleep, a text that is not
    empty ends the loop. *)
Fixpoint attempts_loop (E : Os.env) (link title cache_dir : string)
    (attempts : list Z) (poem_text : string) (w : Os.world) : string * Os.world :=
  match attempts with
  | [] => (poem_text, w)
  | attempt :: attempts' =>
      match fetch_html_cached E link cache_dir w with
      | (None, w) =>
          attempts_loop E link title cache_dir attempts' poem_text
            (Os.sleep ((1 # 2) * inject_Z (attempt + 1)) w)
      | (Some html, w) =>
          let poem_text := extract_poem_text E html title in
          if negb (Py.is_empty poem_text) then (poem_text, w)
          else
            attempts_loop E link title cache_dir attempts' poem_text
              (Os.sleep ((1 # 2) * inject_Z (attempt + 1)) w)
      end
  end.

(** The loop of [main] over the rows of one band. *)
Fixpoint band_loop (E : Os.env) (args : Args) (rows : list (gmap string string))
    (paragraphs : list string) (w : Os.world) : list string * Os.world :=
  match rows with
  | [] => (paragraphs, w)
  | row :: rows' =>
      if target_per_band args <=? Z.of_nat (List.length paragraphs)
      then (paragraphs, w)
      else
        let title := Py.strip (default "" (row !! "title")) in
        let link := Py.strip (default "" (row !! "link")) in
        if Py.is_empty link then band_loop E args rows' paragraphs w
        else
          match attempts_loop E link title (cache_dir args) (Py.range 0 3) "" w with
          | (poem_text, w) =>
              if negb (Py.is_empty poem_text)
              then band_loop E args rows' (paragraphs ++ [poem_text]) w
              else
                let fallback :=
                  clean_sample_text (Py.strip (default "" (row !! "sample_text"))) in
                if negb (Py.is_empty fallback)
                then band_loop E args rows' (paragraphs ++ [fallback]) w
                else band_loop E args rows' paragraphs w
          end
  end.

(** The body of the loop of [main] over the three bands, and [main] from
    the rows of the shortlist. *)
Definition build_band (E : Os.env) (dumps : Os.json -> string) (args : Args)
    (by_band : gmap string (list (gmap string string))) (w : Os.world)
    (band : string) : Os.world :=
  match band_loop E args (default [] (by_band !! band)) [] w with
  | (paragraphs, w) =>
      let out_path := Os.path_join (out_dir args) ("mod.paragraphs." +:+ band) in
      write_mod_file E dumps out_path paragraphs w
  end.

Definition main (E : Os.env) (dumps : Os.json -> string) (args : Args)
    (reader : list (gmap string string)) (w : Os.world) : Os.world :=
  let by_band := read_shortlist reader in
  fold_left (build_band E dumps args by_band) ["easy"; "medium"; "hard"] w.

End BandMods.

(** ** The Poem Text Extractor as section 4.4 of the specification words it *)

Module Spec44.

Definition has_marker (raw : string) : bool :=
  Py.contains "Main Menu" raw || Py.contains "Sponsored Links" raw.

(** The filter of a pass: raw text length at least [threshold], no marker,
    at least six lines that are not blank. *)
Definition qualifies (threshold : Z) (raw : string) : bool :=
  (threshold <=? Py.len raw) && negb (has_marker raw)
  && (6 <=? Z.of_nat (List.length (BandMods.block_lines raw))).

(** Steps 1 to 3: the primary pass, and the fallback pass when the primary
    pass yields nothing. *)
Definition qualifying (tds : list string) : list string :=
  match List.filter (qualifies 250) tds with
  | [] => List.filter (qualifies 180) tds
  | blocks => blocks
  end.

(** Step 4: the total character length across the lines of a block. *)
Definition total_length (raw : string) : Z :=
  Py.sum (map Py.len (BandMods.block_lines raw)).

Fixpoint drop_first (p : string -> bool) (lines : list string) : list string :=
  match lines with
  | [] => []
  | line :: lines' => if p line then lines' else line :: drop_first p lines'
  end.

(** Step 5, a to h. *)
Definition clean (raw title : string) : string :=
  let lines := BandMods.block_lines raw in
  let normalized_title := Py.lower (BandMods.squeeze title) in
  let lines :=
    drop_first (fun line =>
      String.eqb (Py.lower (BandMods.squeeze line)) normalized_title) lines in
  let lines := drop_first (Re.matches BandMods.byline) lines in
  let lines :=
    List.filter (fun line => negb (Py.contains "Sponsored Links" line
                              || Py.startswith line "Public Domain Poetry")) lines in
  let text := Py.join " " lines in
  let text := Re.sub BandMods.extra_info "" text in
  let text := Re.sub BandMods.printable_page "" text in
  let text :=
    if negb (Py.is_empty title)
    then Re.sub (BandMods.title_byline (BandMods.squeeze title)) "" text
    else text in
  BandMods.squeeze text.

Definition extractPoemText_of_cells (tds : list string) (title : string) : string :=
  match Py.max_by_key total_length (qualifying tds) with
  | None => ""
  | Some best => clean best title
  end.

Definition extractPoemText (E : Os.env) (html title : string) : string :=
  extractPoemText_of_cells (Os.td_texts E html) title.

End Spec44.

(** ** [scrape_poems.py] *)

Module Scrape.

Definition BASE_URL_TEMPLATE (page : Z) : string :=
  "https://www.public-domain-poetry.com/listpoetry.php?letter=All&page="
  +:+ Py.str_of_int page.

(** The arguments of the command line that the run depends on. *)
Record Args : Type := {
  start_page : Z;
  end_page : Z;
  output : string;
  checkpoint : string;
  delay : Q;
  max_retries : Z;
  resume : bool
}.

(** [load_checkpoint]: every exception of the [try] block ends in [None],
    as does a document that is no dictionary, whose [get] raises. A JSON
    [true] is an [int] for [isinstance], of value 1. *)
Definition load_checkpoint (E : Os.env) (path : string) (w : Os.world) : option Z :=
  match Os.files w !! path with
  | None => None
  | Some stored =>
      match Os.json_loads E (Os.read_text stored) with
      | Some (Os.JDict data) =>
          match Py.dict_get data "next_page" with
          | Some (Os.JInt next_page) =>
              if 1 <=? next_page then Some next_page else None
          | Some (Os.JBool true) => Some 1
          | _ => None
          end
      | _ => None
      end
  end.

Definition save_checkpoint (E : Os.env) (path : string) (next_page : Z)
    (w : Os.world) : Os.world :=
  Os.write_file E path (Os.json_dumps E (Os.JDict [("next_page", Os.JInt next_page)])) w.

Definition fieldnames : list string :=
  ["title"; "link"; "lines"; "views"; "source_page"].

(** [csv.DictWriter.writerows] on the file opened for appending. A CSV
    file is held as the list of its rows, so the appended rows follow the
    rows that the file has: this is what the appended bytes do when the file
    ends with a line end, as every file that the scripts write does. *)
Definition append_rows (path : string) (rows : list (list string)) (w : Os.world)
    : Os.world :=
  Os.log (Os.EvAppendRows path rows)
    {| Os.files := Os.files w;
       Os.tables := <[ path := default [] (Os.tables w !! path) ++ rows ]> (Os.tables w);
       Os.draws := Os.draws w; Os.trace := Os.trace w |}.

(** [ensure_csv_header]: a file that is absent or empty gets the header. *)
Definition ensure_csv_header (path : string) (w : Os.world) : Os.world :=
  match Os.tables w !! path with
  | None | Some [] => append_rows path [fieldnames] w
  | Some _ => w
  end.

Record PoemRow : Type := {
  title : string;
  link : string;
  lines : string;
  views : string;
  source_page : string
}.

Definition is_poems_header (table : list (list Os.cell)) : bool :=
  let header_cells :=
    match table with
    | [] => []
    | tr :: _ => map (fun c => Py.lower (Os.cell_text c)) tr
    end in
  forallb (fun name => existsb (String.eqb name) header_cells)
    ["poem title"; "author"; "lines"; "views"].

(** [urljoin(base_url, anchor["href"]) if anchor else ""] for the first
    cell of a row; [None] is the [ValueError] of [urljoin]. *)
Definition link_of_cell (E : Os.env) (base_url : string) (title_cell : Os.cell)
    : option string :=
  match Os.cell_href title_cell with
  | Some href => Os.urljoin E base_url href
  | None => Some ""
  end.

(** The loop of [parse_poem_rows] over the rows after the header; the link
    of a row is computed before its title is tested, so the [ValueError] of
    [urljoin] ([None]) is also raised for a row without a title. *)
Fixpoint parse_rows_loop (E : Os.env) (page : Z) (base_url : string)
    (tr_list : list (list Os.cell)) (rows : list PoemRow) : option (list PoemRow) :=
  match tr_list with
  | [] => Some rows
  | tr :: tr_list' =>
      match List.filter Os.is_td tr with
      | title_cell :: _ :: lines_cell :: views_cell :: _ =>
          let title := Os.cell_text title_cell in
          match link_of_cell E base_url title_cell with
          | None => None
          | Some link =>
              if Py.is_empty title
              then parse_rows_loop E page base_url tr_list' rows
              else parse_rows_loop E page base_url tr_list'
                     (rows ++ [ {| title := title; link := link;
                                   lines := Os.cell_text lines_cell;
                                   views := Os.cell_text views_cell;
                                   source_page := Py.str_of_int page |} ])
          end
      | _ => parse_rows_loop E page base_url tr_list' rows
      end
  end.

(** [parse_poem_rows]: [None] is the [ValueError] of the missing table, or
    the one of [urljoin]. *)
Definition parse_poem_rows (E : Os.env) (html : string) (page : Z) (base_url : string)
    : option (list PoemRow) :=
  match List.find is_poems_header (Os.soup_tables E html) with
  | None => None
  | Some target_table => parse_rows_loop E page base_url (tail target_table) []
  end.

(** A retry-delay header that counts: the response is there, it has a
    [Retry-After] header, the header is not empty and [float] reads it. *)
Definition has_valid_retry_after (E : Os.env) (response : option Os.response) : bool :=
  match response with
  | Some response =>
      match Os.retry_after response with
      | Some retry_after =>
          negb (Py.is_empty retry_after)
          && bool_decide (is_Some (Os.float_of_str E retry_after))
      | None => false
      end
  | None => false
  end.

(** [random.uniform(a, b)] from the value [r] of [random.random()] *)
Definition uniform (r a b : Q) : Q := (a + (b - a) * r)%Q.

(** The greatest exponent [k] for which [base_delay * (2 ** k)] has a
    value: the product converts the integer [2 ** k] to a [float], which
    raises [OverflowError] from [2 ** 1024] on, whatever [base_delay] is. *)
Definition max_float_exponent : Z := 1023.

(** [compute_backoff_seconds]; the jitter takes the next random draw.
    [None] is the [OverflowError] of the formula, raised before the draw.
    For [attempt < 1] the power [2 ** (attempt - 1)] is the float of a
    negative exponent. *)
Definition compute_backoff_seconds (E : Os.env) (response : option Os.response)
    (attempt : Z) (base_delay : Q) (w : Os.world) : option (Q * Os.world) :=
  let formula :=
    if max_float_exponent <? attempt - 1 then None
    else
      let exp :=
        let grown := (base_delay * Qpower 2 (attempt - 1))%Q in
        if Qle_bool 60 grown then 60%Q else grown in
      let jitter :=
        uniform (Os.random E (Os.draws w)) 0 ((1 # 2) * base_delay + (1 # 10))%Q in
      Some ((exp + jitter)%Q,
            {| Os.files := Os.files w; Os.tables := Os.tables w;
               Os.draws := S (Os.draws w); Os.trace := Os.trace w |}) in
  match response with
  | Some response =>
      match Os.retry_after response with
      | Some retry_after =>
          if Py.is_empty retry_after then formula
          else
            match Os.float_of_str E retry_after with
            | Some seconds => Some (if Qle_bool 0 seconds then seconds else 0%Q, w)
            | None => formula
            end
      | None => formula
      end
  | None => formula
  end.

Definition is_transient (status : Z) : bool :=
  existsb (Z.eqb status) [429; 500; 502; 503; 504].

(** The loop of [fetch_html_with_retries] over the attempts that are
    left; [None] is the [RuntimeError] after the last one, or the
    [OverflowError] of the backoff, which no handler catches. *)
Fixpoint fetch_loop (E : Os.env) (url : string) (base_delay : Q)
    (attempts : list Z) (w : Os.world) : option string * Os.world :=
  match attempts with
  | [] => (None, w)
  | attempt :: attempts' =>
      match Os.get E url w with
      | (Os.TransportError, w) =>
          match compute_backoff_seconds E None attempt base_delay w with
          | Some (wait_s, w) => fetch_loop E url base_delay attempts' (Os.sleep wait_s w)
          | None => (None, w)
          end
      | (Os.Got response, w) =>
          let status := Os.status_code response in
          if status =? 200 then (Some (Os.text response), w)
          else if is_transient status then
            match compute_backoff_seconds E (Some response) attempt base_delay w with
            | Some (wait_s, w) =>
                fetch_loop E url base_delay attempts' (Os.sleep wait_s w)
            | None => (None, w)
            end
          else if Os.is_error_status status then
            (* [raise_for_status] raises, and the handler waits *)
            match compute_backoff_seconds E (Some response) attempt base_delay w with
            | Some (wait_s, w) =>
                fetch_loop E url base_delay attempts' (Os.sleep wait_s w)
            | None => (None, w)
            end
          else fetch_loop E url base_delay attempts' w
      end
  end.

Definition fetch_html_with_retries (E : Os.env) (url : string) (max_retries : Z)
    (base_delay : Q) (w : Os.world) : option string * Os.world :=
  fetch_loop E url base_delay (Py.range 1 (max_retries + 1)) w.

Definition append_rows_to_csv (path : string) (rows : list PoemRow) (w : Os.world)
    : Os.world :=
  append_rows path
    (map (fun r => [title r; link r; lines r; views r; source_page r]) rows) w.

(** [format_duration]: [divmod] by 3600, then by 60. *)
Definition format_duration (seconds : Q) : string :=
  let total_seconds := Z.max 0 (Py.int_of_float seconds) in
  let hours := total_seconds / 3600 in
  let remainder := total_seconds mod 3600 in
  let minutes := remainder / 60 in
  let secs := remainder mod 60 in
  Py.format_02d hours +:+ ":" +:+ Py.format_02d minutes +:+ ":" +:+ Py.format_02d secs.

(** The start page that [main] resolves from the arguments and the
    checkpoint. *)
Definition resolve_start_page (E : Os.env) (args : Args) (w : Os.world) : Z :=
  let start_page := start_page args in
  if resume args then
    match load_checkpoint E (checkpoint args) w with
    | Some checkpoint_page => Z.max start_page checkpoint_page
    | None => start_page
    end
  else start_page.

(** How a run ends: normally, or with the exception that a page raised. *)
Inductive outcome : Type := Done | Failed.

(** The loop of [main] over the pages that are left. *)
Fixpoint page_loop (E : Os.env) (args : Args) (pages : list Z) (w : Os.world)
    : outcome * Os.world :=
  match pages with
  | [] => (Done, w)
  | page :: pages' =>
      let url := BASE_URL_TEMPLATE page in
      match fetch_html_with_retries E url (max_retries args) (delay args) w with
      | (None, w) => (Failed, w)
      | (Some html, w) =>
          match parse_poem_rows E html page url with
          | None => (Failed, w)
          | Some rows =>
              let w := append_rows_to_csv (output args) rows w in
              let w := save_checkpoint E (checkpoint args) (page + 1) w in
              let w :=
                if negb (Qle_bool (delay args) 0) then Os.sleep (delay args) w
                else w in
              page_loop E args pages' w
          end
      end
  end.

Definition main (E : Os.env) (args : Args) (w : Os.world) : outcome * Os.world :=
  if end_page args <? start_page args then (Failed, w)
  else
    let w := ensure_csv_header (output args) w in
    let start_page := resolve_start_page E args w in
    page_loop E args (Py.range start_page (end_page args + 1)) w.

End Scrape.

(** ** [1-dedupe_poems_csv.py] *)

Module Dedupe.

(** The dictionary that [csv.DictReader] makes of a row, column after
    column: of two columns with the same name the later one wins, and a
    column that the row is too short for holds [None]. *)
Fixpoint to_dict (fieldnames row : list string) (d : gmap string (option string))
    : gmap string (option string) :=
  match fieldnames with
  | [] => d
  | name :: fieldnames' =>
      match row with
      | [] => to_dict fieldnames' [] (<[ name := None ]> d)
      | value :: row' => to_dict fieldnames' row' (<[ name := Some value ]> d)
      end
  end.

(** [(row.get(col) or "")], which is also what [csv.DictWriter] writes for
    the column. *)
Definition get_or_empty (d : gmap string (option string)) (col : string) : string :=
  match d !! col with
  | Some (Some value) => value
  | _ => ""
  end.

(** [tuple((row.get(col) or "").strip() for col in key_columns)] *)
Definition key_of (fieldnames key_columns row : list string) : list string :=
  map (fun col => Py.strip (get_or_empty (to_dict fieldnames row ∅) col)) key_columns.

(** The line that [writer.writerow(row)] writes. *)
Definition written_row (fieldnames row : list string) : list string :=
  map (get_or_empty (to_dict fieldnames row ∅)) fieldnames.

(** The loop of [dedupe_csv] over the lines after the header, as
    [csv.reader] gives them; [csv.DictReader] skips the empty ones. A line
    with more fields than the header has them under the key [None], and
    [writer.writerow] raises [ValueError] for it: the result is then [None],
    with the lines written so far. *)
Fixpoint dedupe_loop (fieldnames key_columns : list string) (reader : list (list string))
    (seen : gset (list string)) (written : list (list string)) (total kept : Z)
    : option (Z * Z) * list (list string) :=
  match reader with
  | [] => (Some (total, kept), written)
  | row :: reader' =>
      match row with
      | [] => dedupe_loop fieldnames key_columns reader' seen written total kept
      | _ :: _ =>
          let total := total + 1 in
          let key := key_of fieldnames key_columns row in
          if bool_decide (key ∈ seen)
          then dedupe_loop fieldnames key_columns reader' seen written total kept
          else if (List.length fieldnames <? List.length row)%nat
          then (None, written)
          else dedupe_loop fieldnames key_columns reader' ({[ key ]} ∪ seen)
                 (written ++ [written_row fieldnames row]) total (kept + 1)
      end
  end.

(** [dedupe_csv], for an output path other than the input path. [None] is
    an exception: the input file is absent, it has no header line, a key
    column is missing from the header, or the writer refused a line. *)
Definition dedupe_csv (input_path output_path : string) (key_columns : list string)
    (w : Os.world) : option (Z * Z) * Os.world :=
  match Os.tables w !! input_path with
  | None => (None, w)
  | Some [] => (None, w)
  | Some (fieldnames :: reader) =>
      let missing :=
        List.filter (fun col => negb (existsb (String.eqb col) fieldnames)) key_columns in
      match missing with
      | _ :: _ => (None, w)
      | [] =>
          match dedupe_loop fieldnames key_columns reader ∅ [] 0 0 with
          | (result, written) =>
              (result,
               {| Os.files := Os.files w;
                  Os.tables := <[ output_path := fieldnames :: written ]> (Os.tables w);
                  Os.draws := Os.draws w; Os.trace := Os.trace w |})
          end
      end
  end.

(** [dedupe_in_place]: [temp_path] is the name of the temporary file,
    which is created empty, then written, then moved over the input or
    removed. *)
Definition dedupe_in_place (temp_path input_path : string) (key_columns : list string)
    (w : Os.world) : option (Z * Z) * Os.world :=
  let w :=
    {| Os.files := Os.files w; Os.tables := <[ temp_path := [] ]> (Os.tables w);
       Os.draws := Os.draws w; Os.trace := Os.trace w |} in
  match dedupe_csv input_path temp_path key_columns w with
  | (Some counts, w) =>
      (Some counts,
       {| Os.files := Os.files w;
          Os.tables :=
            <[ input_path := default [] (Os.tables w !! temp_path) ]>
              (delete temp_path (Os.tables w));
          Os.draws := Os.draws w; Os.trace := Os.trace w |})
  | (None, w) =>
      (None,
       {| Os.files := Os.files w; Os.tables := delete temp_path (Os.tables w);
          Os.draws := Os.draws w; Os.trace := Os.trace w |})
  end.

End Dedupe.

(** ** Observations on the trace *)

Module Trace.

(** An event of a fetch through the cache in [cache_dir]: a request, a
    sleep that is not negative, or the writing of a cache file. *)
Definition of_cached_fetch (E : Os.env) (cache_dir : string) (e : Os.event) : Prop :=
  match e with
  | Os.EvGet _ => True
  | Os.EvSleep seconds => (0 <= seconds)%Q
  | Os.EvWriteText path _ =>
      exists url, path = Os.path_join cache_dir (Os.sha256_hex E url +:+ ".html")
  | Os.EvAppendRows _ _ => False
  end.

End Trace.

(** ** Concrete inputs *)

Module Inputs.

(** A passage of [n] typed characters, in one word. *)
Fixpoint passage (n : nat) : string :=
  match n with
  | O => EmptyString
  | S n' => String "a" (passage n')
  end.

(** A baseline whose typed-character values are 50, 60, ..., 100. *)
Definition baseline : list string :=
  map passage [70; 50; 100; 60; 90; 80]%nat.

(** Two poems with the same view count. *)
Definition short_poem : Shortlist.Poem :=
  {| Shortlist.p_title := "Short"; Shortlist.p_link := "https://example.org/short";
     Shortlist.p_lines := 10; Shortlist.p_views := 5 |}.

Definition long_poem : Shortlist.Poem :=
  {| Shortlist.p_title := "Long"; Shortlist.p_link := "https://example.org/long";
     Shortlist.p_lines := 20; Shortlist.p_views := 5 |}.

(** A row of the corpus. *)
Definition csv_row (title link lines views : string) : gmap string string :=
  <[ "title" := title ]> (<[ "link" := link ]> (<[ "lines" := lines ]>
    (<[ "views" := views ]> (<[ "source_page" := "1" ]> ∅)))).

Definition corpus : list (gmap string string) :=
  [ csv_row "Sponsored Links" "https://example.org/a" "12" "9";
    csv_row "First" "https://example.org/a" "12" "7";
    csv_row "Second" "https://example.org/b" "n/a" "3";
    csv_row "Again" "https://example.org/a" "14" "1";
    csv_row "Third" "https://example.org/c" "30" "" ].

Definition newline : string := String Py.LF EmptyString.

(** The text of the table cell of a poem page: title, byline, six lines and
    the footer, 417 characters. *)
Definition poem_cell : string :=
  Py.join newline
    [ "The Raven"; "By Edgar Allan Poe";
      "Once upon a midnight dreary, while I pondered, weak and weary,";
      "Over many a quaint and curious volume of forgotten lore-";
      "While I nodded, nearly napping, suddenly there came a tapping,";
      "As of some one gently rapping, rapping at my chamber door.";
      "'Tis some visitor, I muttered, tapping at my chamber door-";
      "Only this and nothing more.";
      "Extra Info: blah"; "Printable Page"; "This page viewed 123 times." ].

(** The text of a cell that holds a poem of four long lines, 260
    characters. *)
Definition four_line_cell : string :=
  Py.join newline
    [ "Once upon a midnight dreary, while I pondered, weak and weary,";
      "Over many a quaint and curious volume of forgotten lore, and more,";
      "While I nodded, nearly napping, suddenly there came a tapping, tapping,";
      "As of some one gently rapping, rapping at my chamber door." ].

(** The text of the outer cell of a page laid out as one table: the menu
    and the poem together. *)
Definition layout_cell : string :=
  Py.join newline
    [ "Main Menu"; "Home"; "Poets"; "The Raven";
      "Once upon a midnight dreary, while I pondered, weak and weary,";
      "Over many a quaint and curious volume of forgotten lore-";
      "While I nodded, nearly napping, suddenly there came a tapping,";
      "As of some one gently rapping, rapping at my chamber door." ].

(** A stand-in for [json] in which the checkpoint file holds the page
    number alone. *)
Definition number_loads (s : string) : option Os.json :=
  match Py.int_of_digits s with
  | Some n => Some (Os.JDict [("next_page", Os.JInt n)])
  | None => None
  end.

Definition number_dumps (v : Os.json) : string :=
  match v with
  | Os.JDict [(_, Os.JInt n)] => Py.str_of_int n
  | _ => "null"
  end.

Definition th (text : string) : Os.cell :=
  {| Os.is_td := false; Os.cell_text := text; Os.cell_href := None |}.

Definition td (text : string) (href : option string) : Os.cell :=
  {| Os.is_td := true; Os.cell_text := text; Os.cell_href := href |}.

(** A listing page with one poem. *)
Definition listing : list (list (list Os.cell)) :=
  [ [ [th "Poem Title"; th "Author"; th "Lines"; th "Views"];
      [td "The Raven" (Some "https://example.org/raven"); td "Edgar Allan Poe" None;
       td "108" None; td "4321" None] ] ].

(** A page whose two lines end in carriage return and line feed. *)
Definition crlf_page : string :=
  "a" +:+ String Py.CR (String Py.LF "b").

(** A server that answers every request with [crlf_page], on a POSIX
    system; the digest of a URL is replaced by the URL itself. *)
Definition env : Os.env :=
  {| Os.os := Os.Posix;
     Os.sha256_hex := fun url => url;
     Os.http_get := fun _ _ =>
       Os.Got {| Os.status_code := 200; Os.retry_after := None; Os.text := crlf_page |};
     Os.random := fun _ => 1 # 2;
     Os.float_of_str := fun s => inject_Z <$> Py.int_of_digits s;
     Os.json_loads := number_loads;
     Os.json_dumps := number_dumps;
     Os.td_texts := fun html => [html];
     Os.soup_tables := fun _ => listing;
     Os.urljoin := fun _ href => Some href |}.

(** The same system with a server that answers every request with the
    given status and [Retry-After] header. *)
Definition env_answering (status : Z) (retry_after : option string) : Os.env :=
  {| Os.os := Os.Posix;
     Os.sha256_hex := fun url => url;
     Os.http_get := fun _ _ =>
       Os.Got {| Os.status_code := status; Os.retry_after := retry_after;
                 Os.text := crlf_page |};
     Os.random := fun _ => 1 # 2;
     Os.float_of_str := fun s => inject_Z <$> Py.int_of_digits s;
     Os.json_loads := number_loads;
     Os.json_dumps := number_dumps;
     Os.td_texts := fun html => [html];
     Os.soup_tables := fun _ => listing;
     Os.urljoin := fun _ href => Some href |}.

Definition empty_world : Os.world :=
  {| Os.files := ∅; Os.tables := ∅; Os.draws := 0; Os.trace := [] |}.

(** A world whose checkpoint file says that page 5 is the next one. *)
Definition resumed_world : Os.world :=
  {| Os.files := {[ "checkpoint.json" := "5" ]}; Os.tables := ∅;
     Os.draws := 0; Os.trace := [] |}.

Definition args (start_page end_page : Z) (resume : bool) : Scrape.Args :=
  {| Scrape.start_page := start_page; Scrape.end_page := end_page;
     Scrape.output := "poems.csv"; Scrape.checkpoint := "checkpoint.json";
     Scrape.delay := 1 # 2; Scrape.max_retries := 8; Scrape.resume := resume |}.

(** A server that answers every request with a page whose one table cell
    is [poem_cell]. *)
Definition poem_server : Os.env :=
  {| Os.os := Os.Posix;
     Os.sha256_hex := fun url => url;
     Os.http_get := fun _ _ =>
       Os.Got {| Os.status_code := 200; Os.retry_after := None; Os.text := poem_cell |};
     Os.random := fun _ => 1 # 2;
     Os.float_of_str := fun s => inject_Z <$> Py.int_of_digits s;
     Os.json_loads := number_loads;
     Os.json_dumps := number_dumps;
     Os.td_texts := fun html => [html];
     Os.soup_tables := fun _ => listing;
     Os.urljoin := fun _ href => Some href |}.

(** A baseline of three passages: one line, three lines and the whole of
    what the extraction keeps of [poem_cell]. *)
Definition verses : list string :=
  [ "Once upon a midnight dreary, while I pondered, weak and weary,";
    Py.join " "
      [ "Once upon a midnight dreary, while I pondered, weak and weary,";
        "Over many a quaint and curious volume of forgotten lore-";
        "While I nodded, nearly napping, suddenly there came a tapping," ];
    Shortlist.extract_poem_text_of_cells [poem_cell] ].

Definition shortlist_args (delay : Q) : Shortlist.Args :=
  {| Shortlist.per_band := 1; Shortlist.max_fetch := 3; Shortlist.delay := delay;
     Shortlist.cache_dir := ".cache/poem_pages" |}.

(** A corpus file with its header, a line that comes twice, an empty line
    and a line that is too short, and a world that holds it. *)
Definition poems_table : list (list string) :=
  [ Scrape.fieldnames;
    ["The Raven"; "https://example.org/raven"; "108"; "4321"; "1"];
    [];
    ["The Raven"; "https://example.org/raven"; "108"; "4321"; "1"];
    ["Lenore"; "https://example.org/lenore"; "26"] ].

Definition harvested_world : Os.world :=
  {| Os.files := ∅; Os.tables := {[ "poems.csv" := poems_table ]};
     Os.draws := 0; Os.trace := [] |}.

End Inputs.

(** ** Proof tactics *)

(** Closes the goal that a row stopped by the guard [H] of [load_poems] is
    not eligible. *)
Ltac skip_row H :=
  let He := fresh in
  intros He; unfold Shortlist.eligible in He; rewrite H in He;
  rewrite ?andb_false_r in He; simpl in He; discriminate He.

(** * Properties *)

(** ** The sort *)

Section Sorting.

Context {A : Type} (lt : A -> A -> bool).

Lemma insert_by_Permutation (x : A) (l : list A) :
  Py.insert_by lt x l ≡ₚ x :: l.
Proof.
  induction l as [|y l IH]; simpl; [done|].
  destruct (lt y x); [|done].
  rewrite IH. apply perm_swap.
Qed.

Lemma sort_by_Permutation (l : list A) : Py.sort_by lt l ≡ₚ l.
Proof.
  induction l as [|x l IH]; simpl; [done|].
  rewrite insert_by_Permutation. by rewrite IH.
Qed.

Lemma sort_by_length (l : list A) : List.length (Py.sort_by lt l) = List.length l.
Proof. apply Permutation_length, sort_by_Permutation. Qed.

Hypothesis lt_asym : forall x y, lt x y = true -> lt y x = false.
Hypothesis lt_neg_trans :
  forall x y z, lt y x = false -> lt z y = false -> lt z x = false.

Lemma insert_by_sorted (x : A) (l : list A) :
  StronglySorted (Py.may_precede lt) l ->
  StronglySorted (Py.may_precede lt) (Py.insert_by lt x l).
Proof.
  induction 1 as [|y l Hl IH Hy]; simpl.
  - repeat constructor.
  - destruct (lt y x) eqn:Hyx.
    + constructor; [done|].
      rewrite insert_by_Permutation. constructor; [|done].
      by apply lt_asym.
    + constructor; [by constructor|].
      constructor; [done|].
      eapply Forall_impl; [exact Hy|].
      intros z Hz. by eapply lt_neg_trans.
Qed.

Lemma sort_by_sorted (l : list A) :
  StronglySorted (Py.may_precede lt) (Py.sort_by lt l).
Proof.
  induction l as [|x l IH]; simpl; [constructor|].
  by apply insert_by_sorted.
Qed.

End Sorting.

Lemma sorted_Permutation (l : list Z) : Py.sorted l ≡ₚ l.
Proof. apply sort_by_Permutation. Qed.

Lemma sorted_StronglySorted (l : list Z) : StronglySorted Z.le (Py.sorted l).
Proof.
  assert (H : StronglySorted (Py.may_precede Z.ltb) (Py.sorted l)).
  { apply sort_by_sorted; intros x y; [|intros z]; lia. }
  induction H as [|x l' Hl IH Hx]; constructor; [done|].
  eapply Forall_impl; [exact Hx|].
  intros y Hy. unfold Py.may_precede in Hy. lia.
Qed.

Lemma sorted_length (l : list Z) : List.length (Py.sorted l) = List.length l.
Proof. apply sort_by_length. Qed.

Lemma Zle_antisym : AntiSymm (=) Z.le.
Proof. intros x y ??. lia. Qed.

(** Sorting depends on the values only, not on their order. *)
Lemma sorted_of_Permutation (l1 l2 : list Z) :
  l1 ≡ₚ l2 -> Py.sorted l1 = Py.sorted l2.
Proof.
  intros H.
  apply (@StronglySorted_unique _ Z.le Zle_antisym); try apply sorted_StronglySorted.
  by rewrite !sorted_Permutation.
Qed.

Lemma sorted_idempotent (l : list Z) : Py.sorted (Py.sorted l) = Py.sorted l.
Proof. apply sorted_of_Permutation, sorted_Permutation. Qed.

(** ** The cut points *)

Lemma item_mono (data : list Z) (a b : Z) :
  StronglySorted Z.le data ->
  0 <= a <= b -> b < Z.of_nat (List.length data) ->
  Statistics.item data a <= Statistics.item data b.
Proof.
  unfold Statistics.item. intros Hs Hab Hb.
  assert (Hn : (Z.to_nat a <= Z.to_nat b < List.length data)%nat) by lia.
  clear Hab Hb. revert Hn. generalize (Z.to_nat a) (Z.to_nat b). clear a b.
  induction Hs as [|x l Hl IH Hx]; intros a b Hab; simpl in *; [lia|].
  destruct a as [|a], b as [|b]; try lia.
  - rewrite List.Forall_forall in Hx. apply Hx, nth_In. lia.
  - apply IH. lia.
Qed.

(** The numerator of a cut point grows with the position [p = i * m]. *)
Lemma cut_numerator_mono (data : list Z) (n p p' : Z) :
  StronglySorted Z.le data ->
  0 < n -> 0 <= p <= p' -> p' <= n * (Z.of_nat (List.length data) - 1) ->
  Statistics.item data (p / n) * (n - p mod n)
    + Statistics.item data (p / n + 1) * (p mod n)
  <= Statistics.item data (p' / n) * (n - p' mod n)
    + Statistics.item data (p' / n + 1) * (p' mod n).
Proof.
  intros Hs Hn Hp Hp'.
  pose proof (Z.div_mod p n ltac:(lia)) as E.
  pose proof (Z.div_mod p' n ltac:(lia)) as E'.
  pose proof (Z.mod_pos_bound p n Hn) as B.
  pose proof (Z.mod_pos_bound p' n Hn) as B'.
  pose proof (Z.div_pos p n ltac:(lia) Hn) as J.
  pose proof (Z.div_le_mono p p' n Hn ltac:(lia)) as JJ.
  set (j := p / n) in *. set (d := p mod n) in *.
  set (j' := p' / n) in *. set (d' := p' mod n) in *.
  set (ld := Z.of_nat (List.length data)) in *.
  assert (Hj' : j' <= ld - 1) by nia.
  assert (Hd' : 0 < d' -> j' + 1 <= ld - 1) by nia.
  assert (Hd : 0 < d -> j + 1 <= ld - 1) by nia.
  destruct (Z.eq_dec j j') as [->|Hne].
  - (* the same segment *)
    assert (d <= d') by lia.
    destruct (Z.eq_dec d' 0) as [Hz|Hz]; [assert (d = 0) by lia; nia|].
    pose proof (item_mono data j' (j' + 1) Hs ltac:(lia) ltac:(lia)). nia.
  - (* a later segment *)
    assert (Hlt : j + 1 <= j') by lia.
    pose proof (item_mono data j (j + 1) Hs ltac:(lia) ltac:(lia)) as M1.
    pose proof (item_mono data (j + 1) j' Hs ltac:(lia) ltac:(lia)) as M2.
    destruct (Z.eq_dec d' 0) as [Hz|Hz]; [rewrite Hz; nia|].
    pose proof (item_mono data j' (j' + 1) Hs ltac:(lia) ltac:(lia)) as M3. nia.
Qed.

Lemma range_1_3 : Py.range 1 3 = [1; 2].
Proof. reflexivity. Qed.

(** With two data points or more, the tertiles are the two cut points. *)
Lemma quantiles_3 (py313 : bool) (data : list Z) :
  (2 <= List.length data)%nat ->
  Statistics.quantiles py313 data 3
  = Some [Statistics.cut_point (Py.sorted data) (Z.of_nat (List.length data) - 1) 3 1;
          Statistics.cut_point (Py.sorted data) (Z.of_nat (List.length data) - 1) 3 2].
Proof.
  intros H. unfold Statistics.quantiles.
  replace (3 <? 1) with false by reflexivity.
  cbv zeta. rewrite sorted_length.
  destruct (Z.ltb_spec (Z.of_nat (List.length data)) 2); [lia|].
  by rewrite range_1_3.
Qed.

Lemma int_of_cut_mono (data : list Z) :
  (2 <= List.length data)%nat ->
  Py.int_of_float
    (Statistics.cut_point (Py.sorted data) (Z.of_nat (List.length data) - 1) 3 1)
  <= Py.int_of_float
    (Statistics.cut_point (Py.sorted data) (Z.of_nat (List.length data) - 1) 3 2).
Proof.
  intros H. unfold Py.int_of_float, Statistics.cut_point. simpl Qnum. simpl Qden.
  apply Z.quot_le_mono; [lia|].
  set (m := Z.of_nat (List.length data) - 1).
  pose proof (cut_numerator_mono (Py.sorted data) 3 (1 * m) (2 * m)
                (sorted_StronglySorted data) ltac:(lia)) as M.
  rewrite sorted_length in M. apply M; lia.
Qed.

(** ** The bands of the baseline *)

Lemma quantiles_3_ordered (py313 : bool) (data : list Z) (qs : list Q) :
  Statistics.quantiles py313 data 3 = Some qs ->
  exists q1 q2, qs = [q1; q2] /\ Py.int_of_float q1 <= Py.int_of_float q2.
Proof.
  destruct (le_lt_dec 2 (List.length data)) as [Hlen|Hlen].
  - rewrite quantiles_3 by exact Hlen. intros [= <-].
    eexists _, _. split; [reflexivity|]. by apply int_of_cut_mono.
  - destruct data as [|x [|y data]]; [| |simpl in Hlen; lia].
    + unfold Statistics.quantiles. simpl. by destruct py313.
    + unfold Statistics.quantiles. simpl. destruct py313; [|done].
      intros [= <-]. eexists _, _. split; reflexivity.
Qed.

(** The shape of the result of [load_baseline_ranges]. *)
Lemma load_baseline_ranges_shape (py313 : bool) (passages : list string)
    (bands : list (string * Shortlist.Band)) :
  Shortlist.load_baseline_ranges py313 passages = Some bands ->
  exists cmin cq1 cq2 cmax wmin wq1 wq2 wmax,
    cq1 <= cq2 /\ wq1 <= wq2 /\
    bands = [ ("easy", ((cmin, cq1), (wmin, wq1)));
              ("medium", ((cq1 + 1, cq2), (wq1 + 1, wq2)));
              ("hard", ((cq2 + 1, cmax), (wq2 + 1, wmax))) ].
Proof.
  unfold Shortlist.load_baseline_ranges.
  destruct passages as [|p ps]; [done|].
  cbv zeta.
  destruct (Statistics.quantiles py313 _ 3) as [cqs|] eqn:Hc; [|done].
  apply quantiles_3_ordered in Hc as (cq1 & cq2 & -> & Hcq).
  destruct (Statistics.quantiles py313 _ 3) as [wqs|] eqn:Hw; [|done].
  apply quantiles_3_ordered in Hw as (wq1 & wq2 & -> & Hwq).
  intros [= <-]. eexists _, _, _, _, _, _, _, _.
  split; [exact Hcq|]. split; [exact Hwq|]. reflexivity.
Qed.

Lemma in_band_spec (c : Shortlist.Candidate) (band : Shortlist.Band) :
  Shortlist.in_band c band = true <->
  fst (fst band) <= Shortlist.typed_chars c <= snd (fst band)
  /\ fst (snd band) <= Shortlist.words c <= snd (snd band).
Proof.
  destruct band as [[a b] [a' b']]. unfold Shortlist.in_band. simpl.
  rewrite !andb_true_iff, !Z.leb_le. lia.
Qed.

(** When at most one entry of [bands] holds the candidate, the loop of
    [assign] finds that entry wherever it stands. *)
Lemma assign_unique_match (bands : list (string * Shortlist.Band)) (per_band : Z)
    (shortlisted : gmap string (list Shortlist.Candidate)) (c : Shortlist.Candidate) :
  (forall e1 e2, In e1 bands -> In e2 bands ->
     Shortlist.in_band c (snd e1) = true -> Shortlist.in_band c (snd e2) = true ->
     e1 = e2) ->
  Shortlist.assign bands per_band shortlisted c
  = match List.find (fun e => Shortlist.in_band c (snd e)) bands with
    | Some (band_name, _) =>
        let held := default [] (shortlisted !! band_name) in
        if per_band <=? Z.of_nat (List.length held) then shortlisted
        else <[ band_name := held ++ [c] ]> shortlisted
    | None => shortlisted
    end.
Proof.
  induction bands as [|[n b] bands IH]; intros U; [done|].
  simpl. destruct (Shortlist.in_band c b) eqn:Hb.
  - destruct (per_band <=? _) eqn:Hfull; [|done].
    rewrite IH by (intros; apply U; simpl; auto).
    destruct (List.find _ bands) as [[n' b']|] eqn:Hf; [|done].
    apply List.find_some in Hf as [Hin Hb'].
    assert ((n, b) = (n', b')) as [= <- <-].
    { apply U; simpl; auto. }
    cbv zeta. by rewrite Hfull.
  - rewrite IH by (intros; apply U; simpl; auto).
    by destruct (per_band <=? _).
Qed.

Lemma find_unique_Permutation {A} (p : A -> bool) (l l' : list A) :
  (forall x y, In x l -> In y l -> p x = true -> p y = true -> x = y) ->
  l' ≡ₚ l -> List.find p l' = List.find p l.
Proof.
  intros U HP.
  destruct (List.find p l) as [x|] eqn:Hl, (List.find p l') as [x'|] eqn:Hl'; [| | |done].
  - apply List.find_some in Hl as [Hin Hp], Hl' as [Hin' Hp'].
    f_equal. apply U; [|done..]. by eapply Permutation_in.
  - apply List.find_some in Hl as [Hin Hp].
    eapply List.find_none in Hl'; [|eapply Permutation_in; [symmetry; exact HP|exact Hin]].
    congruence.
  - apply List.find_some in Hl' as [Hin' Hp'].
    eapply List.find_none in Hl; [|eapply Permutation_in; [exact HP|exact Hin']].
    congruence.
Qed.

(** C10. For every baseline for which [load_baseline_ranges] returns bands,
    the character ranges of the three bands are pairwise disjoint (the upper
    end of easy is strictly below the lower end of medium, the upper end of
    medium strictly below the lower end of hard), and so are the word
    ranges; hence a candidate lies in the range of at most one band, and the
    band that [assign] gives it does not depend on the order in which the
    bands are tried. *)
Theorem bands_pairwise_disjoint (py313 : bool) (passages : list string)
    (bands : list (string * Shortlist.Band)) :
  Shortlist.load_baseline_ranges py313 passages = Some bands ->
  (exists easy medium hard,
     bands = [("easy", easy); ("medium", medium); ("hard", hard)]
     /\ snd (fst easy) < fst (fst medium) /\ snd (fst medium) < fst (fst hard)
     /\ snd (fst easy) < fst (fst hard)
     /\ snd (snd easy) < fst (snd medium) /\ snd (snd medium) < fst (snd hard)
     /\ snd (snd easy) < fst (snd hard))
  /\ (forall c e1 e2, In e1 bands -> In e2 bands ->
        Shortlist.in_band c (snd e1) = true -> Shortlist.in_band c (snd e2) = true ->
        e1 = e2)
  /\ (forall bands' per_band shortlisted c, bands' ≡ₚ bands ->
        Shortlist.assign bands' per_band shortlisted c
        = Shortlist.assign bands per_band shortlisted c).
Proof.
  intros H.
  apply load_baseline_ranges_shape in H
    as (cmin & cq1 & cq2 & cmax & wmin & wq1 & wq2 & wmax & Hc & Hw & ->).
  assert (U : forall c e1 e2,
    In e1 [ ("easy", ((cmin, cq1), (wmin, wq1)));
            ("medium", ((cq1 + 1, cq2), (wq1 + 1, wq2)));
            ("hard", ((cq2 + 1, cmax), (wq2 + 1, wmax))) ] ->
    In e2 [ ("easy", ((cmin, cq1), (wmin, wq1)));
            ("medium", ((cq1 + 1, cq2), (wq1 + 1, wq2)));
            ("hard", ((cq2 + 1, cmax), (wq2 + 1, wmax))) ] ->
    Shortlist.in_band c (snd e1) = true -> Shortlist.in_band c (snd e2) = true ->
    e1 = e2).
  { intros c e1 e2 H1 H2. rewrite !in_band_spec. simpl in H1, H2.
    destruct H1 as [<-|[<-|[<-|[]]]], H2 as [<-|[<-|[<-|[]]]]; simpl; try done; lia. }
  split; [|split].
  - eexists _, _, _. split; [reflexivity|]. simpl. lia.
  - exact U.
  - intros bands' per_band shortlisted c HP.
    rewrite !assign_unique_match.
    + by rewrite (find_unique_Permutation
                    (fun e => Shortlist.in_band c (snd e)) _ _ (U c) HP).
    + apply U.
    + intros e1 e2 H1 H2. apply U; by eapply Permutation_in.
Qed.

(** With two passages or more, [load_baseline_ranges] returns its bands. *)
Lemma load_baseline_ranges_returns (py313 : bool) (passages : list string) :
  (2 <= List.length passages)%nat ->
  is_Some (Shortlist.load_baseline_ranges py313 passages).
Proof.
  intros H. unfold Shortlist.load_baseline_ranges.
  destruct passages as [|p ps]; [simpl in H; lia|].
  cbv zeta.
  rewrite !quantiles_3 by (rewrite sorted_length, !length_map; exact H).
  done.
Qed.

Lemma bands_pairwise_disjoint_witness :
  exists bands, Shortlist.load_baseline_ranges false Inputs.baseline = Some bands
  /\ (forall c e1 e2, In e1 bands -> In e2 bands ->
        Shortlist.in_band c (snd e1) = true -> Shortlist.in_band c (snd e2) = true ->
        e1 = e2).
Proof.
  eexists. split; [vm_compute; reflexivity|].
  apply (bands_pairwise_disjoint false Inputs.baseline). vm_compute; reflexivity.
Defined.

(** C1, as the code has it. For every baseline whose typed-character values
    are 50, 60, 70, 80, 90 and 100, the tertiles under the inclusive method
    are 200/3 and 250/3, which [int] truncates to 66 and 83, so the
    character ranges are easy = [50, 66], medium = [67, 83] and
    hard = [84, 180] with the slack of 80. *)
Theorem baseline_tertiles (py313 : bool) (passages : list string) :
  map fst (map Shortlist.score_text passages) ≡ₚ [50; 60; 70; 80; 90; 100] ->
  Statistics.quantiles py313 (map fst (map Shortlist.score_text passages)) 3
  = Some [200 # 3; 250 # 3]
  /\ Py.int_of_float (200 # 3) = 66 /\ Py.int_of_float (250 # 3) = 83
  /\ exists words_easy words_medium words_hard,
       Shortlist.load_baseline_ranges py313 passages
       = Some [ ("easy", ((50, 66), words_easy));
                ("medium", ((67, 83), words_medium));
                ("hard", ((84, 180), words_hard)) ].
Proof.
  intros H.
  assert (Hq : forall data, Py.sorted data = [50; 60; 70; 80; 90; 100] ->
     Statistics.quantiles py313 data 3 = Some [200 # 3; 250 # 3]).
  { intros data Hd. rewrite quantiles_3.
    - rewrite <- (sorted_length data), Hd. reflexivity.
    - rewrite <- (sorted_length data), Hd. simpl. lia. }
  assert (Hs : Py.sorted (map fst (map Shortlist.score_text passages))
               = [50; 60; 70; 80; 90; 100]).
  { rewrite (sorted_of_Permutation _ _ H). reflexivity. }
  split; [by apply Hq|]. split; [reflexivity|]. split; [reflexivity|].
  pose proof (Permutation_length H) as Hlen. rewrite !length_map in Hlen.
  unfold Shortlist.load_baseline_ranges.
  destruct passages as [|p ps]; [done|].
  cbv zeta. rewrite Hs.
  rewrite (Hq [50; 60; 70; 80; 90; 100]) by reflexivity.
  rewrite (quantiles_3 py313 (Py.sorted (map snd _)))
    by (rewrite sorted_length, !length_map, Hlen; simpl; lia).
  eexists _, _, _. reflexivity.
Qed.

Lemma baseline_tertiles_witness :
  Statistics.quantiles false (map fst (map Shortlist.score_text Inputs.baseline)) 3
  = Some [200 # 3; 250 # 3]
  /\ Py.int_of_float (200 # 3) = 66 /\ Py.int_of_float (250 # 3) = 83
  /\ exists words_easy words_medium words_hard,
       Shortlist.load_baseline_ranges false Inputs.baseline
       = Some [ ("easy", ((50, 66), words_easy));
                ("medium", ((67, 83), words_medium));
                ("hard", ((84, 180), words_hard)) ].
Proof.
  apply (baseline_tertiles false Inputs.baseline).
  vm_compute. symmetry. exact (sorted_Permutation [70; 50; 100; 60; 90; 80]).
Defined.

(** C1, as the specification states it, fails on the code: the first
    tertile of 50, ..., 100 is 200/3 and not 70, the second 250/3 and not 90,
    and the character ranges are not [50, 70], [71, 90] and [91, 180]. *)
Lemma baseline_tertiles_not_70_90 :
  Statistics.quantiles false [50; 60; 70; 80; 90; 100] 3 = Some [200 # 3; 250 # 3]
  /\ Statistics.quantiles true [50; 60; 70; 80; 90; 100] 3 = Some [200 # 3; 250 # 3]
  /\ ~ (200 # 3 == 70)%Q /\ ~ (250 # 3 == 90)%Q
  /\ Py.int_of_float (200 # 3) <> 70 /\ Py.int_of_float (250 # 3) <> 90
  /\ map (fun e => (fst e, fst (snd e)))
       (default [] (Shortlist.load_baseline_ranges false Inputs.baseline))
     = [("easy", (50, 66)); ("medium", (67, 83)); ("hard", (84, 180))]
  /\ map (fun e => (fst e, fst (snd e)))
       (default [] (Shortlist.load_baseline_ranges false Inputs.baseline))
     <> [("easy", (50, 70)); ("medium", (71, 90)); ("hard", (91, 180))].
Proof.
  split; [vm_compute; reflexivity|]. split; [vm_compute; reflexivity|].
  split; [intros H; vm_compute in H; discriminate H|].
  split; [intros H; vm_compute in H; discriminate H|].
  split; [vm_compute; intros H; discriminate H|].
  split; [vm_compute; intros H; discriminate H|].
  split; [vm_compute; reflexivity|].
  vm_compute. intros H; discriminate H.
Qed.

(** ** The candidate pool *)

Lemma tuple_lt_spec (a b : Z * Z) :
  Shortlist.tuple_lt a b = true <->
  fst a < fst b \/ (fst a = fst b /\ snd a < snd b).
Proof.
  unfold Shortlist.tuple_lt.
  rewrite orb_true_iff, andb_true_iff, !Z.ltb_lt, Z.eqb_eq. tauto.
Qed.

Lemma tuple_lt_false (a b : Z * Z) :
  Shortlist.tuple_lt a b = false <->
  fst b < fst a \/ (fst a = fst b /\ snd b <= snd a).
Proof.
  rewrite <- not_true_iff_false, tuple_lt_spec. lia.
Qed.

(** C4, as the code has it. The pool holds exactly the poems whose line
    count is between 8 and 60, ordered by view count descending, and the
    poems of equal view count by line count ascending. *)
Theorem rough_pool_order (all_poems : list Shortlist.Poem) :
  Shortlist.rough_pool all_poems
    ≡ₚ List.filter (fun row => (8 <=? Shortlist.p_lines row)
                          && (Shortlist.p_lines row <=? 60)) all_poems
  /\ (forall row, In row (Shortlist.rough_pool all_poems) <->
        In row all_poems /\ 8 <= Shortlist.p_lines row <= 60)
  /\ StronglySorted
       (fun a b => Shortlist.p_views b < Shortlist.p_views a
                   \/ (Shortlist.p_views a = Shortlist.p_views b
                       /\ Shortlist.p_lines a <= Shortlist.p_lines b))
       (Shortlist.rough_pool all_poems).
Proof.
  unfold Shortlist.rough_pool. cbv zeta.
  set (keep := fun row => (8 <=? Shortlist.p_lines row)
                          && (Shortlist.p_lines row <=? 60)).
  set (lt := fun a b => Shortlist.tuple_lt (Shortlist.pool_key b) (Shortlist.pool_key a)).
  split; [apply sort_by_Permutation|]. split.
  - intros row. rewrite <- !list_elem_of_In.
    rewrite (sort_by_Permutation lt (List.filter keep all_poems)).
    rewrite !list_elem_of_In, List.filter_In. unfold keep.
    rewrite andb_true_iff, !Z.leb_le. tauto.
  - assert (H : StronglySorted (Py.may_precede lt)
                  (Py.sort_by lt (List.filter keep all_poems))).
    { apply sort_by_sorted; unfold lt.
      - intros x y. rewrite tuple_lt_spec, tuple_lt_false. lia.
      - intros x y z. rewrite !tuple_lt_false. lia. }
    induction H as [|x l Hl IH Hx]; constructor; [done|].
    eapply Forall_impl; [exact Hx|].
    intros y Hy. unfold Py.may_precede, lt in Hy.
    apply tuple_lt_false in Hy. unfold Shortlist.pool_key in Hy. simpl in Hy. lia.
Qed.

(** C4, as the specification states it, fails on the code: of two poems
    with the same view count the one with fewer lines comes first, whatever
    their order in the corpus, so the pool is not ordered by line count
    descending among equal view counts. *)
Lemma rough_pool_ties_ascending :
  Shortlist.rough_pool [Inputs.long_poem; Inputs.short_poem]
    = [Inputs.short_poem; Inputs.long_poem]
  /\ Shortlist.rough_pool [Inputs.short_poem; Inputs.long_poem]
    = [Inputs.short_poem; Inputs.long_poem]
  /\ ~ StronglySorted
       (fun a b => Shortlist.p_views b < Shortlist.p_views a
                   \/ (Shortlist.p_views a = Shortlist.p_views b
                       /\ Shortlist.p_lines b <= Shortlist.p_lines a))
       (Shortlist.rough_pool [Inputs.long_poem; Inputs.short_poem]).
Proof.
  split; [reflexivity|]. split; [reflexivity|].
  intros H.
  change (Shortlist.rough_pool [Inputs.long_poem; Inputs.short_poem])
    with [Inputs.short_poem; Inputs.long_poem] in H.
  apply StronglySorted_inv in H as [_ H].
  apply Forall_inv in H. simpl in H. lia.
Qed.

(** ** The rows of the corpus *)

Lemma load_poems_loop_spec (reader : list (gmap string string))
    (rows : list Shortlist.Poem) (seen_links : gset string)
    (pool : list Shortlist.Poem) :
  Shortlist.load_poems_loop reader rows seen_links = Some pool ->
  exists new,
    pool = rows ++ new
    /\ NoDup (map Shortlist.p_link new)
    /\ (forall p, In p new ->
          (Shortlist.p_link p ∉ seen_links)
          /\ exists pre row post,
               reader = pre ++ row :: post
               /\ Shortlist.eligible row = true
               /\ Shortlist.p_title p = Shortlist.field row "title"
               /\ Shortlist.p_link p = Shortlist.field row "link"
               /\ Py.int_of_digits (Shortlist.field row "lines")
                  = Some (Shortlist.p_lines p)
               /\ forall r, In r pre -> Shortlist.eligible r = true ->
                    Shortlist.field r "link" <> Shortlist.p_link p)
    /\ (forall row, In row reader -> Shortlist.eligible row = true ->
          Shortlist.field row "link" ∈ seen_links
          \/ In (Shortlist.field row "link") (map Shortlist.p_link new)).
Proof.
  revert rows seen_links pool.
  induction reader as [|row reader IH]; intros rows seen pool; simpl.
  - intros [= <-]. exists []. rewrite app_nil_r.
    split; [done|]. split; [constructor|]. split; [intros p []|intros r []].
  - assert (Skip : Shortlist.load_poems_loop reader rows seen = Some pool ->
        (Shortlist.eligible row = true -> Shortlist.field row "link" ∈ seen) ->
        exists new, pool = rows ++ new
          /\ NoDup (map Shortlist.p_link new)
          /\ (forall p, In p new ->
                (Shortlist.p_link p ∉ seen)
                /\ exists pre row0 post,
                     row :: reader = pre ++ row0 :: post
                     /\ Shortlist.eligible row0 = true
                     /\ Shortlist.p_title p = Shortlist.field row0 "title"
                     /\ Shortlist.p_link p = Shortlist.field row0 "link"
                     /\ Py.int_of_digits (Shortlist.field row0 "lines")
                        = Some (Shortlist.p_lines p)
                     /\ forall r, In r pre -> Shortlist.eligible r = true ->
                          Shortlist.field r "link" <> Shortlist.p_link p)
          /\ (forall row0, In row0 (row :: reader) -> Shortlist.eligible row0 = true ->
                Shortlist.field row0 "link" ∈ seen
                \/ In (Shortlist.field row0 "link") (map Shortlist.p_link new))).
    { intros H Hrow. apply IH in H as (new & -> & Hnd & Hnew & Hall).
      exists new. split; [done|]. split; [done|]. split.
      - intros p Hp. destruct (Hnew p Hp) as (Hns & pre & row0 & post & -> & He & Ht & Hl & Hi & Hpre).
        split; [done|]. exists (row :: pre), row0, post.
        split; [done|]. repeat (split; [done|]).
        intros r [<-|Hr] Her; [|by apply Hpre].
        intros Heq. apply Hns. rewrite <- Heq. by apply Hrow.
      - intros row0 [<-|Hin] He; [left; by apply Hrow|by apply Hall]. }
    destruct (Py.is_empty (Shortlist.field row "title")) eqn:Ht;
      [intros H; apply Skip; [exact H|skip_row Ht]|].
    destruct (Py.is_empty (Shortlist.field row "link")) eqn:Hl;
      [intros H; apply Skip; [exact H|skip_row Hl]|].
    destruct (Py.startswith (Shortlist.field row "title") "Sponsored Links") eqn:Hs;
      [intros H; apply Skip; [exact H|skip_row Hs]|].
    simpl.
    destruct (Py.str_isdigit (Shortlist.field row "lines")) eqn:Hd;
      [|intros H; apply Skip; [exact H|skip_row Hd]].
    simpl.
    destruct (bool_decide (Shortlist.field row "link" ∈ seen)) eqn:Hseen.
    { apply bool_decide_eq_true in Hseen. intros H. by apply Skip. }
    apply bool_decide_eq_false in Hseen.
    destruct (Py.int_of_digits (Shortlist.field row "lines")) as [lines|] eqn:Hlines; [|done].
    destruct (if Py.str_isdigit (Shortlist.field row "views") then _ else _)
      as [views|] eqn:Hviews; [|done].
    intros H. apply IH in H as (new & -> & Hnd & Hnew & Hall).
    set (p0 := {| Shortlist.p_title := Shortlist.field row "title";
                  Shortlist.p_link := Shortlist.field row "link";
                  Shortlist.p_lines := lines; Shortlist.p_views := views |}) in *.
    exists (p0 :: new). split; [by rewrite <- app_assoc|]. split; [|split].
    + simpl. constructor; [|done].
      rewrite list_elem_of_In, in_map_iff. intros (p & Hp & Hin).
      destruct (Hnew p Hin) as [Hns _]. apply Hns. rewrite Hp.
      apply elem_of_union. left. by apply elem_of_singleton.
    + intros p [<-|Hp].
      * split; [done|]. exists [], row, reader. split; [done|].
        split; [unfold Shortlist.eligible; by rewrite Ht, Hl, Hs, Hd|].
        repeat (split; [done|]). intros r [].
      * destruct (Hnew p Hp) as (Hns & pre & row0 & post & -> & He & Ht0 & Hl0 & Hi & Hpre).
        split; [intros Hin; apply Hns, elem_of_union; by right|].
        exists (row :: pre), row0, post.
        split; [done|]. repeat (split; [done|]).
        intros r [<-|Hr] Her; [|by apply Hpre].
        intros Heq. apply Hns, elem_of_union. left. by apply elem_of_singleton.
    + intros row0 [<-|Hin] He; [right; by left|].
      destruct (Hall row0 Hin He) as [Hs0|Hs0]; [|right; by right].
      apply elem_of_union in Hs0 as [Hs0|Hs0]; [|by left].
      apply elem_of_singleton in Hs0. right. left. done.
Qed.

Lemma NoDup_map_filter {A B} (f : A -> B) (p : A -> bool) (l : list A) :
  NoDup (map f l) -> NoDup (map f (List.filter p l)).
Proof.
  induction l as [|x l IH]; simpl; [done|].
  intros H. apply NoDup_cons in H as [Hx Hl].
  destruct (p x); simpl; [|by apply IH].
  apply NoDup_cons. split; [|by apply IH].
  rewrite list_elem_of_In, in_map_iff in *.
  intros (y & Hy & Hin). apply Hx. exists y. split; [done|].
  by apply List.filter_In in Hin as [? _].
Qed.

(** C9, as the code has it. For every corpus that [load_poems] loads, the
    pool holds no two entries with the same link, and neither does the pool
    that [main] scans: an entry is built from a row that passes the guards
    and that is the first such row bearing its link, whatever the rows
    before it that a guard excludes; every link of a row that passes the
    guards has its entry; and no entry has an empty title, an empty link or
    a title that starts with "Sponsored Links", or comes from a row whose
    line count is not made of digits. *)
Theorem load_poems_unique_links (reader : list (gmap string string))
    (pool : list Shortlist.Poem) :
  Shortlist.load_poems reader = Some pool ->
  NoDup (map Shortlist.p_link pool)
  /\ (forall p, In p pool ->
        exists pre row post,
          reader = pre ++ row :: post
          /\ Shortlist.eligible row = true
          /\ Shortlist.p_title p = Shortlist.field row "title"
          /\ Shortlist.p_link p = Shortlist.field row "link"
          /\ Py.int_of_digits (Shortlist.field row "lines") = Some (Shortlist.p_lines p)
          /\ forall r, In r pre -> Shortlist.eligible r = true ->
               Shortlist.field r "link" <> Shortlist.p_link p)
  /\ (forall row, In row reader -> Shortlist.eligible row = true ->
        In (Shortlist.field row "link") (map Shortlist.p_link pool))
  /\ (forall p, In p pool ->
        Py.is_empty (Shortlist.p_title p) = false
        /\ Py.is_empty (Shortlist.p_link p) = false
        /\ Py.startswith (Shortlist.p_title p) "Sponsored Links" = false)
  /\ NoDup (map Shortlist.p_link (Shortlist.rough_pool pool)).
Proof.
  intros H. apply load_poems_loop_spec in H as (new & -> & Hnd & Hnew & Hall).
  simpl. split; [done|]. split; [|split; [|split]]; cycle 3.
  { unfold Shortlist.rough_pool. cbv zeta.
    rewrite (Permutation_map Shortlist.p_link (sort_by_Permutation _ _)).
    by apply NoDup_map_filter. }
  - intros p Hp. by destruct (Hnew p Hp) as [_ ?].
  - intros row Hin He. destruct (Hall row Hin He) as [Hs|Hs]; [|done].
    by apply not_elem_of_empty in Hs.
  - intros p Hp.
    destruct (Hnew p Hp) as (_ & pre & row & post & _ & He & -> & -> & _).
    unfold Shortlist.eligible in He.
    rewrite !andb_true_iff, !negb_true_iff in He. tauto.
Qed.

Lemma load_poems_unique_links_witness :
  Shortlist.load_poems Inputs.corpus
  = Some [ {| Shortlist.p_title := "First"; Shortlist.p_link := "https://example.org/a";
              Shortlist.p_lines := 12; Shortlist.p_views := 7 |};
           {| Shortlist.p_title := "Third"; Shortlist.p_link := "https://example.org/c";
              Shortlist.p_lines := 30; Shortlist.p_views := 0 |} ]
  /\ NoDup (map Shortlist.p_link
       [ {| Shortlist.p_title := "First"; Shortlist.p_link := "https://example.org/a";
            Shortlist.p_lines := 12; Shortlist.p_views := 7 |};
         {| Shortlist.p_title := "Third"; Shortlist.p_link := "https://example.org/c";
            Shortlist.p_lines := 30; Shortlist.p_views := 0 |} ]).
Proof.
  split; [vm_compute; reflexivity|].
  apply (load_poems_unique_links Inputs.corpus). vm_compute; reflexivity.
Defined.

(** C9, as the specification states it, fails on the code. The first row
    of the corpus that bears the link https://example.org/a is its first
    row, titled "Sponsored Links": a guard excludes it before its link is
    recorded, and the entry of the pool with that link is built from the
    second row, titled "First", which is not the first row bearing it. *)
Lemma first_bearer_not_kept :
  Shortlist.field (nth 0 Inputs.corpus ∅) "link" = "https://example.org/a"
  /\ Shortlist.field (nth 0 Inputs.corpus ∅) "title" = "Sponsored Links"
  /\ Shortlist.field (nth 1 Inputs.corpus ∅) "link" = "https://example.org/a"
  /\ Shortlist.field (nth 1 Inputs.corpus ∅) "title" = "First"
  /\ (map (fun p => (Shortlist.p_title p, Shortlist.p_link p))
        <$> Shortlist.load_poems Inputs.corpus)
     = Some [ ("First", "https://example.org/a"); ("Third", "https://example.org/c") ].
Proof.
  repeat split; vm_compute; reflexivity.
Qed.

(** A corpus whose line and view counts are written in decimal digits that
    [int] converts loads. *)
Lemma load_poems_loop_returns (reader : list (gmap string string))
    (rows : list Shortlist.Poem) (seen_links : gset string) :
  (forall row, In row reader ->
     Py.str_isdigit (Shortlist.field row "lines") = true ->
     is_Some (Py.int_of_digits (Shortlist.field row "lines"))) ->
  (forall row, In row reader ->
     Py.str_isdigit (Shortlist.field row "views") = true ->
     is_Some (Py.int_of_digits (Shortlist.field row "views"))) ->
  is_Some (Shortlist.load_poems_loop reader rows seen_links).
Proof.
  revert rows seen_links.
  induction reader as [|row reader IH]; intros rows seen Hl Hv; simpl; [done|].
  assert (IH' : forall rows seen, is_Some (Shortlist.load_poems_loop reader rows seen)).
  { intros. apply IH; intros; [apply Hl|apply Hv]; simpl; auto. }
  destruct (_ || _); [apply IH'|].
  destruct (Py.str_isdigit (Shortlist.field row "lines")) eqn:Hd; [|apply IH']. simpl.
  destruct (bool_decide _); [apply IH'|].
  destruct (Hl row (or_introl eq_refl) Hd) as [lines ->].
  destruct (Py.str_isdigit (Shortlist.field row "views")) eqn:Hdv; [|apply IH'].
  destruct (Hv row (or_introl eq_refl) Hdv) as [views ->]. apply IH'.
Qed.

(** ** The text of a poem page *)

Lemma collect_candidates_spec (tds candidates : list string) :
  Shortlist.collect_candidates tds candidates
  = candidates
    ++ List.filter (fun text => (250 <=? Py.len text) && negb (Spec44.has_marker text)) tds.
Proof.
  revert candidates. induction tds as [|text tds IH]; intros candidates; simpl.
  - by rewrite app_nil_r.
  - unfold Spec44.has_marker.
    destruct (Z.ltb_spec (Py.len text) 250), (Z.leb_spec 250 (Py.len text)); try lia;
      simpl; [done|].
    destruct (_ || _); simpl; [done|].
    by rewrite IH, <- app_assoc.
Qed.

Lemma primary_pass_spec (tds : list string) (blocks : list (list string)) :
  BandMods.primary_pass tds blocks
  = blocks
    ++ map BandMods.block_lines
         (List.filter (fun raw =>
            (250 <=? Py.len raw) && negb (Spec44.has_marker raw)
            && (6 <=? Z.of_nat (List.length (BandMods.block_lines raw)))) tds).
Proof.
  revert blocks. induction tds as [|raw tds IH]; intros blocks; simpl.
  - by rewrite app_nil_r.
  - unfold Spec44.has_marker.
    destruct (Z.ltb_spec (Py.len raw) 250), (Z.leb_spec 250 (Py.len raw)); try lia;
      simpl; [done|].
    destruct (_ || _); simpl; [done|].
    destruct (Z.ltb_spec (Z.of_nat (List.length (BandMods.block_lines raw))) 6),
      (Z.leb_spec 6 (Z.of_nat (List.length (BandMods.block_lines raw)))); try lia;
      simpl; [done|].
    by rewrite IH, <- app_assoc.
Qed.

Lemma fallback_pass_spec (tds : list string) (blocks : list (list string)) :
  BandMods.fallback_pass tds blocks
  = blocks
    ++ map BandMods.block_lines
         (List.filter (fun raw =>
            (180 <=? Py.len raw)
            && (6 <=? Z.of_nat (List.length (BandMods.block_lines raw)))) tds).
Proof.
  revert blocks. induction tds as [|raw tds IH]; intros blocks; simpl.
  - by rewrite app_nil_r.
  - destruct (Z.ltb_spec (Py.len raw) 180), (Z.leb_spec 180 (Py.len raw)); try lia;
      simpl; [done|].
    destruct (6 <=? _); simpl; [|done].
    by rewrite IH, <- app_assoc.
Qed.

(** What the second loop does: when the first pass keeps no block, the
    second pass keeps exactly the cells whose raw text has at least 180
    characters and at least six lines that are not blank, in the order of
    the document, whether they contain a marker or not. *)
Lemma fallback_keeps_long_blocks (tds : list string) :
  BandMods.primary_pass tds [] = [] ->
  BandMods.collect_blocks tds
  = map BandMods.block_lines
      (List.filter (fun raw =>
         (180 <=? Py.len raw)
         && (6 <=? Z.of_nat (List.length (BandMods.block_lines raw)))) tds).
Proof.
  intros H. unfold BandMods.collect_blocks. cbv zeta. rewrite H.
  by rewrite fallback_pass_spec.
Qed.

Lemma fallback_keeps_long_blocks_witness :
  BandMods.collect_blocks [Inputs.four_line_cell; Inputs.layout_cell]
  = map BandMods.block_lines
      (List.filter (fun raw =>
         (180 <=? Py.len raw)
         && (6 <=? Z.of_nat (List.length (BandMods.block_lines raw))))
         [Inputs.four_line_cell; Inputs.layout_cell]).
Proof.
  apply (fallback_keeps_long_blocks [Inputs.four_line_cell; Inputs.layout_cell]).
  vm_compute. reflexivity.
Defined.

(** C3, on the code. The claim is what the first loop of
    [extract_poem_text] does with the markers, and the second loop misses
    their test. The cell that holds the menu and the poem has 272 characters
    and eight lines and contains "Main Menu": the first pass drops it for
    the marker, the second pass keeps it, no later step removes the menu,
    and the extractor returns the menu and the poem as the text of the poem.
    With the filter of the claim the second pass keeps no block and the text
    is empty. *)
Theorem fallback_keeps_marked_block :
  Py.len Inputs.layout_cell = 272
  /\ List.length (BandMods.block_lines Inputs.layout_cell) = 8%nat
  /\ Py.contains "Main Menu" Inputs.layout_cell = true
  /\ BandMods.primary_pass [Inputs.layout_cell] [] = []
  /\ BandMods.collect_blocks [Inputs.layout_cell]
     = [BandMods.block_lines Inputs.layout_cell]
  /\ BandMods.extract_poem_text_of_cells [Inputs.layout_cell] "The Raven"
     = "Main Menu Home Poets Once upon a midnight dreary, while I pondered, weak and weary, Over many a quaint and curious volume of forgotten lore- While I nodded, nearly napping, suddenly there came a tapping, As of some one gently rapping, rapping at my chamber door."
  /\ List.filter (Spec44.qualifies 180) [Inputs.layout_cell] = []
  /\ Spec44.extractPoemText_of_cells [Inputs.layout_cell] "The Raven" = "".
Proof.
  repeat split; vm_compute; reflexivity.
Qed.

Lemma fold_best_spec {A} (key : A -> Z) (l : list A) (x : A) :
  exists pre post,
    x :: l
    = pre ++ fold_left (fun best y => if key best <? key y then y else best) l x :: post
    /\ (forall y, In y pre ->
          key y < key (fold_left (fun best y => if key best <? key y then y else best) l x))
    /\ (forall y, In y post ->
          key y <= key (fold_left (fun best y => if key best <? key y then y else best) l x)).
Proof.
  revert x. induction l as [|y l IH]; intros x; simpl.
  - exists [], []. split; [done|]. split; intros ? [].
  - destruct (Z.ltb_spec (key x) (key y)) as [Hlt|Hge].
    + destruct (IH y) as (pre & post & E & Hpre & Hpost).
      exists (x :: pre), post. split; [simpl; by rewrite <- E|].
      split; [|done]. intros z [<-|Hz]; [|by apply Hpre].
      destruct pre as [|y' pre]; simpl in E.
      * injection E as E _. rewrite <- E. exact Hlt.
      * injection E as <- _. pose proof (Hpre y (or_introl eq_refl)). lia.
    + destruct (IH x) as (pre & post & E & Hpre & Hpost).
      destruct pre as [|x' pre]; simpl in E.
      * injection E as E El. exists [], (y :: post).
        split; [simpl; by rewrite <- E, <- El|]. split; [intros ? []|].
        intros z [<-|Hz]; [rewrite <- E; exact Hge|by apply Hpost].
      * injection E as <- El. exists (x :: y :: pre), post.
        split; [simpl; do 2 f_equal; exact El|]. split; [|done].
        intros z [<-|[<-|Hz]].
        -- apply Hpre. by left.
        -- pose proof (Hpre x (or_introl eq_refl)). lia.
        -- apply Hpre. by right.
Qed.

(** [max(l, key=key)] is the first element of the greatest key. *)
Lemma max_by_key_spec {A} (key : A -> Z) (l : list A) :
  match Py.max_by_key key l with
  | None => l = []
  | Some best =>
      exists pre post,
        l = pre ++ best :: post
        /\ (forall y, In y pre -> key y < key best)
        /\ (forall y, In y post -> key y <= key best)
  end.
Proof.
  destruct l as [|x l]; simpl; [done|]. apply fold_best_spec.
Qed.

(** C2, as the code has it. The classifier has an extractor of its own,
    which takes no title: one pass keeps the cells of at least 250 characters
    without a marker, with no test on the lines and no second pass; the cell
    of the greatest raw length is selected, the first one among equals; its
    lines that are not blank are stripped, those that start with
    "Public Domain Poetry", "By ", "Read, rate" or "Main Menu" are dropped,
    and the rest is joined by single spaces. Every cell that the primary pass
    of section 4.4 keeps is one that this pass keeps. *)
Theorem classifier_extraction (E : Os.env) (html : string) :
  let kept :=
    List.filter (fun text => (250 <=? Py.len text) && negb (Spec44.has_marker text))
      (Os.td_texts E html) in
  (kept = [] -> Shortlist.extract_poem_text E html = "")
  /\ (kept <> [] ->
      exists pre best post,
        kept = pre ++ best :: post
        /\ (forall text, In text pre -> Py.len text < Py.len best)
        /\ (forall text, In text post -> Py.len text <= Py.len best)
        /\ Shortlist.extract_poem_text E html
           = Py.join " "
               (List.filter
                  (fun line =>
                     negb (existsb (Py.startswith line)
                             ["Public Domain Poetry"; "By "; "Read, rate"; "Main Menu"]))
                  (map Py.strip
                     (List.filter (fun line => negb (Py.is_empty (Py.strip line)))
                        (Py.splitlines best)))))
  /\ (forall text, In text (List.filter (Spec44.qualifies 250) (Os.td_texts E html)) ->
        In text kept).
Proof.
  intros kept.
  unfold Shortlist.extract_poem_text, Shortlist.extract_poem_text_of_cells.
  cbv zeta. rewrite collect_candidates_spec. simpl app. fold kept.
  pose proof (max_by_key_spec Py.len kept) as M.
  split; [|split].
  - intros Hk. by rewrite Hk.
  - intros Hk. destruct (Py.max_by_key Py.len kept) as [best|]; [|done].
    destruct M as (pre & post & Ek & Hpre & Hpost).
    exists pre, best, post. by repeat split.
  - intros text. unfold kept, Spec44.qualifies.
    rewrite !List.filter_In, !andb_true_iff. tauto.
Qed.

(** C2, as the specification states it, fails on the code. On the cell of
    a poem page the classifier keeps the title and the footer that section
    4.4 removes; on a poem of four long lines the classifier returns its
    text and section 4.4 returns nothing. The extractor of
    [3-build_band_mods.py] differs from the classifier's in the same way. *)
Lemma classifier_extraction_differs :
  String.eqb (Shortlist.extract_poem_text_of_cells [Inputs.poem_cell])
             (Spec44.extractPoemText_of_cells [Inputs.poem_cell] "The Raven") = false
  /\ Py.startswith (Shortlist.extract_poem_text_of_cells [Inputs.poem_cell])
       "The Raven Once upon" = true
  /\ Py.startswith (Spec44.extractPoemText_of_cells [Inputs.poem_cell] "The Raven")
       "Once upon" = true
  /\ Py.is_empty (Shortlist.extract_poem_text_of_cells [Inputs.four_line_cell]) = false
  /\ Spec44.extractPoemText_of_cells [Inputs.four_line_cell] "The Raven" = ""
  /\ BandMods.extract_poem_text_of_cells [Inputs.four_line_cell] "The Raven" = ""
  /\ String.eqb (Shortlist.extract_poem_text_of_cells [Inputs.poem_cell])
                (BandMods.extract_poem_text_of_cells [Inputs.poem_cell] "The Raven") = false.
Proof.
  repeat split; vm_compute; reflexivity.
Qed.
(** ** The backoff *)

(** Without a header that [float] reads, the wait is the one of the
    formula, which has a value up to attempt 1024. *)
Lemma compute_backoff_formula (E : Os.env) (response : option Os.response)
    (attempt : Z) (base_delay : Q) (w : Os.world) :
  Scrape.has_valid_retry_after E response = false ->
  Scrape.compute_backoff_seconds E response attempt base_delay w
  = if Scrape.max_float_exponent <? attempt - 1 then None
    else Some (((if Qle_bool 60 (base_delay * Qpower 2 (attempt - 1))
                 then 60 else base_delay * Qpower 2 (attempt - 1))
                + Scrape.uniform (Os.random E (Os.draws w)) 0
                    ((1 # 2) * base_delay + (1 # 10)))%Q,
               {| Os.files := Os.files w; Os.tables := Os.tables w;
                  Os.draws := S (Os.draws w); Os.trace := Os.trace w |}).
Proof.
  unfold Scrape.has_valid_retry_after, Scrape.compute_backoff_seconds.
  destruct response as [response|]; [|done].
  destruct (Os.retry_after response) as [header|]; [|done].
  destruct (Py.is_empty header); [done|]. simpl.
  destruct (Os.float_of_str E header); [|done].
  intros H. apply bool_decide_eq_false in H. destruct H. by eexists.
Qed.

(** A header that [float] reads is used as it is, and a negative one
    counts as zero. *)
Lemma compute_backoff_retry_after (E : Os.env) (response : Os.response)
    (header : string) (seconds : Q) (attempt : Z) (base_delay : Q) (w : Os.world) :
  Os.retry_after response = Some header ->
  Py.is_empty header = false ->
  Os.float_of_str E header = Some seconds ->
  Scrape.compute_backoff_seconds E (Some response) attempt base_delay w
  = Some (if Qle_bool 0 seconds then seconds else 0%Q, w).
Proof.
  intros H1 H2 H3. unfold Scrape.compute_backoff_seconds.
  by rewrite H1, H2, H3.
Qed.

Lemma capped_is_Qmin (x : Q) :
  ((if Qle_bool 60 x then 60 else x) == Qmin 60 x)%Q.
Proof.
  destruct (Qle_bool 60 x) eqn:H.
  - apply Qle_bool_iff in H. symmetry. by apply Q.min_l.
  - symmetry. apply Q.min_r. apply Qlt_le_weak, Qnot_le_lt.
    intros H'. apply Qle_bool_iff in H'. congruence.
Qed.

Lemma floored_is_Qmax (x : Q) :
  ((if Qle_bool 0 x then x else 0) == Qmax x 0)%Q.
Proof.
  destruct (Qle_bool 0 x) eqn:H.
  - apply Qle_bool_iff in H. symmetry. by apply Q.max_l.
  - symmetry. apply Q.max_r. apply Qlt_le_weak, Qnot_le_lt.
    intros H'. apply Qle_bool_iff in H'. congruence.
Qed.

(** C6, as the code has it. For every attempt number [n >= 1] and base
    delay [b], with the jitter drawn in [[0, 0.5*b + 0.1]]: when there is no
    response, or no [Retry-After] header, or an empty one, or one that
    [float] does not read, the wait that is computed lies in
    [[min(60, b*2^(n-1)), min(60, b*2^(n-1)) + 0.5*b + 0.1]] for [n] up to
    1024, and for a greater [n] the formula raises [OverflowError]; and a
    header that [float] reads as [seconds], positive or not, gives the wait
    [max(seconds, 0)] and takes no draw. *)
Theorem backoff_bounds (E : Os.env) (response : option Os.response)
    (n : Z) (b : Q) (w : Os.world) :
  1 <= n ->
  (0 <= Scrape.uniform (Os.random E (Os.draws w)) 0 ((1 # 2) * b + (1 # 10)))%Q ->
  (Scrape.uniform (Os.random E (Os.draws w)) 0 ((1 # 2) * b + (1 # 10))
   <= (1 # 2) * b + (1 # 10))%Q ->
  (Scrape.has_valid_retry_after E response = false ->
   if n <=? 1024
   then exists wait w',
          Scrape.compute_backoff_seconds E response n b w = Some (wait, w')
          /\ (Qmin 60 (b * inject_Z (2 ^ (n - 1))) <= wait)%Q
          /\ (wait <= Qmin 60 (b * inject_Z (2 ^ (n - 1))) + ((1 # 2) * b + (1 # 10)))%Q
   else Scrape.compute_backoff_seconds E response n b w = None)
  /\ (forall r header seconds,
        response = Some r ->
        Os.retry_after r = Some header ->
        Py.is_empty header = false ->
        Os.float_of_str E header = Some seconds ->
        exists wait,
          Scrape.compute_backoff_seconds E response n b w = Some (wait, w)
          /\ (wait == Qmax seconds 0)%Q).
Proof.
  intros Hn Hlo Hhi. split.
  - intros Hv. rewrite compute_backoff_formula by exact Hv.
    unfold Scrape.max_float_exponent.
    destruct (Z.leb_spec n 1024), (Z.ltb_spec 1023 (n - 1)); try lia; [|done].
    eexists _, _. split; [reflexivity|].
    set (jitter := Scrape.uniform _ _ _) in *.
    assert (Hp : (Qpower 2 (n - 1) == inject_Z (2 ^ (n - 1)))%Q).
    { symmetry. apply (Zpower_Qpower 2 (n - 1)). lia. }
    rewrite capped_is_Qmin, Hp.
    split.
    + rewrite <- (Qplus_0_r (Qmin _ _)) at 1. by apply Qplus_le_r.
    + by apply Qplus_le_r.
  - intros r header seconds -> H1 H2 H3.
    rewrite (compute_backoff_retry_after E r header seconds) by done.
    eexists. split; [reflexivity|]. apply floored_is_Qmax.
Qed.

Lemma backoff_bounds_witness :
  exists wait w',
    Scrape.compute_backoff_seconds Inputs.env None 3 (1 # 2) Inputs.empty_world
    = Some (wait, w')
    /\ (Qmin 60 ((1 # 2) * inject_Z (2 ^ (3 - 1))) <= wait)%Q
    /\ (wait <= Qmin 60 ((1 # 2) * inject_Z (2 ^ (3 - 1))) + ((1 # 2) * (1 # 2) + (1 # 10)))%Q.
Proof.
  refine (proj1 (backoff_bounds Inputs.env None 3 (1 # 2) Inputs.empty_world _ _ _)
            eq_refl).
  - lia.
  - vm_compute. discriminate.
  - vm_compute. discriminate.
Defined.

(** C6, as the specification states it, fails on the code. The header "0"
    is no positive retry delay, so the specification has the formula decide
    the wait of a response that carries it; the code reads the header and
    waits 0 seconds, less than the lower bound 1/2 that the claim gives for
    the attempt 1 and the base delay 1/2, with a jitter that would lie in
    its interval. And for the attempt 1025 without a response no wait is
    computed: the formula raises. *)
Lemma backoff_below_bound :
  Scrape.compute_backoff_seconds Inputs.env
    (Some {| Os.status_code := 429; Os.retry_after := Some "0"; Os.text := "" |})
    1 (1 # 2) Inputs.empty_world
  = Some (0%Q, Inputs.empty_world)
  /\ (0 < Qmin 60 ((1 # 2) * inject_Z (2 ^ (1 - 1))))%Q
  /\ (0 <= Scrape.uniform (Os.random Inputs.env 0) 0 ((1 # 2) * (1 # 2) + (1 # 10)))%Q
  /\ (Scrape.uniform (Os.random Inputs.env 0) 0 ((1 # 2) * (1 # 2) + (1 # 10))
      <= (1 # 2) * (1 # 2) + (1 # 10))%Q
  /\ Scrape.compute_backoff_seconds Inputs.env None 1025 (1 # 2) Inputs.empty_world
     = None.
Proof.
  split; [vm_compute; reflexivity|].
  split; [vm_compute; reflexivity|].
  split; [vm_compute; discriminate|].
  split; [vm_compute; discriminate|].
  vm_compute. reflexivity.
Qed.

(** ** The checkpoint *)

(** What [load_checkpoint] returns, case by case. *)
Lemma load_checkpoint_spec (E : Os.env) (path : string) (w : Os.world) (next_page : Z) :
  Scrape.load_checkpoint E path w = Some next_page <->
  exists stored data,
    Os.files w !! path = Some stored
    /\ Os.json_loads E (Os.read_text stored) = Some (Os.JDict data)
    /\ 1 <= next_page
    /\ (Py.dict_get data "next_page" = Some (Os.JInt next_page)
        \/ (Py.dict_get data "next_page" = Some (Os.JBool true) /\ next_page = 1)).
Proof.
  unfold Scrape.load_checkpoint. split.
  - destruct (Os.files w !! path) as [stored|] eqn:Hf; [|done].
    destruct (Os.json_loads E (Os.read_text stored)) as [[| | | | | |data]|] eqn:Hj;
      try done.
    destruct (Py.dict_get data "next_page") as [[|[]|n| | | |]|] eqn:Hd; try done.
    + intros [= <-]. exists stored, data.
      split; [done|]. split; [done|]. split; [lia|]. by right.
    + destruct (Z.leb_spec 1 n); [|done]. intros [= <-].
      exists stored, data.
      split; [done|]. split; [done|]. split; [done|]. by left.
  - intros (stored & data & -> & -> & Hn & [->|[-> ->]]); [|done].
    by destruct (Z.leb_spec 1 next_page); [|lia].
Qed.

(** C8. With resume enabled and a checkpoint that loads (the file is
    there and its value reads as an integer of at least 1), the run starts at
    the greater of the start page argument and the checkpoint; with resume
    disabled, or a checkpoint that is absent or unreadable, it starts at the
    start page argument. *)
Theorem resume_policy (E : Os.env) (args : Scrape.Args) (w : Os.world) :
  (Scrape.resume args = true ->
   forall stored data next_page,
     Os.files w !! Scrape.checkpoint args = Some stored ->
     Os.json_loads E (Os.read_text stored) = Some (Os.JDict data) ->
     Py.dict_get data "next_page" = Some (Os.JInt next_page) ->
     1 <= next_page ->
     Scrape.load_checkpoint E (Scrape.checkpoint args) w = Some next_page
     /\ Scrape.resolve_start_page E args w = Z.max (Scrape.start_page args) next_page)
  /\ (Scrape.resume args = true ->
      forall checkpoint_page,
        Scrape.load_checkpoint E (Scrape.checkpoint args) w = Some checkpoint_page ->
        1 <= checkpoint_page
        /\ Scrape.resolve_start_page E args w
           = Z.max (Scrape.start_page args) checkpoint_page)
  /\ (Scrape.resume args = false ->
      Scrape.resolve_start_page E args w = Scrape.start_page args)
  /\ (Os.files w !! Scrape.checkpoint args = None ->
      Scrape.load_checkpoint E (Scrape.checkpoint args) w = None
      /\ Scrape.resolve_start_page E args w = Scrape.start_page args)
  /\ (forall stored,
        Os.files w !! Scrape.checkpoint args = Some stored ->
        Os.json_loads E (Os.read_text stored) = None ->
        Scrape.load_checkpoint E (Scrape.checkpoint args) w = None
        /\ Scrape.resolve_start_page E args w = Scrape.start_page args)
  /\ (Scrape.load_checkpoint E (Scrape.checkpoint args) w = None ->
      Scrape.resolve_start_page E args w = Scrape.start_page args).
Proof.
  assert (HN : Scrape.load_checkpoint E (Scrape.checkpoint args) w = None ->
               Scrape.resolve_start_page E args w = Scrape.start_page args).
  { intros H. unfold Scrape.resolve_start_page. rewrite H.
    by destruct (Scrape.resume args). }
  assert (HS : Scrape.resume args = true -> forall cp,
               Scrape.load_checkpoint E (Scrape.checkpoint args) w = Some cp ->
               Scrape.resolve_start_page E args w = Z.max (Scrape.start_page args) cp).
  { intros Hr cp H. unfold Scrape.resolve_start_page. by rewrite Hr, H. }
  split; [|split; [|split; [|split; [|split]]]].
  - intros Hr stored data next_page Hf Hj Hd Hn.
    assert (L : Scrape.load_checkpoint E (Scrape.checkpoint args) w = Some next_page).
    { apply load_checkpoint_spec. exists stored, data.
      split; [done|]. split; [done|]. split; [done|]. by left. }
    split; [exact L|]. by apply HS.
  - intros Hr cp H. split; [|by apply HS].
    by apply load_checkpoint_spec in H as (? & ? & _ & _ & ? & _).
  - intros Hr. unfold Scrape.resolve_start_page. by rewrite Hr.
  - intros Hf.
    assert (L : Scrape.load_checkpoint E (Scrape.checkpoint args) w = None).
    { unfold Scrape.load_checkpoint. by rewrite Hf. }
    split; [exact L|]. by apply HN.
  - intros stored Hf Hj.
    assert (L : Scrape.load_checkpoint E (Scrape.checkpoint args) w = None).
    { unfold Scrape.load_checkpoint. by rewrite Hf, Hj. }
    split; [exact L|]. by apply HN.
  - exact HN.
Qed.

Lemma resume_policy_witness :
  Scrape.load_checkpoint Inputs.env "checkpoint.json" Inputs.resumed_world = Some 5
  /\ Scrape.resolve_start_page Inputs.env (Inputs.args 3 10 true) Inputs.resumed_world
     = Z.max 3 5
  /\ Scrape.resolve_start_page Inputs.env (Inputs.args 3 10 false) Inputs.resumed_world = 3
  /\ Scrape.resolve_start_page Inputs.env (Inputs.args 3 10 true) Inputs.empty_world = 3.
Proof.
  destruct (resume_policy Inputs.env (Inputs.args 3 10 true) Inputs.resumed_world)
    as (H1 & _).
  destruct (H1 eq_refl "5" [("next_page", Os.JInt 5)] 5) as [L R];
    [reflexivity|reflexivity|reflexivity|lia|].
  split; [exact L|]. split; [exact R|]. split.
  - destruct (resume_policy Inputs.env (Inputs.args 3 10 false) Inputs.resumed_world)
      as (_ & _ & H3 & _).
    exact (H3 eq_refl).
  - destruct (resume_policy Inputs.env (Inputs.args 3 10 true) Inputs.empty_world)
      as (_ & _ & _ & H4 & _).
    exact (proj2 (H4 eq_refl)).
Defined.

(** ** The page cache *)

Lemma contains_char_cons (c d : ascii) (s : string) :
  Py.contains (String c EmptyString) (String d s)
  = Ascii.eqb c d || Py.contains (String c EmptyString) s.
Proof.
  simpl. destruct (Ascii.eqb_spec c d) as [->|Hne].
  - destruct (ascii_dec d d); [|done]. by destruct s.
  - by destruct (ascii_dec c d).
Qed.

Lemma contains_char_app (c : ascii) (s1 s2 : string) :
  Py.contains (String c EmptyString) (s1 +:+ s2)
  = Py.contains (String c EmptyString) s1 || Py.contains (String c EmptyString) s2.
Proof.
  induction s1 as [|d s1 IH].
  - destruct s2; reflexivity.
  - change (String d s1 +:+ s2) with (String d (s1 +:+ s2)).
    rewrite !contains_char_cons, IH. by rewrite orb_assoc.
Qed.

(** What is read back from a file has no carriage return. *)
Lemma read_text_go_no_cr (after_cr : bool) (stored : string) :
  Py.contains (String Py.CR EmptyString) (Os.read_text_go after_cr stored) = false.
Proof.
  revert after_cr. induction stored as [|c stored IH]; intros after_cr; [done|].
  simpl Os.read_text_go.
  destruct (after_cr && Ascii.eqb c Py.LF); [apply IH|].
  destruct (Ascii.eqb c Py.CR) eqn:Hc.
  - rewrite contains_char_cons, IH. reflexivity.
  - rewrite contains_char_cons, IH, Ascii.eqb_sym, Hc. reflexivity.
Qed.

(** A text without carriage returns is read back as it was written. *)
Lemma read_write_text (pf : Os.platform) (data : string) :
  Py.contains (String Py.CR EmptyString) data = false ->
  Os.read_text (Os.write_text pf data) = data.
Proof.
  unfold Os.read_text. induction data as [|c data IH]; [done|].
  rewrite contains_char_cons. intros H. apply orb_false_iff in H as [Hc Hd].
  rewrite Ascii.eqb_sym in Hc. simpl Os.write_text.
  destruct (Ascii.eqb c Py.LF) eqn:Hl.
  - apply Ascii.eqb_eq in Hl as ->.
    destruct pf; simpl;
      change (EmptyString +:+ Os.write_text ?p data) with (Os.write_text p data);
      by rewrite IH.
  - simpl. rewrite Hc. by rewrite IH.
Qed.

Lemma requests_log (e : Os.event) (w : Os.world) :
  Os.requests (Os.log e w) = (Os.requests w + if Os.is_get e then 1 else 0)%nat.
Proof.
  unfold Os.requests, Os.log. simpl. rewrite List.filter_app, length_app. simpl.
  by destruct (Os.is_get e).
Qed.

Lemma requests_write_file (E : Os.env) (path data : string) (w : Os.world) :
  Os.requests (Os.write_file E path data w) = Os.requests w.
Proof.
  unfold Os.requests, Os.write_file, Os.log. simpl.
  rewrite List.filter_app, length_app. simpl. lia.
Qed.

(** [fetch_html_cached] on a page that is in the cache: no request, the
    stored page as it is read back. *)
Lemma fetch_html_cached_hit (E : Os.env) (url cache_dir stored : string) (w : Os.world) :
  Os.files w !! BandMods._cache_path E cache_dir url = Some stored ->
  BandMods.fetch_html_cached E url cache_dir w = (Some (Os.read_text stored), w).
Proof. intros H. unfold BandMods.fetch_html_cached. cbv zeta. by rewrite H. Qed.

(** A fetch that fails leaves the files as they were. *)
Lemma fetch_html_cached_failure (E : Os.env) (url cache_dir : string) (w : Os.world) :
  fst (BandMods.fetch_html_cached E url cache_dir w) = None ->
  Os.files (snd (BandMods.fetch_html_cached E url cache_dir w)) = Os.files w.
Proof.
  unfold BandMods.fetch_html_cached. cbv zeta.
  destruct (Os.files w !! _); [done|].
  unfold Os.get. destruct (Os.http_get E _ url) as [|response]; [done|].
  by destruct (Os.is_error_status _).
Qed.

Lemma fetch_candidate_text_cached_failure (E : Os.env) (url cache_dir : string)
    (w : Os.world) :
  fst (Shortlist.fetch_candidate_text_cached E url cache_dir w) = None ->
  Os.files (snd (Shortlist.fetch_candidate_text_cached E url cache_dir w)) = Os.files w.
Proof.
  unfold Shortlist.fetch_candidate_text_cached. cbv zeta.
  destruct (Os.files w !! _); [done|].
  unfold Os.get. destruct (Os.http_get E _ url) as [|response]; [done|].
  by destruct (Os.is_error_status _).
Qed.

(** The two calls of [fetch_candidate_text_cached]: one request, and the
    extractor runs on the page the first time and on the page as it is read
    back the second time. *)
Lemma candidate_text_cached_twice (E : Os.env) (url cache_dir : string) (w : Os.world)
    (response : Os.response) :
  Os.files w !! Shortlist._cache_path E cache_dir url = None ->
  Os.http_get E (Os.requests w) url = Os.Got response ->
  Os.is_error_status (Os.status_code response) = false ->
  fst (Shortlist.fetch_candidate_text_cached E url cache_dir w)
  = Some (Shortlist.extract_poem_text E (Os.text response))
  /\ fst (Shortlist.fetch_candidate_text_cached E url cache_dir
            (snd (Shortlist.fetch_candidate_text_cached E url cache_dir w)))
     = Some (Shortlist.extract_poem_text E
               (Os.read_text (Os.write_text (Os.os E) (Os.text response))))
  /\ Os.requests
       (snd (Shortlist.fetch_candidate_text_cached E url cache_dir
               (snd (Shortlist.fetch_candidate_text_cached E url cache_dir w))))
     = S (Os.requests w).
Proof.
  intros Hmiss Hget Hok.
  assert (E1 : Shortlist.fetch_candidate_text_cached E url cache_dir w
    = (Some (Shortlist.extract_poem_text E (Os.text response)),
       Os.write_file E (Shortlist._cache_path E cache_dir url) (Os.text response)
         (Os.log (Os.EvGet url) w))).
  { unfold Shortlist.fetch_candidate_text_cached. cbv zeta. rewrite Hmiss.
    unfold Os.get. by rewrite Hget, Hok. }
  rewrite E1. simpl fst. simpl snd.
  assert (E2 : Shortlist.fetch_candidate_text_cached E url cache_dir
      (Os.write_file E (Shortlist._cache_path E cache_dir url) (Os.text response)
         (Os.log (Os.EvGet url) w))
    = (Some (Shortlist.extract_poem_text E
               (Os.read_text (Os.write_text (Os.os E) (Os.text response)))),
       Os.write_file E (Shortlist._cache_path E cache_dir url) (Os.text response)
         (Os.log (Os.EvGet url) w))).
  { unfold Shortlist.fetch_candidate_text_cached at 1. cbv zeta.
    replace (Os.files (Os.write_file E _ _ _) !! _)
      with (Some (Os.write_text (Os.os E) (Os.text response)));
      [done|]. simpl. by rewrite lookup_insert_eq. }
  rewrite E2. simpl fst. simpl snd.
  split; [done|]. split; [done|].
  rewrite requests_write_file, requests_log. simpl. lia.
Qed.

(** C7, on the code. Two calls of [fetch_html_cached] for a page that is
    not in the cache and that the server delivers: one request in all, the
    second call changes nothing and returns the stored page as the file
    system reads it back. That is the page of the first call exactly when
    the page has no carriage return: a page with one comes back with its line
    ends rewritten, so the two calls do not return the same content. *)
Theorem cached_fetch_twice (E : Os.env) (url cache_dir : string) (w : Os.world)
    (response : Os.response) :
  Os.files w !! BandMods._cache_path E cache_dir url = None ->
  Os.http_get E (Os.requests w) url = Os.Got response ->
  Os.is_error_status (Os.status_code response) = false ->
  fst (BandMods.fetch_html_cached E url cache_dir w) = Some (Os.text response)
  /\ fst (BandMods.fetch_html_cached E url cache_dir
            (snd (BandMods.fetch_html_cached E url cache_dir w)))
     = Some (Os.read_text (Os.write_text (Os.os E) (Os.text response)))
  /\ snd (BandMods.fetch_html_cached E url cache_dir
            (snd (BandMods.fetch_html_cached E url cache_dir w)))
     = snd (BandMods.fetch_html_cached E url cache_dir w)
  /\ Os.requests (snd (BandMods.fetch_html_cached E url cache_dir w))
     = S (Os.requests w)
  /\ (Py.contains (String Py.CR EmptyString) (Os.text response) = false ->
      fst (BandMods.fetch_html_cached E url cache_dir
             (snd (BandMods.fetch_html_cached E url cache_dir w)))
      = fst (BandMods.fetch_html_cached E url cache_dir w))
  /\ (Py.contains (String Py.CR EmptyString) (Os.text response) = true ->
      fst (BandMods.fetch_html_cached E url cache_dir
             (snd (BandMods.fetch_html_cached E url cache_dir w)))
      <> fst (BandMods.fetch_html_cached E url cache_dir w)).
Proof.
  intros Hmiss Hget Hok.
  assert (E1 : BandMods.fetch_html_cached E url cache_dir w
    = (Some (Os.text response),
       Os.write_file E (BandMods._cache_path E cache_dir url) (Os.text response)
         (Os.log (Os.EvGet url) w))).
  { unfold BandMods.fetch_html_cached. cbv zeta. rewrite Hmiss.
    unfold Os.get. by rewrite Hget, Hok. }
  rewrite E1. simpl fst. simpl snd.
  rewrite (fetch_html_cached_hit E url cache_dir
             (Os.write_text (Os.os E) (Os.text response)))
    by (simpl; apply lookup_insert_eq).
  simpl fst. simpl snd.
  split; [done|]. split; [done|]. split; [done|]. split; [|split].
  - rewrite requests_write_file, requests_log. simpl. lia.
  - intros H. by rewrite read_write_text.
  - intros H [= Heq].
    pose proof (read_text_go_no_cr false (Os.write_text (Os.os E) (Os.text response))) as N.
    fold (Os.read_text (Os.write_text (Os.os E) (Os.text response))) in N.
    rewrite Heq in N. congruence.
Qed.

Lemma cached_fetch_twice_witness :
  fst (BandMods.fetch_html_cached Inputs.env "https://example.org/raven" "cache"
         Inputs.empty_world)
  = Some ("a" +:+ String Py.CR (String Py.LF "b"))
  /\ fst (BandMods.fetch_html_cached Inputs.env "https://example.org/raven" "cache"
            (snd (BandMods.fetch_html_cached Inputs.env "https://example.org/raven"
                    "cache" Inputs.empty_world)))
     = Some ("a" +:+ String Py.LF "b")
  /\ fst (BandMods.fetch_html_cached Inputs.env "https://example.org/raven" "cache"
            (snd (BandMods.fetch_html_cached Inputs.env "https://example.org/raven"
                    "cache" Inputs.empty_world)))
     <> fst (BandMods.fetch_html_cached Inputs.env "https://example.org/raven" "cache"
               Inputs.empty_world).
Proof.
  destruct (cached_fetch_twice Inputs.env "https://example.org/raven" "cache"
              Inputs.empty_world
              {| Os.status_code := 200; Os.retry_after := None;
                 Os.text := Inputs.crlf_page |})
    as (H1 & H2 & _ & _ & _ & H6); [reflexivity..|].
  split; [exact H1|]. split; [exact H2|]. apply H6. reflexivity.
Defined.

(** The same two calls on a system whose line separator is carriage
    return and line feed. *)
Lemma cached_fetch_twice_windows :
  Os.read_text (Os.write_text Os.Windows Inputs.crlf_page)
  = "a" +:+ String Py.LF (String Py.LF "b")
  /\ Os.read_text (Os.write_text Os.Posix Inputs.crlf_page) = "a" +:+ String Py.LF "b".
Proof. split; reflexivity. Qed.

(** ** The page loop *)

Lemma app_split_at_write (l1 l2 pre post : list Os.event) (e : Os.event) :
  l1 ++ l2 = pre ++ e :: post ->
  Forall (fun x => Os.is_write x = false) l1 ->
  Os.is_write e = true ->
  exists pre', pre = l1 ++ pre' /\ l2 = pre' ++ e :: post.
Proof.
  revert pre. induction l1 as [|x l1 IH]; intros pre H Hl1 He.
  - by exists pre.
  - apply Forall_cons in Hl1 as [Hx Hl1].
    destruct pre as [|y pre]; simpl in H; injection H as -> H.
    + congruence.
    + destruct (IH pre H Hl1 He) as (pre' & -> & ->). by exists pre'.
Qed.

Lemma compute_backoff_trace (E : Os.env) (response : option Os.response)
    (attempt : Z) (base_delay wait_s : Q) (w w0 : Os.world) :
  Scrape.compute_backoff_seconds E response attempt base_delay w = Some (wait_s, w0) ->
  Os.trace w0 = Os.trace w.
Proof.
  unfold Scrape.compute_backoff_seconds.
  assert (F : forall r : Q,
    (if Scrape.max_float_exponent <? attempt - 1 then None
     else Some (r, {| Os.files := Os.files w; Os.tables := Os.tables w;
                      Os.draws := S (Os.draws w); Os.trace := Os.trace w |}))
    = Some (wait_s, w0) -> Os.trace w0 = Os.trace w).
  { intros r. destruct (_ <? _); [done|]. by intros [= _ <-]. }
  destruct response as [response|]; [|apply F].
  destruct (Os.retry_after response) as [header|]; [|apply F].
  destruct (Py.is_empty header); [apply F|].
  destruct (Os.float_of_str E header); [|apply F]. by intros [= _ <-].
Qed.

(** What one call of [fetch_html_with_retries] adds to the trace: requests
    and sleeps, a request first; with no request there is no page. *)
Lemma fetch_loop_trace (E : Os.env) (url : string) (base_delay : Q)
    (attempts : list Z) (w : Os.world) :
  exists new,
    Os.trace (snd (Scrape.fetch_loop E url base_delay attempts w)) = Os.trace w ++ new
    /\ Forall (fun x => Os.is_write x = false) new
    /\ ((new = [] /\ fst (Scrape.fetch_loop E url base_delay attempts w) = None)
        \/ exists rest, new = Os.EvGet url :: rest).
Proof.
  revert w. induction attempts as [|attempt attempts IH]; intros w.
  - exists []. simpl. rewrite app_nil_r. split; [done|]. split; [constructor|by left].
  - cbn [Scrape.fetch_loop]. unfold Os.get.
    assert (Next : forall w', Os.trace w' = Os.trace w ++ [Os.EvGet url] ->
      exists new,
        Os.trace (snd (Scrape.fetch_loop E url base_delay attempts w'))
        = Os.trace w ++ new
        /\ Forall (fun x => Os.is_write x = false) new
        /\ exists rest, new = Os.EvGet url :: rest).
    { intros w' Hw'. destruct (IH w') as (new & Hn & Hf & _).
      exists (Os.EvGet url :: new). rewrite Hn, Hw', <- app_assoc.
      split; [done|]. split; [by constructor|]. by eexists. }
    assert (Wait : forall response w',
      Os.trace w' = Os.trace w ++ [Os.EvGet url] ->
      exists new,
        Os.trace (snd match Scrape.compute_backoff_seconds E response attempt
                              base_delay w' with
                      | Some (wait_s, w0) =>
                          Scrape.fetch_loop E url base_delay attempts (Os.sleep wait_s w0)
                      | None => (None, w')
                      end)
        = Os.trace w ++ new
        /\ Forall (fun x => Os.is_write x = false) new
        /\ exists rest, new = Os.EvGet url :: rest).
    { intros response w' Hw'.
      destruct (Scrape.compute_backoff_seconds E response attempt base_delay w')
        as [[wait_s w0]|] eqn:Hc.
      - apply compute_backoff_trace in Hc as Ht.
        destruct (IH (Os.sleep wait_s w0)) as (new & Hn & Hf & _).
        exists (Os.EvGet url :: Os.EvSleep wait_s :: new).
        rewrite Hn. simpl. rewrite Ht, Hw', <- !app_assoc.
        split; [done|]. split; [by repeat constructor|]. by eexists.
      - exists [Os.EvGet url]. split; [done|]. split; [by repeat constructor|].
        by eexists. }
    destruct (Os.http_get E (Os.requests w) url) as [|response].
    + destruct (Wait None (Os.log (Os.EvGet url) w) eq_refl) as (new & ? & ? & ?).
      exists new. split; [done|]. split; [done|]. by right.
    + destruct (Os.status_code response =? 200).
      * exists [Os.EvGet url]. split; [done|]. split; [by repeat constructor|].
        right. by eexists.
      * assert (W : exists new,
          Os.trace (snd match Scrape.compute_backoff_seconds E (Some response) attempt
                                base_delay (Os.log (Os.EvGet url) w) with
                        | Some (wait_s, w0) =>
                            Scrape.fetch_loop E url base_delay attempts
                              (Os.sleep wait_s w0)
                        | None => (None, Os.log (Os.EvGet url) w)
                        end)
          = Os.trace w ++ new
          /\ Forall (fun x => Os.is_write x = false) new
          /\ ((new = []
               /\ fst match Scrape.compute_backoff_seconds E (Some response) attempt
                               base_delay (Os.log (Os.EvGet url) w) with
                       | Some (wait_s, w0) =>
                           Scrape.fetch_loop E url base_delay attempts
                             (Os.sleep wait_s w0)
                       | None => (None, Os.log (Os.EvGet url) w)
                       end = None)
              \/ exists rest, new = Os.EvGet url :: rest)).
        { destruct (Wait (Some response) (Os.log (Os.EvGet url) w) eq_refl)
            as (new & ? & ? & ?).
          exists new. split; [done|]. split; [done|]. by right. }
        destruct (Scrape.is_transient _); [exact W|].
        destruct (Os.is_error_status _); [exact W|].
        destruct (Next (Os.log (Os.EvGet url) w) eq_refl) as (new & ? & ? & ?).
        exists new. split; [done|]. split; [done|]. by right.
Qed.

Lemma last_range (a b : Z) : a < b -> List.last (Py.range a b) 0 = b - 1.
Proof.
  intros H. unfold Py.range.
  destruct (Z.to_nat (b - a)) as [|n] eqn:Hn; [lia|].
  rewrite seq_S, map_app. simpl. rewrite last_last. lia.
Qed.

Lemma range_nonempty (a b : Z) : a < b -> Py.range a b <> [].
Proof.
  intros H. unfold Py.range.
  destruct (Z.to_nat (b - a)) as [|n] eqn:Hn; [lia|]. simpl. discriminate.
Qed.

(** What the page loop adds to the trace. *)
Lemma page_loop_trace (E : Os.env) (args : Scrape.Args) (pages : list Z) (w : Os.world) :
  exists new,
    Os.trace (snd (Scrape.page_loop E args pages w)) = Os.trace w ++ new
    /\ (new = [] \/ exists url rest, new = Os.EvGet url :: rest)
    /\ (forall pre path data post,
          new = pre ++ Os.EvWriteText path data :: post ->
          path = Scrape.checkpoint args
          /\ if Qle_bool (Scrape.delay args) 0
             then post = [] \/ exists url rest, post = Os.EvGet url :: rest
             else exists rest, post = Os.EvSleep (Scrape.delay args) :: rest)
    /\ (fst (Scrape.page_loop E args pages w) = Scrape.Done ->
        pages <> [] ->
        Qle_bool (Scrape.delay args) 0 = false ->
        exists pre,
          new = pre ++ [ Os.EvWriteText (Scrape.checkpoint args)
                           (Os.json_dumps E
                              (Os.JDict [("next_page", Os.JInt (List.last pages 0 + 1))]));
                         Os.EvSleep (Scrape.delay args) ]).
Proof.
  revert w. induction pages as [|page pages IH]; intros w.
  - exists []. simpl. rewrite app_nil_r. split; [done|]. split; [by left|].
    split; [|done]. intros [|] ????; discriminate.
  - cbn [Scrape.page_loop]. unfold Scrape.fetch_html_with_retries.
    destruct (fetch_loop_trace E (Scrape.BASE_URL_TEMPLATE page) (Scrape.delay args)
                (Py.range 1 (Scrape.max_retries args + 1)) w)
      as (fnew & Hf & Hnw & Hhead).
    assert (Hhead' : fnew = [] \/ exists url rest, fnew = Os.EvGet url :: rest).
    { destruct Hhead as [[? _]|[rest ?]]; [by left|right; by eexists _, _]. }
    assert (Stop : forall w1,
      Os.trace w1 = Os.trace w ++ fnew ->
      exists new,
        Os.trace (snd (Scrape.Failed, w1)) = Os.trace w ++ new
        /\ (new = [] \/ exists url rest, new = Os.EvGet url :: rest)
        /\ (forall pre path data post,
              new = pre ++ Os.EvWriteText path data :: post ->
              path = Scrape.checkpoint args
              /\ if Qle_bool (Scrape.delay args) 0
                 then post = [] \/ exists url rest, post = Os.EvGet url :: rest
                 else exists rest, post = Os.EvSleep (Scrape.delay args) :: rest)
        /\ (fst (Scrape.Failed, w1) = Scrape.Done ->
            page :: pages <> [] ->
            Qle_bool (Scrape.delay args) 0 = false ->
            exists pre,
              new = pre ++ [ Os.EvWriteText (Scrape.checkpoint args)
                               (Os.json_dumps E
                                  (Os.JDict [("next_page",
                                              Os.JInt (List.last (page :: pages) 0 + 1))]));
                             Os.EvSleep (Scrape.delay args) ])).
    { intros w1 Hw1. exists fnew. split; [done|]. split; [done|]. split; [|done].
      intros pre path data post Heq. exfalso.
      rewrite Heq in Hnw. apply Forall_app in Hnw as [_ Hnw].
      apply Forall_cons in Hnw as [Hnw _]. discriminate Hnw. }
    destruct (Scrape.fetch_loop E _ _ _ w) as [[html|] w1]; simpl in Hf, Hhead;
      [|by apply Stop].
    destruct (Scrape.parse_poem_rows E html page _) as [rows|]; [|by apply Stop].
    set (url := Scrape.BASE_URL_TEMPLATE page) in *.
    set (w2 := Scrape.append_rows_to_csv (Scrape.output args) rows w1).
    set (w3 := Scrape.save_checkpoint E (Scrape.checkpoint args) (page + 1) w2).
    set (ev_append := Os.EvAppendRows (Scrape.output args)
           (map (fun r => [Scrape.title r; Scrape.link r; Scrape.lines r;
                           Scrape.views r; Scrape.source_page r]) rows)).
    set (ev_write := Os.EvWriteText (Scrape.checkpoint args)
           (Os.json_dumps E (Os.JDict [("next_page", Os.JInt (page + 1))]))).
    assert (Hw3 : Os.trace w3 = Os.trace w ++ fnew ++ [ev_append; ev_write]).
    { unfold w3, w2. simpl. rewrite Hf, <- !app_assoc. done. }
    set (sl := if Qle_bool (Scrape.delay args) 0 then []
               else [Os.EvSleep (Scrape.delay args)]).
    set (w4 := if negb (Qle_bool (Scrape.delay args) 0)
               then Os.sleep (Scrape.delay args) w3 else w3).
    assert (Hw4 : Os.trace w4 = Os.trace w ++ fnew ++ [ev_append; ev_write] ++ sl).
    { unfold w4, sl. destruct (Qle_bool (Scrape.delay args) 0); cbn [negb].
      - by rewrite Hw3.
      - change (Os.trace (Os.sleep (Scrape.delay args) w3))
          with (Os.trace w3 ++ [Os.EvSleep (Scrape.delay args)]).
        rewrite Hw3, <- !app_assoc. done. }
    destruct (IH w4) as (new' & Hn' & Hhd' & Hev' & Hdone').
    exists (fnew ++ [ev_append; ev_write] ++ sl ++ new').
    split; [rewrite Hn', Hw4, <- !app_assoc; done|]. split; [|split].
    + destruct Hhead as [[_ Hnone]|(rest & ->)]; [done|right; by eexists _, _].
    + intros pre path data post Heq.
      change (fnew ++ [ev_append; ev_write] ++ sl ++ new')
        with (fnew ++ [ev_append] ++ ev_write :: sl ++ new') in Heq.
      rewrite app_assoc in Heq.
      apply app_split_at_write in Heq as (pre' & -> & Heq);
        [|apply Forall_app; split; [done|by repeat constructor]|done].
      destruct pre' as [|x pre']; simpl in Heq.
      * injection Heq as <- <- <-. split; [done|]. unfold sl.
        destruct (Qle_bool (Scrape.delay args) 0); simpl; [done|by eexists].
      * injection Heq as _ Heq.
        apply app_split_at_write in Heq as (pre'' & -> & Heq);
          [by apply Hev' in Heq| |done].
        unfold sl. destruct (Qle_bool _ _); by repeat constructor.
    + intros Hd _ Hdelay. unfold sl. rewrite Hdelay.
      destruct pages as [|page' pages].
      * simpl in Hn'. assert (new' = []) as ->.
        { apply (app_inv_head (Os.trace w4)). by rewrite app_nil_r. }
        exists (fnew ++ [ev_append]). by rewrite <- !app_assoc.
      * destruct (Hdone' Hd ltac:(done) Hdelay) as (pre & ->).
        exists (fnew ++ [ev_append; ev_write] ++ [Os.EvSleep (Scrape.delay args)] ++ pre).
        rewrite <- !app_assoc. done.
Qed.

Lemma ensure_csv_header_trace (path : string) (w : Os.world) :
  Os.files (Scrape.ensure_csv_header path w) = Os.files w
  /\ exists header,
       Os.trace (Scrape.ensure_csv_header path w) = Os.trace w ++ header
       /\ Forall (fun x => Os.is_write x = false) header.
Proof.
  unfold Scrape.ensure_csv_header.
  destruct (Os.tables w !! path) as [[|row rows]|].
  - split; [done|]. eexists. split; [reflexivity|]. by repeat constructor.
  - split; [done|]. exists []. by rewrite app_nil_r.
  - split; [done|]. eexists. split; [reflexivity|]. by repeat constructor.
Qed.

Lemma resolve_start_page_files (E : Os.env) (args : Scrape.Args) (w w' : Os.world) :
  Os.files w' = Os.files w ->
  Scrape.resolve_start_page E args w' = Scrape.resolve_start_page E args w.
Proof.
  intros H. unfold Scrape.resolve_start_page, Scrape.load_checkpoint. by rewrite H.
Qed.

(** C5, as the code has it. In a run of the harvest, whatever the server
    answers, every write of the checkpoint is followed at once by the sleep
    of [delay] seconds when [delay] is positive, and by no sleep when it is
    not; so a run that completes its pages with a positive [delay] ends with
    the checkpoint of the last page and the sleep after it. *)
Theorem sleep_after_every_page (E : Os.env) (args : Scrape.Args) (w : Os.world) :
  exists new,
    Os.trace (snd (Scrape.main E args w)) = Os.trace w ++ new
    /\ (forall pre path data post,
          new = pre ++ Os.EvWriteText path data :: post ->
          path = Scrape.checkpoint args
          /\ ((0 < Scrape.delay args)%Q ->
              exists rest, post = Os.EvSleep (Scrape.delay args) :: rest)
          /\ ((Scrape.delay args <= 0)%Q ->
              forall seconds rest, post <> Os.EvSleep seconds :: rest))
    /\ (fst (Scrape.main E args w) = Scrape.Done ->
        Scrape.resolve_start_page E args w <= Scrape.end_page args ->
        (0 < Scrape.delay args)%Q ->
        exists pre,
          new = pre ++ [ Os.EvWriteText (Scrape.checkpoint args)
                           (Os.json_dumps E
                              (Os.JDict [("next_page",
                                          Os.JInt (Scrape.end_page args + 1))]));
                         Os.EvSleep (Scrape.delay args) ]).
Proof.
  assert (Hpos : (0 < Scrape.delay args)%Q -> Qle_bool (Scrape.delay args) 0 = false).
  { intros H. destruct (Qle_bool (Scrape.delay args) 0) eqn:Hb; [|done].
    apply Qle_bool_iff in Hb. by apply Qlt_not_le in H. }
  unfold Scrape.main.
  destruct (Scrape.end_page args <? Scrape.start_page args).
  { exists []. simpl. rewrite app_nil_r. split; [done|]. split; [|done].
    intros [|] ????; discriminate. }
  cbv zeta.
  destruct (ensure_csv_header_trace (Scrape.output args) w)
    as (Hfiles & header & Hheader & Hnw).
  rewrite (resolve_start_page_files E args w _ Hfiles).
  set (w0 := Scrape.ensure_csv_header (Scrape.output args) w) in *.
  set (pages := Py.range (Scrape.resolve_start_page E args w) (Scrape.end_page args + 1)).
  destruct (page_loop_trace E args pages w0) as (new & Hn & _ & Hev & Hdone).
  exists (header ++ new). split; [by rewrite Hn, Hheader, <- app_assoc|]. split.
  - intros pre path data post Heq.
    apply app_split_at_write in Heq as (pre' & -> & Heq); [|done..].
    destruct (Hev _ _ _ _ Heq) as [-> Hs]. split; [done|]. split.
    + intros H. by rewrite (Hpos H) in Hs.
    + intros H seconds rest ->. apply Qle_bool_iff in H. rewrite H in Hs.
      by destruct Hs as [?|(? & ? & ?)].
  - intros Hd Hle Hlt.
    destruct (Hdone Hd) as (pre & ->); [by apply range_nonempty; lia|by apply Hpos|].
    exists (header ++ pre). unfold pages. rewrite last_range by lia.
    rewrite <- app_assoc. repeat f_equal. lia.
Qed.

(** C5, as the specification states it, fails on the code: a run over the
    single page 1, with a delay of half a second, ends with the sleep that
    the specification says is skipped after the final page. *)
Lemma sleep_after_final_page :
  Scrape.start_page (Inputs.args 1 1 false) = Scrape.end_page (Inputs.args 1 1 false)
  /\ fst (Scrape.main Inputs.env (Inputs.args 1 1 false) Inputs.empty_world) = Scrape.Done
  /\ Os.trace (snd (Scrape.main Inputs.env (Inputs.args 1 1 false) Inputs.empty_world))
     = [ Os.EvAppendRows "poems.csv" [["title"; "link"; "lines"; "views"; "source_page"]];
         Os.EvGet "https://www.public-domain-poetry.com/listpoetry.php?letter=All&page=1";
         Os.EvAppendRows "poems.csv"
           [["The Raven"; "https://example.org/raven"; "108"; "4321"; "1"]];
         Os.EvWriteText "checkpoint.json" "2";
         Os.EvSleep (1 # 2) ].
Proof.
  split; [reflexivity|]. split; vm_compute; reflexivity.
Qed.

(** * Further properties of [scrape_poems.py] *)

(** ** The duration shown in the log *)

Lemma int_of_float_below_one (q : Q) : (q < 1)%Q -> Py.int_of_float q <= 0.
Proof.
  destruct q as [n d]. unfold Qlt, Py.int_of_float. simpl. intros H.
  destruct (Z.le_gt_cases 0 n) as [Hn|Hn].
  - rewrite Z.quot_small by lia. lia.
  - rewrite <- (Z.quot_0_l (Z.pos d)) by lia. apply Z.quot_le_mono; lia.
Qed.

(** X1. [format_duration] writes hours, minutes and seconds that add up to the
    whole seconds of the duration, minutes and seconds below 60, each on two
    digits at least; a duration below one second, a negative one included,
    is written 00:00:00. *)
Theorem format_duration_fields (seconds : Q) :
  (exists hours minutes secs,
     0 <= hours /\ 0 <= minutes < 60 /\ 0 <= secs < 60
     /\ hours * 3600 + minutes * 60 + secs = Z.max 0 (Py.int_of_float seconds)
     /\ Scrape.format_duration seconds
        = Py.format_02d hours +:+ ":" +:+ Py.format_02d minutes +:+ ":"
          +:+ Py.format_02d secs)
  /\ ((seconds < 1)%Q -> Scrape.format_duration seconds = "00:00:00").
Proof.
  unfold Scrape.format_duration. cbv zeta. split.
  - set (t := Z.max 0 (Py.int_of_float seconds)).
    assert (0 <= t) by lia.
    exists (t / 3600), (t mod 3600 / 60), ((t mod 3600) mod 60).
    pose proof (Z.mod_pos_bound t 3600 ltac:(lia)).
    pose proof (Z.mod_pos_bound (t mod 3600) 60 ltac:(lia)).
    pose proof (Z.div_mod t 3600 ltac:(lia)).
    pose proof (Z.div_mod (t mod 3600) 60 ltac:(lia)).
    split; [apply Z.div_pos; lia|].
    split; [split; [apply Z.div_pos; lia|apply Z.div_lt_upper_bound; lia]|].
    split; [lia|]. split; [lia|reflexivity].
  - intros H. apply int_of_float_below_one in H.
    replace (Z.max 0 (Py.int_of_float seconds)) with 0 by lia. reflexivity.
Qed.

(** ** One page, with its retries *)

Lemma length_range (a b : Z) : List.length (Py.range a b) = Z.to_nat (b - a).
Proof. unfold Py.range. by rewrite length_map, length_seq. Qed.

Lemma In_range (a b x : Z) : In x (Py.range a b) <-> a <= x < b.
Proof.
  unfold Py.range. rewrite in_map_iff. split.
  - intros (k & <- & Hk). apply in_seq in Hk. lia.
  - intros H. exists (Z.to_nat (x - a)). split; [lia|]. apply in_seq. lia.
Qed.

Lemma requests_sleep (seconds : Q) (w : Os.world) :
  Os.requests (Os.sleep seconds w) = Os.requests w.
Proof. unfold Os.sleep. rewrite requests_log. simpl. lia. Qed.

(** What [compute_backoff_seconds] leaves as it was. *)
Lemma compute_backoff_world (E : Os.env) (response : option Os.response)
    (attempt : Z) (base_delay wait_s : Q) (w w0 : Os.world) :
  Scrape.compute_backoff_seconds E response attempt base_delay w = Some (wait_s, w0) ->
  Os.trace w0 = Os.trace w /\ Os.files w0 = Os.files w /\ Os.tables w0 = Os.tables w.
Proof.
  unfold Scrape.compute_backoff_seconds.
  assert (F : forall r : Q,
    (if Scrape.max_float_exponent <? attempt - 1 then None
     else Some (r, {| Os.files := Os.files w; Os.tables := Os.tables w;
                      Os.draws := S (Os.draws w); Os.trace := Os.trace w |}))
    = Some (wait_s, w0) ->
    Os.trace w0 = Os.trace w /\ Os.files w0 = Os.files w /\ Os.tables w0 = Os.tables w).
  { intros r. destruct (_ <? _); [done|]. by intros [= _ <-]. }
  destruct response as [response|]; [|apply F].
  destruct (Os.retry_after response) as [header|]; [|apply F].
  destruct (Py.is_empty header); [apply F|].
  destruct (Os.float_of_str E header); [|apply F]. by intros [= _ <-].
Qed.

(** The step of the loop after a wait: the loop goes on after the sleep,
    or the backoff raises and the loop ends. *)
Lemma fetch_loop_wait (E : Os.env) (url : string) (base_delay : Q)
    (attempts : list Z) (response : option Os.response) (attempt : Z) (w : Os.world) :
  (exists wait_s w0,
     Scrape.compute_backoff_seconds E response attempt base_delay w = Some (wait_s, w0)
     /\ match Scrape.compute_backoff_seconds E response attempt base_delay w with
        | Some (wait_s, w0) =>
            Scrape.fetch_loop E url base_delay attempts (Os.sleep wait_s w0)
        | None => (None, w)
        end
        = Scrape.fetch_loop E url base_delay attempts (Os.sleep wait_s w0)
     /\ Os.trace w0 = Os.trace w /\ Os.files w0 = Os.files w
     /\ Os.tables w0 = Os.tables w)
  \/ (Scrape.compute_backoff_seconds E response attempt base_delay w = None
      /\ match Scrape.compute_backoff_seconds E response attempt base_delay w with
         | Some (wait_s, w0) =>
             Scrape.fetch_loop E url base_delay attempts (Os.sleep wait_s w0)
         | None => (None, w)
         end
         = (None, w)).
Proof.
  destruct (Scrape.compute_backoff_seconds E response attempt base_delay w)
    as [[wait_s w0]|] eqn:Hc; [left|by right].
  apply compute_backoff_world in Hc as H. by exists wait_s, w0.
Qed.

Lemma requests_of_trace (w w' : Os.world) :
  Os.trace w' = Os.trace w -> Os.requests w' = Os.requests w.
Proof. unfold Os.requests. by intros ->. Qed.

Lemma fetch_loop_requests (E : Os.env) (url : string) (base_delay : Q)
    (attempts : list Z) (w : Os.world) :
  (Os.requests w <= Os.requests (snd (Scrape.fetch_loop E url base_delay attempts w))
   <= Os.requests w + List.length attempts)%nat
  /\ Os.files (snd (Scrape.fetch_loop E url base_delay attempts w)) = Os.files w
  /\ Os.tables (snd (Scrape.fetch_loop E url base_delay attempts w)) = Os.tables w
  /\ (forall html,
        fst (Scrape.fetch_loop E url base_delay attempts w) = Some html ->
        exists response,
          (Os.requests w
           < Os.requests (snd (Scrape.fetch_loop E url base_delay attempts w)))%nat
          /\ Os.http_get E
               (Os.requests (snd (Scrape.fetch_loop E url base_delay attempts w)) - 1)
               url
             = Os.Got response
          /\ Os.status_code response = 200
          /\ Os.text response = html).
Proof.
  revert w. induction attempts as [|attempt attempts IH]; intros w.
  - simpl. split; [lia|]. split; [done|]. split; [done|]. intros html [=].
  - cbn [Scrape.fetch_loop]. unfold Os.get.
    (* what is to be shown of the result [r] of the step *)
    pose (Good := fun r : option string * Os.world =>
      (Os.requests w <= Os.requests (snd r)
       <= Os.requests w + List.length (attempt :: attempts))%nat
      /\ Os.files (snd r) = Os.files w
      /\ Os.tables (snd r) = Os.tables w
      /\ (forall html,
            fst r = Some html ->
            exists response,
              (Os.requests w < Os.requests (snd r))%nat
              /\ Os.http_get E (Os.requests (snd r) - 1) url = Os.Got response
              /\ Os.status_code response = 200
              /\ Os.text response = html)).
    assert (Hlog : Os.requests (Os.log (Os.EvGet url) w) = S (Os.requests w)).
    { rewrite requests_log. simpl. lia. }
    assert (Rec : forall w1,
      Os.requests w1 = S (Os.requests w) -> Os.files w1 = Os.files w ->
      Os.tables w1 = Os.tables w ->
      Good (Scrape.fetch_loop E url base_delay attempts w1)).
    { intros w1 Hr Hf Ht. destruct (IH w1) as (Hb & Hf1 & Ht1 & Hs).
      unfold Good. simpl List.length.
      split; [lia|]. split; [congruence|]. split; [congruence|].
      intros html Hh. destruct (Hs html Hh) as (response & ? & ? & ? & ?).
      exists response. split; [lia|done]. }
    assert (Raise : Good (None, Os.log (Os.EvGet url) w)).
    { unfold Good. simpl. rewrite Hlog. split; [lia|]. split; [done|].
      split; [done|]. intros html [=]. }
    assert (Wait : forall response,
      Good match Scrape.compute_backoff_seconds E response attempt base_delay
                   (Os.log (Os.EvGet url) w) with
           | Some (wait_s, w0) =>
               Scrape.fetch_loop E url base_delay attempts (Os.sleep wait_s w0)
           | None => (None, Os.log (Os.EvGet url) w)
           end).
    { intros response.
      destruct (fetch_loop_wait E url base_delay attempts response attempt
                  (Os.log (Os.EvGet url) w))
        as [(wait_s & w0 & _ & -> & Htr & Hf & Ht)|[_ ->]]; [|exact Raise].
      apply Rec.
      - rewrite requests_sleep, (requests_of_trace _ _ Htr). exact Hlog.
      - simpl. by rewrite Hf.
      - simpl. by rewrite Ht. }
    destruct (Os.http_get E (Os.requests w) url) as [|response] eqn:Hget.
    + exact (Wait None).
    + destruct (Z.eqb_spec (Os.status_code response) 200) as [H200|H200].
      * simpl. rewrite Hlog. split; [lia|]. split; [done|]. split; [done|].
        intros html [= <-]. exists response. split; [lia|].
        replace (S (Os.requests w) - 1)%nat with (Os.requests w) by lia. done.
      * destruct (Scrape.is_transient _); [exact (Wait (Some response))|].
        destruct (Os.is_error_status _); [exact (Wait (Some response))|].
        exact (Rec _ Hlog eq_refl eq_refl).
Qed.

(** X2. One call of [fetch_html_with_retries] makes at most [max_retries]
    requests and touches no file; when it returns a page, the last request it
    made was answered with status 200 and that page. *)
Theorem fetch_requests_bounded (E : Os.env) (url : string) (max_retries : Z)
    (base_delay : Q) (w : Os.world) :
  (Os.requests w
   <= Os.requests (snd (Scrape.fetch_html_with_retries E url max_retries base_delay w))
   <= Os.requests w + Z.to_nat max_retries)%nat
  /\ Os.files (snd (Scrape.fetch_html_with_retries E url max_retries base_delay w))
     = Os.files w
  /\ Os.tables (snd (Scrape.fetch_html_with_retries E url max_retries base_delay w))
     = Os.tables w
  /\ (forall html,
        fst (Scrape.fetch_html_with_retries E url max_retries base_delay w) = Some html ->
        exists response,
          (Os.requests w
           < Os.requests
               (snd (Scrape.fetch_html_with_retries E url max_retries base_delay w)))%nat
          /\ Os.http_get E
               (Os.requests
                  (snd (Scrape.fetch_html_with_retries E url max_retries base_delay w))
                - 1) url
             = Os.Got response
          /\ Os.status_code response = 200
          /\ Os.text response = html).
Proof.
  unfold Scrape.fetch_html_with_retries.
  pose proof (fetch_loop_requests E url base_delay
                (Py.range 1 (max_retries + 1)) w) as H.
  rewrite length_range in H.
  replace (Z.to_nat (max_retries + 1 - 1)) with (Z.to_nat max_retries) in H by lia.
  exact H.
Qed.
(** ** The wait *)

(** The formula is not negative when the base delay and the draw are
    not. *)
Lemma backoff_formula_nonneg (E : Os.env) (attempt : Z) (base_delay : Q) (w : Os.world) :
  (0 <= base_delay)%Q ->
  (0 <= Os.random E (Os.draws w))%Q ->
  (0 <= (if Qle_bool 60 (base_delay * Qpower 2 (attempt - 1))
         then 60 else base_delay * Qpower 2 (attempt - 1))
        + Scrape.uniform (Os.random E (Os.draws w)) 0
            ((1 # 2) * base_delay + (1 # 10)))%Q.
Proof.
  intros Hb Hr.
  apply Qle_trans with (0 + 0)%Q; [done|]. apply Qplus_le_compat.
  - destruct (Qle_bool 60 _); [done|].
    apply Qmult_le_0_compat; [done|]. apply Qpower_0_le. done.
  - unfold Scrape.uniform. rewrite Qplus_0_l.
    apply Qmult_le_0_compat; [|done].
    unfold Qminus. change (- 0)%Q with 0%Q.
    rewrite Qplus_0_r.
    apply Qle_trans with (0 + 0)%Q; [done|]. apply Qplus_le_compat; [|done].
    apply Qmult_le_0_compat; [done|exact Hb].
Qed.

(** The formula is at most [60 + 0.5 * base_delay + 0.1] when the draw is
    at most 1. *)
Lemma backoff_formula_le (E : Os.env) (attempt : Z) (base_delay : Q) (w : Os.world) :
  (0 <= base_delay)%Q ->
  (Os.random E (Os.draws w) <= 1)%Q ->
  ((if Qle_bool 60 (base_delay * Qpower 2 (attempt - 1))
    then 60 else base_delay * Qpower 2 (attempt - 1))
   + Scrape.uniform (Os.random E (Os.draws w)) 0
       ((1 # 2) * base_delay + (1 # 10))
   <= 60 + ((1 # 2) * base_delay + (1 # 10)))%Q.
Proof.
  intros Hb Hr. apply Qplus_le_compat.
  - destruct (Qle_bool 60 _) eqn:Hc; [done|].
    apply Qlt_le_weak, Qnot_le_lt. intros H. apply Qle_bool_iff in H. congruence.
  - unfold Scrape.uniform. rewrite Qplus_0_l.
    unfold Qminus. change (- 0)%Q with 0%Q. rewrite Qplus_0_r.
    rewrite <- (Qmult_1_r ((1 # 2) * base_delay + (1 # 10))) at 2.
    rewrite !(Qmult_comm ((1 # 2) * base_delay + (1 # 10))).
    apply Qmult_le_compat_r; [exact Hr|].
    apply Qle_trans with (0 + 0)%Q; [done|]. apply Qplus_le_compat; [|done].
    apply Qmult_le_0_compat; [done|exact Hb].
Qed.

Lemma has_valid_retry_after_true (E : Os.env) (response : option Os.response) :
  Scrape.has_valid_retry_after E response = true ->
  exists r header seconds,
    response = Some r /\ Os.retry_after r = Some header
    /\ Py.is_empty header = false /\ Os.float_of_str E header = Some seconds.
Proof.
  unfold Scrape.has_valid_retry_after.
  destruct response as [r|]; [|done].
  destruct (Os.retry_after r) as [header|] eqn:Hh; [|done].
  destruct (Py.is_empty header) eqn:He; [done|]. simpl.
  intros H. apply bool_decide_eq_true in H as [seconds Hs].
  by exists r, header, seconds.
Qed.

(** What [compute_backoff_seconds] returns, and when it raises. *)
Lemma compute_backoff_cases (E : Os.env) (response : option Os.response)
    (attempt : Z) (base_delay : Q) (w : Os.world) :
  (0 <= base_delay)%Q ->
  (0 <= Os.random E (Os.draws w))%Q ->
  match Scrape.compute_backoff_seconds E response attempt base_delay w with
  | Some (wait_s, w') =>
      (0 <= wait_s)%Q
      /\ (Scrape.has_valid_retry_after E response = true \/ attempt <= 1024)
      /\ Os.draws w'
         = (if Scrape.has_valid_retry_after E response
            then Os.draws w else S (Os.draws w))
  | None => Scrape.has_valid_retry_after E response = false /\ 1024 < attempt
  end.
Proof.
  intros Hb Hr.
  destruct (Scrape.has_valid_retry_after E response) eqn:Hv.
  - destruct (has_valid_retry_after_true E response Hv)
      as (r & header & seconds & -> & H1 & H2 & H3).
    rewrite (compute_backoff_retry_after E r header seconds) by done.
    split; [|split; [by left|done]].
    destruct (Qle_bool 0 seconds) eqn:Hs; [by apply Qle_bool_iff|done].
  - rewrite compute_backoff_formula by done. unfold Scrape.max_float_exponent.
    destruct (Z.ltb_spec 1023 (attempt - 1)); [split; [done|lia]|].
    split; [by apply backoff_formula_nonneg|]. split; [right; lia|done].
Qed.

Lemma compute_backoff_nonneg (E : Os.env) (response : option Os.response)
    (attempt : Z) (base_delay wait_s : Q) (w w0 : Os.world) :
  (0 <= base_delay)%Q ->
  (0 <= Os.random E (Os.draws w))%Q ->
  Scrape.compute_backoff_seconds E response attempt base_delay w = Some (wait_s, w0) ->
  (0 <= wait_s)%Q.
Proof.
  intros Hb Hr Hc.
  pose proof (compute_backoff_cases E response attempt base_delay w Hb Hr) as H.
  rewrite Hc in H. by destruct H.
Qed.

(** Up to attempt 1024 the backoff has a value. *)
Lemma compute_backoff_returns (E : Os.env) (response : option Os.response)
    (attempt : Z) (base_delay : Q) (w : Os.world) :
  attempt <= 1024 ->
  is_Some (Scrape.compute_backoff_seconds E response attempt base_delay w).
Proof.
  intros Ha. unfold Scrape.compute_backoff_seconds, Scrape.max_float_exponent.
  destruct (Z.ltb_spec 1023 (attempt - 1)); [lia|].
  destruct response as [response|]; [|done].
  destruct (Os.retry_after response) as [header|]; [|done].
  destruct (Py.is_empty header); [done|].
  by destruct (Os.float_of_str E header).
Qed.

(** Without a header that [float] reads, the wait is one that [time.sleep]
    accepts when the base delay is and the draw is between 0 and 1. *)
Lemma compute_backoff_can_sleep (E : Os.env) (response : option Os.response)
    (attempt : Z) (base_delay wait_s : Q) (w w0 : Os.world) :
  Os.can_sleep base_delay ->
  (0 <= Os.random E (Os.draws w) <= 1)%Q ->
  Scrape.has_valid_retry_after E response = false ->
  Scrape.compute_backoff_seconds E response attempt base_delay w = Some (wait_s, w0) ->
  Os.can_sleep wait_s.
Proof.
  intros [Hb Hm] [Hr0 Hr1] Hv. rewrite compute_backoff_formula by done.
  destruct (_ <? _); [done|]. intros [= <- _]. split.
  - by apply backoff_formula_nonneg.
  - eapply Qle_trans; [by apply backoff_formula_le|].
    unfold Os.max_sleep in *.
    apply Qle_trans with (60 + ((1 # 2) * 4000000 + (1 # 10)))%Q; [|done].
    apply Qplus_le_r, Qplus_le_l, Qmult_le_l; done.
Qed.



Lemma transient_is_error (status : Z) :
  Scrape.is_transient status = true -> Os.is_error_status status = true.
Proof.
  unfold Scrape.is_transient, Os.is_error_status. simpl.
  rewrite !orb_true_iff, !Z.eqb_eq, andb_true_iff, Z.leb_le, Z.ltb_lt. lia.
Qed.

(** Without an answer of status 200 and with attempt numbers up to 1024,
    every attempt is made. *)
Lemma fetch_loop_exhausts (E : Os.env) (url : string) (base_delay : Q)
    (attempts : list Z) (w : Os.world) :
  Forall (fun attempt => attempt <= 1024) attempts ->
  (forall n response,
     Os.http_get E n url = Os.Got response -> Os.status_code response <> 200) ->
  fst (Scrape.fetch_loop E url base_delay attempts w) = None
  /\ Os.requests (snd (Scrape.fetch_loop E url base_delay attempts w))
     = (Os.requests w + List.length attempts)%nat.
Proof.
  intros Hle Hno. revert w.
  induction attempts as [|attempt attempts IH]; intros w.
  - simpl. split; [done|lia].
  - apply Forall_cons in Hle as [Ha Hle]. specialize (IH Hle).
    cbn [Scrape.fetch_loop]. unfold Os.get.
    assert (Hlog : Os.requests (Os.log (Os.EvGet url) w) = S (Os.requests w)).
    { rewrite requests_log. simpl. lia. }
    assert (Wait : forall response,
      fst match Scrape.compute_backoff_seconds E response attempt base_delay
                  (Os.log (Os.EvGet url) w) with
          | Some (wait_s, w0) =>
              Scrape.fetch_loop E url base_delay attempts (Os.sleep wait_s w0)
          | None => (None, Os.log (Os.EvGet url) w)
          end = None
      /\ Os.requests
           (snd match Scrape.compute_backoff_seconds E response attempt base_delay
                        (Os.log (Os.EvGet url) w) with
                | Some (wait_s, w0) =>
                    Scrape.fetch_loop E url base_delay attempts (Os.sleep wait_s w0)
                | None => (None, Os.log (Os.EvGet url) w)
                end)
         = (Os.requests w + List.length (attempt :: attempts))%nat).
    { intros response.
      destruct (fetch_loop_wait E url base_delay attempts response attempt
                  (Os.log (Os.EvGet url) w))
        as [(wait_s & w0 & _ & -> & Htr & _)|[Hc _]].
      - destruct (IH (Os.sleep wait_s w0)) as [-> ->]. split; [done|].
        rewrite requests_sleep, (requests_of_trace _ _ Htr), Hlog. simpl. lia.
      - destruct (compute_backoff_returns E response attempt base_delay
                    (Os.log (Os.EvGet url) w) Ha) as [x Hx]. congruence. }
    destruct (Os.http_get E (Os.requests w) url) as [|response] eqn:Hget.
    + apply Wait.
    + destruct (Z.eqb_spec (Os.status_code response) 200) as [H200|H200].
      * by destruct (Hno _ _ Hget).
      * destruct (Scrape.is_transient _); [apply Wait|].
        destruct (Os.is_error_status _); [apply Wait|].
        destruct (IH (Os.log (Os.EvGet url) w)) as [-> ->]. split; [done|].
        rewrite Hlog. simpl. lia.
Qed.

(** What holds of every wait of the backoff holds of every sleep of the
    loop. *)
Lemma fetch_loop_sleeps_of (P : Q -> Prop) (E : Os.env) (url : string)
    (base_delay : Q) (attempts : list Z) (w : Os.world) :
  (forall response attempt w wait_s w0,
     (response = None
      \/ exists n r, Os.http_get E n url = Os.Got r /\ response = Some r) ->
     Scrape.compute_backoff_seconds E response attempt base_delay w = Some (wait_s, w0) ->
     P wait_s) ->
  exists new,
    Os.trace (snd (Scrape.fetch_loop E url base_delay attempts w)) = Os.trace w ++ new
    /\ Forall (fun e => match e with
                        | Os.EvSleep seconds => P seconds
                        | _ => True
                        end) new.
Proof.
  intros HP. revert w. induction attempts as [|attempt attempts IH]; intros w.
  - exists []. simpl. by rewrite app_nil_r.
  - cbn [Scrape.fetch_loop]. unfold Os.get.
    assert (Wait : forall response,
      (response = None
       \/ exists n r, Os.http_get E n url = Os.Got r /\ response = Some r) ->
      exists new,
        Os.trace
          (snd match Scrape.compute_backoff_seconds E response attempt base_delay
                       (Os.log (Os.EvGet url) w) with
               | Some (wait_s, w0) =>
                   Scrape.fetch_loop E url base_delay attempts (Os.sleep wait_s w0)
               | None => (None, Os.log (Os.EvGet url) w)
               end)
        = Os.trace w ++ new
        /\ Forall (fun e => match e with
                            | Os.EvSleep seconds => P seconds
                            | _ => True
                            end) new).
    { intros response Hresp.
      destruct (Scrape.compute_backoff_seconds E response attempt base_delay _)
        as [[wait_s w0]|] eqn:Hc.
      - pose proof (HP _ _ _ _ _ Hresp Hc) as Hw.
        apply compute_backoff_world in Hc as (Htr & _).
        destruct (IH (Os.sleep wait_s w0)) as (new & -> & Hall).
        exists (Os.EvGet url :: Os.EvSleep wait_s :: new). split.
        + simpl. rewrite Htr. simpl. by rewrite <- !app_assoc.
        + by repeat constructor.
      - exists [Os.EvGet url]. split; [done|]. by repeat constructor. }
    destruct (Os.http_get E (Os.requests w) url) as [|response] eqn:Hget;
      [apply Wait; by left|].
    assert (Hresp : Some response = None
                    \/ exists n r, Os.http_get E n url = Os.Got r
                                   /\ Some response = Some r).
    { right. by eexists _, _. }
    destruct (Os.status_code response =? 200).
    { exists [Os.EvGet url]. split; [done|]. by repeat constructor. }
    destruct (Scrape.is_transient _); [by apply Wait|].
    destruct (Os.is_error_status _); [by apply Wait|].
    destruct (IH (Os.log (Os.EvGet url) w)) as (new & -> & Hall).
    exists (Os.EvGet url :: new). split; [simpl; by rewrite <- app_assoc|].
    by constructor.
Qed.

Lemma fetch_loop_sleeps (E : Os.env) (url : string) (base_delay : Q)
    (attempts : list Z) (w : Os.world) :
  (0 <= base_delay)%Q ->
  (forall n, 0 <= Os.random E n)%Q ->
  exists new,
    Os.trace (snd (Scrape.fetch_loop E url base_delay attempts w)) = Os.trace w ++ new
    /\ Forall (fun e => match e with
                        | Os.EvSleep seconds => (0 <= seconds)%Q
                        | _ => True
                        end) new.
Proof.
  intros Hb Hr. apply (fetch_loop_sleeps_of (fun seconds => (0 <= seconds)%Q)).
  intros response attempt w' wait_s w0 _ Hc.
  by eapply compute_backoff_nonneg.
Qed.

(** X4. With at most 1024 attempts, a base delay that [time.sleep] accepts
    and random draws between 0 and 1, when the server never answers with
    status 200 and its answers carry no [Retry-After] header,
    [fetch_html_with_retries] gives up after exactly [max_retries] requests,
    and after none when [max_retries] is zero or negative; each of its waits
    is one that [time.sleep] accepts. *)
Theorem fetch_gives_up (E : Os.env) (url : string) (max_retries : Z)
    (base_delay : Q) (w : Os.world) :
  max_retries <= 1024 ->
  Os.can_sleep base_delay ->
  (forall n, 0 <= Os.random E n <= 1)%Q ->
  (forall n response,
     Os.http_get E n url = Os.Got response ->
     Os.status_code response <> 200 /\ Os.retry_after response = None) ->
  fst (Scrape.fetch_html_with_retries E url max_retries base_delay w) = None
  /\ Os.requests (snd (Scrape.fetch_html_with_retries E url max_retries base_delay w))
     = (Os.requests w + Z.to_nat max_retries)%nat
  /\ exists new,
       Os.trace (snd (Scrape.fetch_html_with_retries E url max_retries base_delay w))
       = Os.trace w ++ new
       /\ Forall (fun e => match e with
                           | Os.EvSleep seconds => Os.can_sleep seconds
                           | _ => True
                           end) new.
Proof.
  intros Hm Hb Hr H. unfold Scrape.fetch_html_with_retries.
  destruct (fetch_loop_exhausts E url base_delay (Py.range 1 (max_retries + 1)) w)
    as [-> ->].
  { apply List.Forall_forall. intros attempt Hin. apply In_range in Hin. lia. }
  { intros n response Hget. by destruct (H n response Hget). }
  split; [done|]. split; [rewrite length_range; f_equal; lia|].
  apply (fetch_loop_sleeps_of Os.can_sleep).
  intros response attempt w' wait_s w0 Hresp Hc.
  eapply compute_backoff_can_sleep; [exact Hb|apply Hr| |exact Hc].
  destruct Hresp as [->|(n & r & Hget & ->)]; [done|].
  destruct (H n r Hget) as [_ Hh]. unfold Scrape.has_valid_retry_after.
  by rewrite Hh.
Qed.

Lemma fetch_gives_up_witness :
  fst (Scrape.fetch_html_with_retries (Inputs.env_answering 503 None)
         "https://example.org/raven" 8 (1 # 2) Inputs.empty_world) = None
  /\ Os.requests
       (snd (Scrape.fetch_html_with_retries (Inputs.env_answering 503 None)
               "https://example.org/raven" 8 (1 # 2) Inputs.empty_world))
     = (Os.requests Inputs.empty_world + Z.to_nat 8)%nat
  /\ exists new,
       Os.trace
         (snd (Scrape.fetch_html_with_retries (Inputs.env_answering 503 None)
                 "https://example.org/raven" 8 (1 # 2) Inputs.empty_world))
       = Os.trace Inputs.empty_world ++ new
       /\ Forall (fun e => match e with
                           | Os.EvSleep seconds => Os.can_sleep seconds
                           | _ => True
                           end) new.
Proof.
  apply (fetch_gives_up (Inputs.env_answering 503 None)).
  - lia.
  - split; vm_compute; discriminate.
  - intros n. split; vm_compute; discriminate.
  - intros n response [= <-]. split; [simpl; lia|reflexivity].
Defined.

Lemma fetch_loop_no_pause (E : Os.env) (url : string) (base_delay : Q)
    (attempts : list Z) (w : Os.world) :
  (forall n, exists response,
     Os.http_get E n url = Os.Got response
     /\ Os.status_code response <> 200
     /\ Os.is_error_status (Os.status_code response) = false) ->
  fst (Scrape.fetch_loop E url base_delay attempts w) = None
  /\ Os.trace (snd (Scrape.fetch_loop E url base_delay attempts w))
     = Os.trace w ++ repeat (Os.EvGet url) (List.length attempts)
  /\ Os.draws (snd (Scrape.fetch_loop E url base_delay attempts w)) = Os.draws w.
Proof.
  intros Hall. revert w. induction attempts as [|attempt attempts IH]; intros w.
  - simpl. by rewrite app_nil_r.
  - cbn [Scrape.fetch_loop]. unfold Os.get.
    destruct (Hall (Os.requests w)) as (response & -> & H200 & Herr).
    destruct (Z.eqb_spec (Os.status_code response) 200) as [?|_]; [done|].
    destruct (Scrape.is_transient _) eqn:Ht.
    { apply transient_is_error in Ht. congruence. }
    rewrite Herr.
    destruct (IH (Os.log (Os.EvGet url) w)) as (-> & -> & ->).
    split; [done|]. split; [|done]. simpl. by rewrite <- app_assoc.
Qed.

(** X5. When every answer has a status that is neither 200 nor an error
    (400 to 599), [fetch_html_with_retries] sends its [max_retries] requests
    one after the other with no sleep between them, draws no random number,
    and fails. *)
Theorem fetch_retries_without_pause (E : Os.env) (url : string) (max_retries : Z)
    (base_delay : Q) (w : Os.world) :
  (forall n, exists response,
     Os.http_get E n url = Os.Got response
     /\ Os.status_code response <> 200
     /\ Os.is_error_status (Os.status_code response) = false) ->
  fst (Scrape.fetch_html_with_retries E url max_retries base_delay w) = None
  /\ Os.trace (snd (Scrape.fetch_html_with_retries E url max_retries base_delay w))
     = Os.trace w ++ repeat (Os.EvGet url) (Z.to_nat max_retries)
  /\ Os.draws (snd (Scrape.fetch_html_with_retries E url max_retries base_delay w))
     = Os.draws w.
Proof.
  intros H. unfold Scrape.fetch_html_with_retries.
  destruct (fetch_loop_no_pause E url base_delay (Py.range 1 (max_retries + 1)) w H)
    as (-> & -> & ->).
  split; [done|]. split; [|done]. rewrite length_range. do 2 f_equal. lia.
Qed.

Lemma fetch_retries_without_pause_witness :
  fst (Scrape.fetch_html_with_retries (Inputs.env_answering 204 None)
         "https://example.org/raven" 3 (1 # 2) Inputs.empty_world) = None
  /\ Os.trace
       (snd (Scrape.fetch_html_with_retries (Inputs.env_answering 204 None)
               "https://example.org/raven" 3 (1 # 2) Inputs.empty_world))
     = Os.trace Inputs.empty_world
       ++ repeat (Os.EvGet "https://example.org/raven") (Z.to_nat 3)
  /\ Os.draws
       (snd (Scrape.fetch_html_with_retries (Inputs.env_answering 204 None)
               "https://example.org/raven" 3 (1 # 2) Inputs.empty_world))
     = Os.draws Inputs.empty_world.
Proof.
  apply (fetch_retries_without_pause (Inputs.env_answering 204 None)).
  intros n. eexists. split; [reflexivity|]. split; [simpl; lia|reflexivity].
Defined.

(** ** The checkpoint file *)

(** X6. A checkpoint that is saved and whose document reads back from the
    file is loaded again when the page is 1 or more, and counts as absent
    when it is 0 or negative. *)
Theorem checkpoint_round_trip (E : Os.env) (path : string) (next_page : Z)
    (w : Os.world) :
  Os.json_loads E
    (Os.read_text
       (Os.write_text (Os.os E)
          (Os.json_dumps E (Os.JDict [("next_page", Os.JInt next_page)]))))
  = Some (Os.JDict [("next_page", Os.JInt next_page)]) ->
  Scrape.load_checkpoint E path (Scrape.save_checkpoint E path next_page w)
  = if 1 <=? next_page then Some next_page else None.
Proof.
  intros H. unfold Scrape.load_checkpoint, Scrape.save_checkpoint, Os.write_file.
  simpl. rewrite lookup_insert_eq, H. reflexivity.
Qed.

Lemma checkpoint_round_trip_witness :
  Scrape.load_checkpoint Inputs.env "checkpoint.json"
    (Scrape.save_checkpoint Inputs.env "checkpoint.json" 7 Inputs.empty_world)
  = (if 1 <=? 7 then Some 7 else None)
  /\ Scrape.load_checkpoint Inputs.env "checkpoint.json"
       (Scrape.save_checkpoint Inputs.env "checkpoint.json" 0 Inputs.empty_world)
     = (if 1 <=? 0 then Some 0 else None).
Proof.
  split.
  - apply (checkpoint_round_trip Inputs.env "checkpoint.json" 7). reflexivity.
  - apply (checkpoint_round_trip Inputs.env "checkpoint.json" 0). reflexivity.
Defined.

(** ** The run over the pages *)

Section Harvest.

Variable E : Os.env.
Variable args : Scrape.Args.

(** The world after a page is saved: the rows are appended, the checkpoint
    names the next page, and the delay is slept when it is positive. *)
Lemma page_saved (page : Z) (rows : list Scrape.PoemRow) (w : Os.world) :
  let w' :=
    (if negb (Qle_bool (Scrape.delay args) 0)
     then Os.sleep (Scrape.delay args)
            (Scrape.save_checkpoint E (Scrape.checkpoint args) (page + 1)
               (Scrape.append_rows_to_csv (Scrape.output args) rows w))
     else Scrape.save_checkpoint E (Scrape.checkpoint args) (page + 1)
            (Scrape.append_rows_to_csv (Scrape.output args) rows w)) in
  Os.files w'
  = <[ Scrape.checkpoint args :=
         Os.write_text (Os.os E)
           (Os.json_dumps E (Os.JDict [("next_page", Os.JInt (page + 1))])) ]>
      (Os.files w)
  /\ Os.tables w'
     = <[ Scrape.output args :=
            default [] (Os.tables w !! Scrape.output args)
            ++ map (fun r => [Scrape.title r; Scrape.link r; Scrape.lines r;
                              Scrape.views r; Scrape.source_page r]) rows ]>
         (Os.tables w)
  /\ Os.draws w' = Os.draws w
  /\ exists pause,
       Os.trace w'
       = Os.trace w
         ++ Os.EvAppendRows (Scrape.output args)
              (map (fun r => [Scrape.title r; Scrape.link r; Scrape.lines r;
                              Scrape.views r; Scrape.source_page r]) rows)
            :: Os.EvWriteText (Scrape.checkpoint args)
                 (Os.json_dumps E (Os.JDict [("next_page", Os.JInt (page + 1))]))
            :: pause
       /\ Forall (fun x => Os.is_write x = false) pause
       /\ Forall (fun x => Os.is_get x = false) pause
       /\ Forall (fun e => match e with
                           | Os.EvSleep seconds => (0 <= seconds)%Q
                           | _ => True
                           end) pause.
Proof.
  destruct (Qle_bool (Scrape.delay args) 0) eqn:Hd; simpl; repeat split;
    try reflexivity.
  - exists []. rewrite <- !app_assoc. simpl. repeat split; constructor.
  - exists [Os.EvSleep (Scrape.delay args)]. rewrite <- !app_assoc. simpl.
    repeat split; repeat constructor.
    apply Qlt_le_weak, Qnot_le_lt. intros H. apply Qle_bool_iff in H. congruence.
Qed.

Lemma filter_not_write (l : list Os.event) :
  Forall (fun x => Os.is_write x = false) l -> List.filter Os.is_write l = [].
Proof.
  induction 1 as [|x l Hx _ IH]; [done|]. simpl. by rewrite Hx.
Qed.

Lemma fetch_world (url : string) (w : Os.world) :
  exists new,
    Os.trace (snd (Scrape.fetch_html_with_retries E url (Scrape.max_retries args)
                     (Scrape.delay args) w))
    = Os.trace w ++ new
    /\ Forall (fun x => Os.is_write x = false) new
    /\ Os.files (snd (Scrape.fetch_html_with_retries E url (Scrape.max_retries args)
                        (Scrape.delay args) w))
       = Os.files w
    /\ Os.tables (snd (Scrape.fetch_html_with_retries E url (Scrape.max_retries args)
                         (Scrape.delay args) w))
       = Os.tables w
    /\ (Os.requests w
        <= Os.requests (snd (Scrape.fetch_html_with_retries E url
                               (Scrape.max_retries args) (Scrape.delay args) w))
        <= Os.requests w + Z.to_nat (Scrape.max_retries args))%nat.
Proof.
  unfold Scrape.fetch_html_with_retries.
  destruct (fetch_loop_trace E url (Scrape.delay args)
              (Py.range 1 (Scrape.max_retries args + 1)) w) as (new & Htr & Hnw & _).
  destruct (fetch_loop_requests E url (Scrape.delay args)
              (Py.range 1 (Scrape.max_retries args + 1)) w) as (Hreq & Hf & Ht & _).
  exists new. repeat split; try done; try lia.
  rewrite length_range in Hreq.
  replace (Z.to_nat (Scrape.max_retries args + 1 - 1))
    with (Z.to_nat (Scrape.max_retries args)) in Hreq by (f_equal; lia).
  lia.
Qed.

(** The pages that a run completes are the first ones of its list, each
    one leaves one checkpoint write, and the file holds the last one. *)
Lemma page_loop_checkpoints (pages : list Z) (w : Os.world) :
  exists done rest new,
    pages = done ++ rest
    /\ (fst (Scrape.page_loop E args pages w) = Scrape.Done -> rest = [])
    /\ (fst (Scrape.page_loop E args pages w) = Scrape.Failed -> rest <> [])
    /\ Os.trace (snd (Scrape.page_loop E args pages w)) = Os.trace w ++ new
    /\ List.filter Os.is_write new
       = map (fun page =>
                Os.EvWriteText (Scrape.checkpoint args)
                  (Os.json_dumps E (Os.JDict [("next_page", Os.JInt (page + 1))])))
           done
    /\ Os.files (snd (Scrape.page_loop E args pages w))
       = match done with
         | [] => Os.files w
         | _ :: _ =>
             <[ Scrape.checkpoint args :=
                  Os.write_text (Os.os E)
                    (Os.json_dumps E
                       (Os.JDict [("next_page", Os.JInt (List.last done 0 + 1))])) ]>
               (Os.files w)
         end.
Proof.
  revert w. induction pages as [|page pages IH]; intros w.
  - exists [], [], []. simpl. rewrite app_nil_r. repeat split; done.
  - cbn [Scrape.page_loop].
    destruct (fetch_world (Scrape.BASE_URL_TEMPLATE page) w)
      as (new1 & Htr1 & Hnw1 & Hf1 & _).
    destruct (Scrape.fetch_html_with_retries _ _ _ _ w) as [[html|] w1]; simpl in *.
    2:{ exists [], (page :: pages), new1. simpl.
        rewrite (filter_not_write _ Hnw1). repeat split; done. }
    destruct (Scrape.parse_poem_rows E html page _) as [rows|]; simpl.
    2:{ exists [], (page :: pages), new1. simpl.
        rewrite (filter_not_write _ Hnw1). repeat split; done. }
    destruct (page_saved page rows w1) as (Hf2 & _ & _ & pause & Htr2 & Hnw2 & _).
    cbv zeta in Hf2, Htr2.
    match goal with
    | |- context [Scrape.page_loop E args pages ?w'] => set (w2 := w') in *
    end.
    destruct (IH w2) as (done & rest & new & -> & HD & HF & Htr & Hw & Hfiles).
    exists (page :: done), rest,
      (new1
       ++ Os.EvAppendRows (Scrape.output args)
            (map (fun r => [Scrape.title r; Scrape.link r; Scrape.lines r;
                            Scrape.views r; Scrape.source_page r]) rows)
          :: Os.EvWriteText (Scrape.checkpoint args)
               (Os.json_dumps E (Os.JDict [("next_page", Os.JInt (page + 1))]))
          :: pause ++ new).
    split; [done|]. split; [done|]. split; [done|]. split; [|split].
    + rewrite Htr, Htr2, Htr1. rewrite <- !app_assoc. reflexivity.
    + rewrite List.filter_app. rewrite (filter_not_write _ Hnw1). simpl.
      rewrite List.filter_app, (filter_not_write _ Hnw2). simpl. by rewrite Hw.
    + rewrite Hfiles, Hf2, Hf1. destruct done as [|page' done]; [done|].
      rewrite insert_insert_eq. reflexivity.
Qed.

Lemma page_loop_sleeps (pages : list Z) (w : Os.world) :
  (0 <= Scrape.delay args)%Q ->
  (forall n, 0 <= Os.random E n)%Q ->
  exists new,
    Os.trace (snd (Scrape.page_loop E args pages w)) = Os.trace w ++ new
    /\ Forall (fun e => match e with
                        | Os.EvSleep seconds => (0 <= seconds)%Q
                        | _ => True
                        end) new.
Proof.
  intros Hd Hr. revert w. induction pages as [|page pages IH]; intros w.
  - exists []. simpl. by rewrite app_nil_r.
  - cbn [Scrape.page_loop].
    destruct (fetch_loop_sleeps E (Scrape.BASE_URL_TEMPLATE page) (Scrape.delay args)
                (Py.range 1 (Scrape.max_retries args + 1)) w Hd Hr)
      as (new1 & Htr1 & Hall1).
    fold (Scrape.fetch_html_with_retries E (Scrape.BASE_URL_TEMPLATE page)
            (Scrape.max_retries args) (Scrape.delay args) w) in Htr1.
    destruct (Scrape.fetch_html_with_retries _ _ _ _ w) as [[html|] w1]; simpl in *.
    2:{ by exists new1. }
    destruct (Scrape.parse_poem_rows E html page _) as [rows|]; simpl.
    2:{ by exists new1. }
    destruct (page_saved page rows w1) as (_ & _ & _ & pause & Htr2 & _ & _ & Hall2).
    cbv zeta in Htr2.
    match goal with
    | |- context [Scrape.page_loop E args pages ?w'] => set (w2 := w') in *
    end.
    destruct (IH w2) as (new & -> & Hall).
    eexists. split.
    + rewrite Htr2, Htr1. rewrite <- !app_assoc. reflexivity.
    + apply Forall_app. split; [done|]. do 2 (constructor; [done|]).
      apply Forall_app. by split.
Qed.

End Harvest.

(** ** The rows of a listing page *)

Lemma parse_rows_loop_spec (E : Os.env) (page : Z) (base_url : string)
    (tr_list : list (list Os.cell)) (rows result : list Scrape.PoemRow) :
  Scrape.parse_rows_loop E page base_url tr_list rows = Some result ->
  exists added,
    result = rows ++ added
    /\ (List.length added <= List.length tr_list)%nat
    /\ Forall (fun r =>
         Py.is_empty (Scrape.title r) = false
         /\ Scrape.source_page r = Py.str_of_int page
         /\ exists tr title_cell author_cell lines_cell views_cell more,
              In tr tr_list
              /\ List.filter Os.is_td tr
                 = title_cell :: author_cell :: lines_cell :: views_cell :: more
              /\ Scrape.title r = Os.cell_text title_cell
              /\ match Os.cell_href title_cell with
                 | Some href => Os.urljoin E base_url href
                 | None => Some ""
                 end = Some (Scrape.link r)
              /\ Scrape.lines r = Os.cell_text lines_cell
              /\ Scrape.views r = Os.cell_text views_cell) added.
Proof.
  revert rows. induction tr_list as [|tr tr_list IH]; intros rows.
  - simpl. intros [= <-]. exists []. simpl. rewrite app_nil_r.
    repeat split; [lia|constructor].
  - assert (Skip : forall rows',
      rows' = rows ->
      Scrape.parse_rows_loop E page base_url tr_list rows' = Some result ->
      exists added,
        result = rows ++ added
        /\ (List.length added <= List.length (tr :: tr_list))%nat
        /\ Forall (fun r =>
             Py.is_empty (Scrape.title r) = false
             /\ Scrape.source_page r = Py.str_of_int page
             /\ exists tr0 title_cell author_cell lines_cell views_cell more,
                  In tr0 (tr :: tr_list)
                  /\ List.filter Os.is_td tr0
                     = title_cell :: author_cell :: lines_cell :: views_cell :: more
                  /\ Scrape.title r = Os.cell_text title_cell
                  /\ match Os.cell_href title_cell with
                     | Some href => Os.urljoin E base_url href
                     | None => Some ""
                     end = Some (Scrape.link r)
                  /\ Scrape.lines r = Os.cell_text lines_cell
                  /\ Scrape.views r = Os.cell_text views_cell) added).
    { intros rows' -> H. destruct (IH rows H) as (added & -> & Hlen & Hall).
      exists added. split; [done|]. split; [simpl; lia|].
      eapply Forall_impl; [exact Hall|]. simpl.
      intros r (H1 & H2 & tr0 & c0 & c1 & c2 & c3 & more & Hin & Hrest).
      split; [done|]. split; [done|].
      exists tr0, c0, c1, c2, c3, more. split; [by right|exact Hrest]. }
    cbn [Scrape.parse_rows_loop].
    destruct (List.filter Os.is_td tr) as [|c0 [|c1 [|c2 [|c3 more]]]] eqn:Htd;
      try (apply Skip; reflexivity).
    unfold Scrape.link_of_cell.
    destruct (match Os.cell_href c0 with
              | Some href => Os.urljoin E base_url href
              | None => Some ""
              end) as [link|] eqn:Hlink; [|done].
    destruct (Py.is_empty (Os.cell_text c0)) eqn:Hempty; [apply Skip; reflexivity|].
    match goal with
    | |- context [rows ++ [?r]] => set (row := r)
    end.
    intros H. destruct (IH (rows ++ [row]) H) as (added & -> & Hlen & Hall).
    exists (row :: added). split; [by rewrite <- app_assoc|].
    split; [simpl; lia|]. constructor.
    + split; [exact Hempty|]. split; [reflexivity|].
      exists tr, c0, c1, c2, c3, more. repeat split; try done. by left.
    + eapply Forall_impl; [exact Hall|]. simpl.
      intros r (H1 & H2 & tr0 & d0 & d1 & d2 & d3 & more' & Hin & Hrest).
      split; [done|]. split; [done|].
      exists tr0, d0, d1, d2, d3, more'. split; [by right|exact Hrest].
Qed.

Lemma parse_poem_rows_shape (E : Os.env) (html : string) (page : Z)
    (base_url : string) (rows : list Scrape.PoemRow) :
  Scrape.parse_poem_rows E html page base_url = Some rows ->
  Forall (fun r =>
    Py.is_empty (Scrape.title r) = false
    /\ Scrape.source_page r = Py.str_of_int page) rows.
Proof.
  unfold Scrape.parse_poem_rows.
  destruct (List.find _ _) as [target_table|]; [|done].
  intros H.
  destruct (parse_rows_loop_spec E page base_url (tail target_table) [] rows H)
    as (added & -> & _ & Hall).
  simpl. eapply Forall_impl; [exact Hall|]. simpl. by intros r (H1 & H2 & _).
Qed.

(** The first table that has the header. *)
Lemma find_poems_header (tables : list (list (list Os.cell)))
    (table : list (list Os.cell)) :
  List.find Scrape.is_poems_header tables = Some table ->
  exists before after,
    tables = before ++ table :: after
    /\ Forall (fun table => Scrape.is_poems_header table = false) before
    /\ Scrape.is_poems_header table = true.
Proof.
  induction tables as [|t tables IH]; intros Hfind; [done|].
  simpl in Hfind. destruct (Scrape.is_poems_header t) eqn:Ht.
  - injection Hfind as <-. exists [], tables. repeat split; [constructor|done].
  - destruct (IH Hfind) as (before & after & -> & Hb & Ht').
    exists (t :: before), after. repeat split; [by constructor|done].
Qed.

Lemma find_no_poems_header (tables : list (list (list Os.cell))) :
  List.find Scrape.is_poems_header tables = None
  <-> Forall (fun table => Scrape.is_poems_header table = false) tables.
Proof.
  induction tables as [|t tables IH]; simpl.
  - split; [constructor|done].
  - destruct (Scrape.is_poems_header t) eqn:Ht.
    + split; [done|]. intros H. inversion H; congruence.
    + split.
      * intros H. constructor; [done|]. by apply IH.
      * intros H. apply IH. by inversion H.
Qed.

(** The loop raises exactly when [urljoin] raises on the [href] of the
    first cell of a row that has four [td] cells or more. *)
Lemma parse_rows_loop_raises (E : Os.env) (page : Z) (base_url : string)
    (tr_list : list (list Os.cell)) (rows : list Scrape.PoemRow) :
  Scrape.parse_rows_loop E page base_url tr_list rows = None
  <-> Exists (fun tr =>
        exists title_cell author_cell lines_cell views_cell more href,
          List.filter Os.is_td tr
          = title_cell :: author_cell :: lines_cell :: views_cell :: more
          /\ Os.cell_href title_cell = Some href
          /\ Os.urljoin E base_url href = None) tr_list.
Proof.
  revert rows. induction tr_list as [|tr tr_list IH]; intros rows.
  - simpl. split; [done|]. intros H. inversion H.
  - assert (Skip : forall rows',
      (forall c0 c1 c2 c3 more href,
         List.filter Os.is_td tr = c0 :: c1 :: c2 :: c3 :: more ->
         Os.cell_href c0 = Some href -> Os.urljoin E base_url href <> None) ->
      Scrape.parse_rows_loop E page base_url tr_list rows' = None
      <-> Exists (fun tr =>
            exists title_cell author_cell lines_cell views_cell more href,
              List.filter Os.is_td tr
              = title_cell :: author_cell :: lines_cell :: views_cell :: more
              /\ Os.cell_href title_cell = Some href
              /\ Os.urljoin E base_url href = None) (tr :: tr_list)).
    { intros rows' Hok. rewrite IH, Exists_cons. split; [by right|].
      intros [(c0 & c1 & c2 & c3 & more & href & H1 & H2 & H3)|H]; [|done].
      by destruct (Hok c0 c1 c2 c3 more href). }
    cbn [Scrape.parse_rows_loop].
    destruct (List.filter Os.is_td tr) as [|c0 [|c1 [|c2 [|c3 more]]]] eqn:Htd;
      try (apply Skip; intros; discriminate).
    unfold Scrape.link_of_cell.
    destruct (Os.cell_href c0) as [href|] eqn:Hhref.
    + destruct (Os.urljoin E base_url href) as [link|] eqn:Hjoin.
      * destruct (Py.is_empty (Os.cell_text c0)); apply Skip;
          intros ?????? ? ?; simplify_eq; congruence.
      * split; [|done]. intros _. apply Exists_cons_hd.
        by exists c0, c1, c2, c3, more, href.
    + destruct (Py.is_empty (Os.cell_text c0)); apply Skip;
        intros ?????? ? ?; simplify_eq; congruence.
Qed.

(** X7. The rows that [parse_poem_rows] returns come from the first table
    whose first row names the four columns: there are no more of them than
    rows after that first row, and each one has a title that is not empty,
    the page number as its source page, and the texts of the first, third
    and fourth [td] cells of a row that has four or more of them, with the
    joined [href] of the first cell as its link, or an empty link. *)
Theorem parse_poem_rows_rows (E : Os.env) (html : string) (page : Z)
    (base_url : string) (rows : list Scrape.PoemRow) :
  Scrape.parse_poem_rows E html page base_url = Some rows ->
  exists before target_table after,
    Os.soup_tables E html = before ++ target_table :: after
    /\ Forall (fun table => Scrape.is_poems_header table = false) before
    /\ Scrape.is_poems_header target_table = true
    /\ (List.length rows <= List.length target_table - 1)%nat
    /\ Forall (fun r =>
         Py.is_empty (Scrape.title r) = false
         /\ Scrape.source_page r = Py.str_of_int page
         /\ exists tr title_cell author_cell lines_cell views_cell more,
              In tr (tail target_table)
              /\ List.filter Os.is_td tr
                 = title_cell :: author_cell :: lines_cell :: views_cell :: more
              /\ Scrape.title r = Os.cell_text title_cell
              /\ match Os.cell_href title_cell with
                 | Some href => Os.urljoin E base_url href
                 | None => Some ""
                 end = Some (Scrape.link r)
              /\ Scrape.lines r = Os.cell_text lines_cell
              /\ Scrape.views r = Os.cell_text views_cell) rows.
Proof.
  unfold Scrape.parse_poem_rows. intros H.
  destruct (List.find _ _) as [target_table|] eqn:Hfind; [|done].
  destruct (find_poems_header _ _ Hfind) as (before & after & Htables & Hb & Ht).
  exists before, target_table, after. split; [done|]. split; [done|]. split; [done|].
  destruct (parse_rows_loop_spec E page base_url (tail target_table) [] rows H)
    as (added & -> & Hlen & Hall).
  simpl. split; [|exact Hall].
  destruct target_table; simpl in *; lia.
Qed.

Lemma parse_poem_rows_rows_witness :
  exists before target_table after,
    Os.soup_tables Inputs.env "page" = before ++ target_table :: after
    /\ Forall (fun table => Scrape.is_poems_header table = false) before
    /\ Scrape.is_poems_header target_table = true
    /\ (List.length
          [ {| Scrape.title := "The Raven"; Scrape.link := "https://example.org/raven";
               Scrape.lines := "108"; Scrape.views := "4321";
               Scrape.source_page := "3" |} ]
        <= List.length target_table - 1)%nat
    /\ Forall (fun r =>
         Py.is_empty (Scrape.title r) = false
         /\ Scrape.source_page r = Py.str_of_int 3
         /\ exists tr title_cell author_cell lines_cell views_cell more,
              In tr (tail target_table)
              /\ List.filter Os.is_td tr
                 = title_cell :: author_cell :: lines_cell :: views_cell :: more
              /\ Scrape.title r = Os.cell_text title_cell
              /\ match Os.cell_href title_cell with
                 | Some href => Os.urljoin Inputs.env "https://example.org/" href
                 | None => Some ""
                 end = Some (Scrape.link r)
              /\ Scrape.lines r = Os.cell_text lines_cell
              /\ Scrape.views r = Os.cell_text views_cell)
         [ {| Scrape.title := "The Raven"; Scrape.link := "https://example.org/raven";
              Scrape.lines := "108"; Scrape.views := "4321";
              Scrape.source_page := "3" |} ].
Proof.
  apply (parse_poem_rows_rows Inputs.env "page" 3 "https://example.org/").
  vm_compute. reflexivity.
Defined.

(** X8. [parse_poem_rows] raises exactly when no table of the page has a
    first row that names the four columns, or when, in the first table that
    has one, a row after the first has four [td] cells or more and [urljoin]
    raises on the [href] of the first of them, whether that cell has a text
    or not. *)
Theorem parse_poem_rows_raises (E : Os.env) (html : string) (page : Z)
    (base_url : string) :
  Scrape.parse_poem_rows E html page base_url = None
  <-> Forall (fun table => Scrape.is_poems_header table = false)
        (Os.soup_tables E html)
      \/ exists before target_table after,
           Os.soup_tables E html = before ++ target_table :: after
           /\ Forall (fun table => Scrape.is_poems_header table = false) before
           /\ Scrape.is_poems_header target_table = true
           /\ Exists (fun tr =>
                exists title_cell author_cell lines_cell views_cell more href,
                  List.filter Os.is_td tr
                  = title_cell :: author_cell :: lines_cell :: views_cell :: more
                  /\ Os.cell_href title_cell = Some href
                  /\ Os.urljoin E base_url href = None) (tail target_table).
Proof.
  unfold Scrape.parse_poem_rows.
  destruct (List.find _ _) as [target_table|] eqn:Hfind.
  - destruct (find_poems_header _ _ Hfind) as (before & after & Htables & Hb & Ht).
    rewrite parse_rows_loop_raises. split.
    + intros H. right. by exists before, target_table, after.
    + intros [H|(before' & table' & after' & Htables' & Hb' & Ht' & H)].
      * apply find_no_poems_header in H. congruence.
      * assert (Hsame : List.find Scrape.is_poems_header (Os.soup_tables E html)
                        = Some table').
        { rewrite Htables'. clear -Hb' Ht'.
          induction Hb' as [|t before' Hf _ IH]; simpl; [by rewrite Ht'|].
          by rewrite Hf. }
        rewrite Hfind in Hsame. by injection Hsame as ->.
  - split; [|done]. intros _. left. by apply find_no_poems_header.
Qed.

(** ** The corpus and the requests of a run *)

Lemma resolve_start_page_ge (E : Os.env) (args : Scrape.Args) (w : Os.world) :
  Scrape.start_page args <= Scrape.resolve_start_page E args w.
Proof.
  unfold Scrape.resolve_start_page.
  destruct (Scrape.resume args); [|lia].
  destruct (Scrape.load_checkpoint _ _ _); lia.
Qed.

Lemma requests_ensure_csv_header (path : string) (w : Os.world) :
  Os.requests (Scrape.ensure_csv_header path w) = Os.requests w.
Proof.
  unfold Scrape.ensure_csv_header, Scrape.append_rows, Os.requests.
  destruct (Os.tables w !! path) as [[|row table]|]; simpl;
    rewrite ?List.filter_app; simpl; rewrite ?app_nil_r; reflexivity.
Qed.

(** The header is there after [ensure_csv_header], and a file that has rows
    is left as it is. *)
Lemma ensure_csv_header_tables (path : string) (w : Os.world) :
  Os.tables (Scrape.ensure_csv_header path w) !! path
  = Some match Os.tables w !! path with
         | Some (row :: table) => row :: table
         | _ => [Scrape.fieldnames]
         end
  /\ forall other, other <> path ->
       Os.tables (Scrape.ensure_csv_header path w) !! other = Os.tables w !! other.
Proof.
  unfold Scrape.ensure_csv_header, Scrape.append_rows.
  destruct (Os.tables w !! path) as [[|row table]|] eqn:Hp; simpl.
  - rewrite lookup_insert_eq. split; [done|].
    intros other Hother. by rewrite lookup_insert_ne.
  - done.
  - rewrite lookup_insert_eq. split; [done|].
    intros other Hother. by rewrite lookup_insert_ne.
Qed.

Section Run.

Variable E : Os.env.
Variable args : Scrape.Args.

Lemma page_loop_tables (pages : list Z) (w : Os.world) (base : list (list string)) :
  Os.tables w !! Scrape.output args = Some base ->
  exists added,
    Os.tables (snd (Scrape.page_loop E args pages w)) !! Scrape.output args
    = Some (base ++ added)
    /\ Forall (fun row =>
         exists title link lines views page,
           row = [title; link; lines; views; Py.str_of_int page]
           /\ In page pages
           /\ Py.is_empty title = false) added
    /\ forall other, other <> Scrape.output args ->
         Os.tables (snd (Scrape.page_loop E args pages w)) !! other
         = Os.tables w !! other.
Proof.
  revert w base. induction pages as [|page pages IH]; intros w base Hbase.
  - exists []. simpl. rewrite app_nil_r. repeat split; [done|constructor].
  - cbn [Scrape.page_loop].
    destruct (fetch_world E args (Scrape.BASE_URL_TEMPLATE page) w)
      as (_ & _ & _ & _ & Ht1 & _).
    destruct (Scrape.fetch_html_with_retries _ _ _ _ w) as [[html|] w1]; simpl in *.
    2:{ exists []. rewrite app_nil_r, Ht1. repeat split; [done|constructor]. }
    destruct (Scrape.parse_poem_rows E html page _) as [rows|] eqn:Hparse; simpl.
    2:{ exists []. rewrite app_nil_r, Ht1. repeat split; [done|constructor]. }
    destruct (page_saved E args page rows w1) as (_ & Ht2 & _).
    cbv zeta in Ht2.
    match goal with
    | |- context [Scrape.page_loop E args pages ?w'] => set (w2 := w') in *
    end.
    rewrite Ht1, Hbase in Ht2. simpl in Ht2.
    destruct (IH w2 (base ++ map (fun r => [Scrape.title r; Scrape.link r;
                                           Scrape.lines r; Scrape.views r;
                                           Scrape.source_page r]) rows))
      as (added & -> & Hall & Hother).
    { by rewrite Ht2, lookup_insert_eq. }
    exists (map (fun r => [Scrape.title r; Scrape.link r; Scrape.lines r;
                           Scrape.views r; Scrape.source_page r]) rows ++ added).
    split; [by rewrite <- app_assoc|]. split.
    + apply Forall_app. split.
      * pose proof (parse_poem_rows_shape E html page
                      (Scrape.BASE_URL_TEMPLATE page) rows Hparse) as Hrows.
        apply Forall_map. eapply Forall_impl; [exact Hrows|]. simpl.
        intros r [Hne Hsrc].
        exists (Scrape.title r), (Scrape.link r), (Scrape.lines r), (Scrape.views r), page.
        rewrite Hsrc. repeat split; [by left|done].
      * eapply Forall_impl; [exact Hall|]. simpl.
        intros row (t & l & n & v & p & -> & Hin & Hne).
        exists t, l, n, v, p. repeat split; [by right|done].
    + intros other Hne. rewrite (Hother other Hne), Ht2. by rewrite lookup_insert_ne.
Qed.

Lemma page_loop_requests (pages : list Z) (w : Os.world) :
  (Os.requests w
   <= Os.requests (snd (Scrape.page_loop E args pages w))
   <= Os.requests w + List.length pages * Z.to_nat (Scrape.max_retries args))%nat.
Proof.
  revert w. induction pages as [|page pages IH]; intros w.
  - simpl. lia.
  - cbn [Scrape.page_loop].
    destruct (fetch_world E args (Scrape.BASE_URL_TEMPLATE page) w)
      as (_ & _ & _ & _ & _ & Hreq).
    destruct (Scrape.fetch_html_with_retries _ _ _ _ w) as [[html|] w1]; simpl in *.
    2:{ lia. }
    destruct (Scrape.parse_poem_rows E html page _) as [rows|]; simpl.
    2:{ lia. }
    destruct (page_saved E args page rows w1) as (_ & _ & _ & pause & Htr & _ & Hng & _).
    cbv zeta in Htr.
    match goal with
    | |- context [Scrape.page_loop E args pages ?w'] => set (w2 := w') in *
    end.
    assert (Hw2 : Os.requests w2 = Os.requests w1).
    { unfold Os.requests. rewrite Htr, List.filter_app. simpl.
      assert (Hp : List.filter Os.is_get pause = []).
      { clear -Hng. induction Hng as [|x l Hx _ IHl]; [done|]. simpl. by rewrite Hx. }
      by rewrite Hp, app_nil_r. }
    specialize (IH w2). lia.
Qed.

End Run.

(** X9. A run that finds no corpus file, or an empty one, and whose corpus
    and checkpoint are different files, leaves a corpus that holds the
    header followed by rows of five fields whose title is not empty and
    whose last field is the number of a page between the start page and the
    end page, however the run ends; the other CSV files are untouched. *)
Theorem new_corpus_rows (E : Os.env) (args : Scrape.Args) (w : Os.world) :
  Scrape.output args <> Scrape.checkpoint args ->
  Scrape.start_page args <= Scrape.end_page args ->
  Os.tables w !! Scrape.output args = None
  \/ Os.tables w !! Scrape.output args = Some [] ->
  exists added,
    Os.tables (snd (Scrape.main E args w)) !! Scrape.output args
    = Some (Scrape.fieldnames :: added)
    /\ Forall (fun row =>
         exists title link lines views page,
           row = [title; link; lines; views; Py.str_of_int page]
           /\ Scrape.start_page args <= page <= Scrape.end_page args
           /\ Py.is_empty title = false) added
    /\ forall other, other <> Scrape.output args ->
         Os.tables (snd (Scrape.main E args w)) !! other = Os.tables w !! other.
Proof.
  intros _ Hle Hnew. unfold Scrape.main.
  destruct (Z.ltb_spec (Scrape.end_page args) (Scrape.start_page args)) as [?|_]; [lia|].
  destruct (ensure_csv_header_tables (Scrape.output args) w) as [Hbase Hother0].
  assert (Hhead : Os.tables (Scrape.ensure_csv_header (Scrape.output args) w)
                    !! Scrape.output args = Some [Scrape.fieldnames]).
  { rewrite Hbase. by destruct Hnew as [->| ->]. }
  destruct (page_loop_tables E args
              (Py.range (Scrape.resolve_start_page E args
                           (Scrape.ensure_csv_header (Scrape.output args) w))
                 (Scrape.end_page args + 1))
              (Scrape.ensure_csv_header (Scrape.output args) w) _ Hhead)
    as (added & Htab & Hall & Hother).
  exists added. split; [exact Htab|]. split.
  - eapply Forall_impl; [exact Hall|]. simpl.
    intros row (t & l & n & v & p & -> & Hin & Hne).
    exists t, l, n, v, p. split; [done|]. split; [|done].
    apply In_range in Hin.
    pose proof (resolve_start_page_ge E args
                  (Scrape.ensure_csv_header (Scrape.output args) w)). lia.
  - intros other Hne. rewrite (Hother other Hne). by apply Hother0.
Qed.

Lemma new_corpus_rows_witness :
  exists added,
    Os.tables (snd (Scrape.main Inputs.env (Inputs.args 1 2 false) Inputs.empty_world))
      !! Scrape.output (Inputs.args 1 2 false)
    = Some (Scrape.fieldnames :: added)
    /\ Forall (fun row =>
         exists title link lines views page,
           row = [title; link; lines; views; Py.str_of_int page]
           /\ Scrape.start_page (Inputs.args 1 2 false) <= page
              <= Scrape.end_page (Inputs.args 1 2 false)
           /\ Py.is_empty title = false) added
    /\ forall other, other <> Scrape.output (Inputs.args 1 2 false) ->
         Os.tables (snd (Scrape.main Inputs.env (Inputs.args 1 2 false)
                           Inputs.empty_world)) !! other
         = Os.tables Inputs.empty_world !! other.
Proof.
  apply (new_corpus_rows Inputs.env (Inputs.args 1 2 false) Inputs.empty_world).
  - discriminate.
  - simpl. lia.
  - left. reflexivity.
Defined.

(** X10. With a corpus and a checkpoint that are different files, and a
    delay and random draws that are not negative, the pages that a run
    completes are the first ones of its range, and all of them when it ends
    normally; it writes the checkpoint once for each completed page, in
    order, with the number of the page that follows, writes no other text
    file, never sleeps a negative time, and leaves the checkpoint file as it
    found it when no page was completed. *)
Theorem checkpoints_follow_pages (E : Os.env) (args : Scrape.Args) (w : Os.world) :
  Scrape.output args <> Scrape.checkpoint args ->
  Scrape.start_page args <= Scrape.end_page args ->
  (0 <= Scrape.delay args)%Q ->
  (forall n, 0 <= Os.random E n)%Q ->
  exists completed rest new,
    Py.range (Scrape.resolve_start_page E args w) (Scrape.end_page args + 1)
    = completed ++ rest
    /\ (fst (Scrape.main E args w) = Scrape.Done -> rest = [])
    /\ Os.trace (snd (Scrape.main E args w)) = Os.trace w ++ new
    /\ List.filter Os.is_write new
       = map (fun page =>
                Os.EvWriteText (Scrape.checkpoint args)
                  (Os.json_dumps E (Os.JDict [("next_page", Os.JInt (page + 1))])))
           completed
    /\ Forall (fun e => match e with
                        | Os.EvSleep seconds => (0 <= seconds)%Q
                        | _ => True
                        end) new
    /\ Os.files (snd (Scrape.main E args w))
       = match completed with
         | [] => Os.files w
         | _ :: _ =>
             <[ Scrape.checkpoint args :=
                  Os.write_text (Os.os E)
                    (Os.json_dumps E
                       (Os.JDict [("next_page",
                                   Os.JInt (List.last completed 0 + 1))])) ]>
               (Os.files w)
         end.
Proof.
  intros _ Hle Hd Hr. unfold Scrape.main.
  destruct (Z.ltb_spec (Scrape.end_page args) (Scrape.start_page args)) as [?|_]; [lia|].
  destruct (ensure_csv_header_trace (Scrape.output args) w)
    as (Hfiles0 & header & Htr0 & Hnw0).
  rewrite (resolve_start_page_files E args w _ Hfiles0).
  destruct (page_loop_checkpoints E args
              (Py.range (Scrape.resolve_start_page E args w) (Scrape.end_page args + 1))
              (Scrape.ensure_csv_header (Scrape.output args) w))
    as (completed & rest & new & Hsplit & HD & _ & Htr & Hw & Hfiles).
  destruct (page_loop_sleeps E args
              (Py.range (Scrape.resolve_start_page E args w) (Scrape.end_page args + 1))
              (Scrape.ensure_csv_header (Scrape.output args) w) Hd Hr)
    as (new' & Htr' & Hall).
  assert (new' = new) as -> by (rewrite Htr in Htr'; by apply app_inv_head in Htr').
  exists completed, rest, (header ++ new).
  split; [done|]. split; [done|]. split; [|split; [|split]].
  - by rewrite Htr, Htr0, <- app_assoc.
  - by rewrite List.filter_app, (filter_not_write _ Hnw0).
  - apply Forall_app. split; [|done].
    assert (exists h,
              Os.trace (Scrape.ensure_csv_header (Scrape.output args) w)
              = Os.trace w ++ h
              /\ Forall (fun e => match e with
                                  | Os.EvSleep seconds => (0 <= seconds)%Q
                                  | _ => True
                                  end) h) as (h & Hh & HP).
    { unfold Scrape.ensure_csv_header, Scrape.append_rows.
      destruct (Os.tables w !! Scrape.output args) as [[|row table]|]; simpl.
      - eexists. split; [reflexivity|]. by repeat constructor.
      - exists []. by rewrite app_nil_r.
      - eexists. split; [reflexivity|]. by repeat constructor. }
    rewrite Htr0 in Hh. apply app_inv_head in Hh. by subst h.
  - by rewrite Hfiles, Hfiles0.
Qed.

Lemma checkpoints_follow_pages_witness :
  exists completed rest new,
    Py.range (Scrape.resolve_start_page Inputs.env (Inputs.args 1 9 true)
                Inputs.resumed_world)
      (Scrape.end_page (Inputs.args 1 9 true) + 1)
    = completed ++ rest
    /\ (fst (Scrape.main Inputs.env (Inputs.args 1 9 true) Inputs.resumed_world)
        = Scrape.Done -> rest = [])
    /\ Os.trace (snd (Scrape.main Inputs.env (Inputs.args 1 9 true)
                        Inputs.resumed_world))
       = Os.trace Inputs.resumed_world ++ new
    /\ List.filter Os.is_write new
       = map (fun page =>
                Os.EvWriteText (Scrape.checkpoint (Inputs.args 1 9 true))
                  (Os.json_dumps Inputs.env
                     (Os.JDict [("next_page", Os.JInt (page + 1))])))
           completed
    /\ Forall (fun e => match e with
                        | Os.EvSleep seconds => (0 <= seconds)%Q
                        | _ => True
                        end) new
    /\ Os.files (snd (Scrape.main Inputs.env (Inputs.args 1 9 true)
                        Inputs.resumed_world))
       = match completed with
         | [] => Os.files Inputs.resumed_world
         | _ :: _ =>
             <[ Scrape.checkpoint (Inputs.args 1 9 true) :=
                  Os.write_text (Os.os Inputs.env)
                    (Os.json_dumps Inputs.env
                       (Os.JDict [("next_page",
                                   Os.JInt (List.last completed 0 + 1))])) ]>
               (Os.files Inputs.resumed_world)
         end.
Proof.
  apply (checkpoints_follow_pages Inputs.env (Inputs.args 1 9 true)
           Inputs.resumed_world).
  - discriminate.
  - simpl. lia.
  - vm_compute. discriminate.
  - intros n. vm_compute. discriminate.
Defined.

(** X11. A run sends at most [max_retries] requests for each page from
    the start page to the end page, and none when the end page is before
    the start page. *)
Theorem main_requests_bounded (E : Os.env) (args : Scrape.Args) (w : Os.world) :
  (Os.requests w
   <= Os.requests (snd (Scrape.main E args w))
   <= Os.requests w
      + Z.to_nat (Scrape.end_page args - Scrape.start_page args + 1)
        * Z.to_nat (Scrape.max_retries args))%nat.
Proof.
  unfold Scrape.main.
  destruct (Z.ltb_spec (Scrape.end_page args) (Scrape.start_page args)) as [Hlt|Hle].
  - simpl. lia.
  - pose proof (page_loop_requests E args
             (Py.range (Scrape.resolve_start_page E args
                          (Scrape.ensure_csv_header (Scrape.output args) w))
                (Scrape.end_page args + 1))
             (Scrape.ensure_csv_header (Scrape.output args) w)) as H.
    rewrite length_range, requests_ensure_csv_header in H.
    pose proof (resolve_start_page_ge E args
                  (Scrape.ensure_csv_header (Scrape.output args) w)) as Hge.
    assert (Hn : (Z.to_nat (Scrape.end_page args + 1
                            - Scrape.resolve_start_page E args
                                (Scrape.ensure_csv_header (Scrape.output args) w))
                  <= Z.to_nat (Scrape.end_page args - Scrape.start_page args + 1))%nat)
      by lia.
    split; [lia|]. etransitivity; [apply H|].
    apply Nat.add_le_mono_l, Nat.mul_le_mono_r, Hn.
Qed.

(** X12. A run with [--resume] that ended normally, with a corpus and a
    checkpoint that are different files, a delay and random draws that are
    not negative, an end page that is not negative and a checkpoint document
    that reads back from its file, can be repeated at no cost: the second
    run ends normally, sends no request and leaves everything as the first
    one left it. *)
Theorem rerun_after_completion (E : Os.env) (args : Scrape.Args) (w : Os.world) :
  Scrape.output args <> Scrape.checkpoint args ->
  (0 <= Scrape.delay args)%Q ->
  (forall n, 0 <= Os.random E n)%Q ->
  Scrape.resume args = true ->
  0 <= Scrape.end_page args ->
  Os.json_loads E
    (Os.read_text
       (Os.write_text (Os.os E)
          (Os.json_dumps E
             (Os.JDict [("next_page", Os.JInt (Scrape.end_page args + 1))]))))
  = Some (Os.JDict [("next_page", Os.JInt (Scrape.end_page args + 1))]) ->
  fst (Scrape.main E args w) = Scrape.Done ->
  Scrape.main E args (snd (Scrape.main E args w))
  = (Scrape.Done, snd (Scrape.main E args w)).
Proof.
  intros _ _ _ Hresume Hend Hjson. unfold Scrape.main.
  destruct (Z.ltb_spec (Scrape.end_page args) (Scrape.start_page args)) as [Hlt|Hle];
    [done|].
  set (w1 := Scrape.ensure_csv_header (Scrape.output args) w).
  set (pages := Py.range (Scrape.resolve_start_page E args w1)
                  (Scrape.end_page args + 1)).
  intros Hdone.
  destruct (ensure_csv_header_tables (Scrape.output args) w) as [Hbase _].
  fold w1 in Hbase.
  destruct (page_loop_tables E args pages w1 _ Hbase) as (added & Htab & _).
  destruct (page_loop_checkpoints E args pages w1)
    as (completed & rest & new & Hsplit & HD & _ & _ & _ & Hfiles).
  specialize (HD Hdone). subst rest. rewrite app_nil_r in Hsplit. subst completed.
  set (w2 := snd (Scrape.page_loop E args pages w1)) in *.
  assert (Hhead : Scrape.ensure_csv_header (Scrape.output args) w2 = w2).
  { unfold Scrape.ensure_csv_header. rewrite Htab.
    by destruct (Os.tables w !! Scrape.output args) as [[|row table]|]. }
  rewrite Hhead.
  assert (Hstart : Scrape.end_page args + 1 <= Scrape.resolve_start_page E args w2).
  { destruct pages as [|page pages'] eqn:Hpages.
    - assert (Hw2 : w2 = w1) by reflexivity. rewrite Hw2.
      assert (Hlen : List.length pages = 0%nat) by (by subst pages; rewrite Hpages).
      subst pages. rewrite length_range in Hlen. lia.
    - assert (Hlast : List.last (page :: pages') 0 = Scrape.end_page args).
      { rewrite <- Hpages. subst pages.
        rewrite last_range; [lia|].
        assert (Hlen : List.length
                         (Py.range (Scrape.resolve_start_page E args w1)
                            (Scrape.end_page args + 1)) <> 0%nat)
          by (by rewrite Hpages).
        rewrite length_range in Hlen. lia. }
      rewrite Hlast in Hfiles.
      unfold Scrape.resolve_start_page, Scrape.load_checkpoint.
      rewrite Hresume, Hfiles, lookup_insert_eq, Hjson. simpl.
      destruct (Z.leb_spec 1 (Scrape.end_page args + 1)); lia. }
  assert (Hnil : Py.range (Scrape.resolve_start_page E args w2)
                   (Scrape.end_page args + 1) = []).
  { apply length_zero_iff_nil. rewrite length_range. lia. }
  rewrite Hnil. reflexivity.
Qed.

Lemma rerun_after_completion_witness :
  Scrape.main Inputs.env (Inputs.args 1 2 true)
    (snd (Scrape.main Inputs.env (Inputs.args 1 2 true) Inputs.empty_world))
  = (Scrape.Done,
     snd (Scrape.main Inputs.env (Inputs.args 1 2 true) Inputs.empty_world)).
Proof.
  apply (rerun_after_completion Inputs.env (Inputs.args 1 2 true) Inputs.empty_world).
  - discriminate.
  - vm_compute. discriminate.
  - intros n. vm_compute. discriminate.
  - reflexivity.
  - simpl. lia.
  - reflexivity.
  - vm_compute. reflexivity.
Defined.

(** * Further properties of [shortlist_poems.py] *)

(** ** The scan of [main] *)

(** [assign] leaves the shortlist as it is, or appends the candidate to
    one band that has room and whose ranges hold it. *)
Lemma assign_cases (bands : list (string * Shortlist.Band)) (per_band : Z)
    (shortlisted : gmap string (list Shortlist.Candidate)) (c : Shortlist.Candidate) :
  Shortlist.assign bands per_band shortlisted c = shortlisted
  \/ exists band_name band,
       In (band_name, band) bands
       /\ Shortlist.in_band c band = true
       /\ Z.of_nat (List.length (default [] (shortlisted !! band_name))) < per_band
       /\ Shortlist.assign bands per_band shortlisted c
          = <[ band_name := default [] (shortlisted !! band_name) ++ [c] ]> shortlisted.
Proof.
  induction bands as [|[n b] bands IH]; [by left|]. simpl.
  destruct (Z.leb_spec per_band
              (Z.of_nat (List.length (default [] (shortlisted !! n))))) as [Hfull|Hroom].
  - destruct IH as [IH|(n' & b' & Hin & Hb & Hlt & IH)]; [by left|].
    right. exists n', b'. repeat split; try done. by right.
  - destruct (Shortlist.in_band c b) eqn:Hb.
    + right. exists n, b. repeat split; try done. by left.
    + destruct IH as [IH|(n' & b' & Hin & Hb' & Hlt & IH)]; [by left|].
      right. exists n', b'. repeat split; try done. by right.
Qed.

Lemma fetch_candidate_text_cached_world (E : Os.env) (url cache_dir : string)
    (w : Os.world) :
  (Os.requests w
   <= Os.requests (snd (Shortlist.fetch_candidate_text_cached E url cache_dir w))
   <= S (Os.requests w))%nat
  /\ Os.files w
     ⊆ Os.files (snd (Shortlist.fetch_candidate_text_cached E url cache_dir w))
  /\ (is_Some (fst (Shortlist.fetch_candidate_text_cached E url cache_dir w)) ->
      is_Some (Os.files (snd (Shortlist.fetch_candidate_text_cached E url cache_dir w))
                 !! Shortlist._cache_path E cache_dir url))
  /\ exists new,
       Os.trace (snd (Shortlist.fetch_candidate_text_cached E url cache_dir w))
       = Os.trace w ++ new
       /\ (List.filter Os.is_get new = [] \/ List.filter Os.is_get new = [Os.EvGet url])
       /\ Forall (fun e => match e with
                           | Os.EvSleep seconds => (0 <= seconds)%Q
                           | _ => True
                           end) new.
Proof.
  unfold Shortlist.fetch_candidate_text_cached. cbv zeta.
  destruct (Os.files w !! Shortlist._cache_path E cache_dir url) as [stored|] eqn:Hc.
  { simpl. split; [lia|]. split; [done|]. split; [by rewrite Hc|].
    exists []. rewrite app_nil_r. repeat split; [by left|constructor]. }
  unfold Os.get.
  assert (Hlog : Os.requests (Os.log (Os.EvGet url) w) = S (Os.requests w)).
  { rewrite requests_log. simpl. lia. }
  assert (Fail :
    (Os.requests w <= Os.requests (Os.log (Os.EvGet url) w) <= S (Os.requests w))%nat
    /\ Os.files w ⊆ Os.files (Os.log (Os.EvGet url) w)
    /\ (is_Some (@None string) ->
        is_Some (Os.files (Os.log (Os.EvGet url) w)
                   !! Shortlist._cache_path E cache_dir url))
    /\ exists new,
         Os.trace (Os.log (Os.EvGet url) w) = Os.trace w ++ new
         /\ (List.filter Os.is_get new = []
             \/ List.filter Os.is_get new = [Os.EvGet url])
         /\ Forall (fun e => match e with
                             | Os.EvSleep seconds => (0 <= seconds)%Q
                             | _ => True
                             end) new).
  { split; [lia|]. split; [done|]. split; [by intros [x Hx]|].
    exists [Os.EvGet url]. repeat split; [by right|by repeat constructor]. }
  destruct (Os.http_get E (Os.requests w) url) as [|response]; [exact Fail|].
  destruct (Os.is_error_status _); [exact Fail|]. simpl.
  split; [rewrite requests_write_file, Hlog; lia|].
  split; [by apply insert_subseteq|].
  split; [by rewrite lookup_insert_eq|].
  eexists. split; [by rewrite <- app_assoc|].
  split; [by right|by repeat constructor].
Qed.

Section Scan.

Variable E : Os.env.
Variable args : Shortlist.Args.
Variable bands : list (string * Shortlist.Band).

(** What the scan keeps, in the order of the rows: each accepted candidate
    with the name of its band. *)
Lemma scan_loop_spec (rough_pool : list Shortlist.Poem)
    (shortlisted : gmap string (list Shortlist.Candidate)) (attempted : Z)
    (w : Os.world) (shortlisted' : gmap string (list Shortlist.Candidate))
    (attempted' : Z) (w' : Os.world) :
  Shortlist.scan_loop E args bands rough_pool shortlisted attempted w
  = (Some (shortlisted', attempted'), w') ->
  attempted <= attempted' <= attempted + Z.of_nat (List.length rough_pool)
  /\ attempted' <= Z.max attempted (Shortlist.max_fetch args)
  /\ (Os.requests w <= Os.requests w'
      <= Os.requests w + Z.to_nat (attempted' - attempted))%nat
  /\ Os.files w ⊆ Os.files w'
  /\ (Qle_bool 0 (Shortlist.delay args) = false -> shortlisted' = shortlisted)
  /\ (forall name,
        Z.of_nat (List.length (default [] (shortlisted' !! name)))
        <= Z.max (Z.of_nat (List.length (default [] (shortlisted !! name))))
             (Shortlist.per_band args))
  /\ exists accepted : list (string * Shortlist.Candidate),
       Z.of_nat (List.length accepted) <= attempted' - attempted
       /\ (forall name,
             default [] (shortlisted' !! name)
             = default [] (shortlisted !! name)
               ++ map snd (List.filter (fun e => String.eqb (fst e) name) accepted))
       /\ Forall (fun e =>
            exists band row,
              In (fst e, band) bands
              /\ Shortlist.in_band (snd e) band = true
              /\ In row rough_pool
              /\ Shortlist.title (snd e) = Shortlist.p_title row
              /\ Shortlist.link (snd e) = Shortlist.p_link row
              /\ Shortlist.lines (snd e) = Shortlist.p_lines row
              /\ Shortlist.views (snd e) = Shortlist.p_views row
              /\ Py.is_empty (Shortlist.text (snd e)) = false
              /\ (Shortlist.typed_chars (snd e), Shortlist.words (snd e))
                 = Shortlist.score_text (Shortlist.text (snd e))
              /\ is_Some (Os.files w'
                            !! Shortlist._cache_path E (Shortlist.cache_dir args)
                                 (Shortlist.link (snd e)))) accepted
       /\ map (fun e =>
                 {| Shortlist.p_title := Shortlist.title (snd e);
                    Shortlist.p_link := Shortlist.link (snd e);
                    Shortlist.p_lines := Shortlist.lines (snd e);
                    Shortlist.p_views := Shortlist.views (snd e) |}) accepted
          `sublist_of` rough_pool.
Proof.
  revert shortlisted attempted w.
  induction rough_pool as [|row pool IH]; intros s a w.
  { simpl. intros [= <- <- <-].
    split; [lia|]. split; [lia|]. split; [lia|]. split; [done|]. split; [done|].
    split; [intros; lia|]. exists []. simpl. split; [lia|].
    split; [intros; by rewrite app_nil_r|]. split; [constructor|apply sublist_nil_l]. }
  assert (Stop :
    (Some (s, a), w) = (Some (shortlisted', attempted'), w') ->
    attempted' = a /\ shortlisted' = s /\ w' = w) by (by intros [= <- <- <-]).
  assert (Stopped :
    attempted' = a /\ shortlisted' = s /\ w' = w ->
    a <= attempted' <= a + Z.of_nat (List.length (row :: pool))
    /\ attempted' <= Z.max a (Shortlist.max_fetch args)
    /\ (Os.requests w <= Os.requests w'
        <= Os.requests w + Z.to_nat (attempted' - a))%nat
    /\ Os.files w ⊆ Os.files w'
    /\ (Qle_bool 0 (Shortlist.delay args) = false -> shortlisted' = s)
    /\ (forall name,
          Z.of_nat (List.length (default [] (shortlisted' !! name)))
          <= Z.max (Z.of_nat (List.length (default [] (s !! name))))
               (Shortlist.per_band args))
    /\ exists accepted : list (string * Shortlist.Candidate),
         Z.of_nat (List.length accepted) <= attempted' - a
         /\ (forall name,
               default [] (shortlisted' !! name)
               = default [] (s !! name)
                 ++ map snd (List.filter (fun e => String.eqb (fst e) name) accepted))
         /\ Forall (fun e =>
              exists band row0,
                In (fst e, band) bands
                /\ Shortlist.in_band (snd e) band = true
                /\ In row0 (row :: pool)
                /\ Shortlist.title (snd e) = Shortlist.p_title row0
                /\ Shortlist.link (snd e) = Shortlist.p_link row0
                /\ Shortlist.lines (snd e) = Shortlist.p_lines row0
                /\ Shortlist.views (snd e) = Shortlist.p_views row0
                /\ Py.is_empty (Shortlist.text (snd e)) = false
                /\ (Shortlist.typed_chars (snd e), Shortlist.words (snd e))
                   = Shortlist.score_text (Shortlist.text (snd e))
                /\ is_Some (Os.files w'
                              !! Shortlist._cache_path E (Shortlist.cache_dir args)
                                   (Shortlist.link (snd e)))) accepted
       /\ map (fun e =>
                   {| Shortlist.p_title := Shortlist.title (snd e);
                      Shortlist.p_link := Shortlist.link (snd e);
                      Shortlist.p_lines := Shortlist.lines (snd e);
                      Shortlist.p_views := Shortlist.views (snd e) |}) accepted
            `sublist_of` (row :: pool)).
  { intros (-> & -> & ->).
    split; [simpl; lia|]. split; [lia|]. split; [lia|]. split; [done|]. split; [done|].
    split; [intros; lia|]. exists []. simpl. split; [lia|].
    split; [intros; by rewrite app_nil_r|]. split; [constructor|apply sublist_nil_l]. }
  cbn [Shortlist.scan_loop].
  destruct (Shortlist.all_full _ s); [intros H; by apply Stopped, Stop|].
  destruct (Z.leb_spec (Shortlist.max_fetch args) a) as [Hmax|Hmax];
    [intros H; by apply Stopped, Stop|].
  clear Stop Stopped.
  destruct (fetch_candidate_text_cached_world E (Shortlist.p_link row)
              (Shortlist.cache_dir args) w) as (Hreq & Hfiles & Hcached & _).
  (* a row that is skipped *)
  assert (Skip : forall w1,
    (Os.requests w <= Os.requests w1 <= S (Os.requests w))%nat ->
    Os.files w ⊆ Os.files w1 ->
    Shortlist.scan_loop E args bands pool s (a + 1) w1
    = (Some (shortlisted', attempted'), w') ->
    a <= attempted' <= a + Z.of_nat (List.length (row :: pool))
    /\ attempted' <= Z.max a (Shortlist.max_fetch args)
    /\ (Os.requests w <= Os.requests w'
        <= Os.requests w + Z.to_nat (attempted' - a))%nat
    /\ Os.files w ⊆ Os.files w'
    /\ (Qle_bool 0 (Shortlist.delay args) = false -> shortlisted' = s)
    /\ (forall name,
          Z.of_nat (List.length (default [] (shortlisted' !! name)))
          <= Z.max (Z.of_nat (List.length (default [] (s !! name))))
               (Shortlist.per_band args))
    /\ exists accepted : list (string * Shortlist.Candidate),
         Z.of_nat (List.length accepted) <= attempted' - a
         /\ (forall name,
               default [] (shortlisted' !! name)
               = default [] (s !! name)
                 ++ map snd (List.filter (fun e => String.eqb (fst e) name) accepted))
         /\ Forall (fun e =>
              exists band row0,
                In (fst e, band) bands
                /\ Shortlist.in_band (snd e) band = true
                /\ In row0 (row :: pool)
                /\ Shortlist.title (snd e) = Shortlist.p_title row0
                /\ Shortlist.link (snd e) = Shortlist.p_link row0
                /\ Shortlist.lines (snd e) = Shortlist.p_lines row0
                /\ Shortlist.views (snd e) = Shortlist.p_views row0
                /\ Py.is_empty (Shortlist.text (snd e)) = false
                /\ (Shortlist.typed_chars (snd e), Shortlist.words (snd e))
                   = Shortlist.score_text (Shortlist.text (snd e))
                /\ is_Some (Os.files w'
                              !! Shortlist._cache_path E (Shortlist.cache_dir args)
                                   (Shortlist.link (snd e)))) accepted
       /\ map (fun e =>
                   {| Shortlist.p_title := Shortlist.title (snd e);
                      Shortlist.p_link := Shortlist.link (snd e);
                      Shortlist.p_lines := Shortlist.lines (snd e);
                      Shortlist.p_views := Shortlist.views (snd e) |}) accepted
            `sublist_of` (row :: pool)).
  { intros w1 Hreq1 Hfiles1 Hrun.
    destruct (IH _ _ _ Hrun)
      as (Ha & Hm & Hr & Hf & Hneg & Hsize & acc & Hlen & Hacc & Hall & Hord).
    split; [simpl List.length; lia|]. split; [lia|]. split; [lia|].
    split; [by etransitivity|]. split; [done|]. split; [done|].
    exists acc. split; [lia|]. split; [done|]. split; [|by apply sublist_cons].
    eapply Forall_impl; [exact Hall|]. simpl.
    intros e (band & row0 & H1 & H2 & H3 & Hrest).
    exists band, row0. split; [done|]. split; [done|]. split; [by right|done]. }
  destruct (Shortlist.fetch_candidate_text_cached E (Shortlist.p_link row)
              (Shortlist.cache_dir args) w) as [[text|] w1]; simpl in Hreq, Hfiles, Hcached;
    [|by apply Skip].
  destruct (Py.is_empty text) eqn:Hempty; [by apply Skip|].
  destruct (Qle_bool 0 (Shortlist.delay args)) eqn:Hdelay; [|done].
  match goal with
  | |- context [Shortlist.assign bands _ s ?c] => set (candidate := c)
  end.
  intros Hrun.
  destruct (IH _ _ _ Hrun)
    as (Ha & Hm & Hr & Hf & _ & Hsize & acc & Hlen & Hacc & Hall & Hord).
  rewrite requests_sleep in Hr.
  split; [simpl List.length; lia|]. split; [lia|]. split; [lia|].
  split; [by etransitivity|]. split; [done|].
  assert (Hweaken : forall e : string * Shortlist.Candidate,
    (exists band row0,
       In (fst e, band) bands
       /\ Shortlist.in_band (snd e) band = true
       /\ In row0 pool
       /\ Shortlist.title (snd e) = Shortlist.p_title row0
       /\ Shortlist.link (snd e) = Shortlist.p_link row0
       /\ Shortlist.lines (snd e) = Shortlist.p_lines row0
       /\ Shortlist.views (snd e) = Shortlist.p_views row0
       /\ Py.is_empty (Shortlist.text (snd e)) = false
       /\ (Shortlist.typed_chars (snd e), Shortlist.words (snd e))
          = Shortlist.score_text (Shortlist.text (snd e))
       /\ is_Some (Os.files w'
                     !! Shortlist._cache_path E (Shortlist.cache_dir args)
                          (Shortlist.link (snd e)))) ->
    exists band row0,
       In (fst e, band) bands
       /\ Shortlist.in_band (snd e) band = true
       /\ In row0 (row :: pool)
       /\ Shortlist.title (snd e) = Shortlist.p_title row0
       /\ Shortlist.link (snd e) = Shortlist.p_link row0
       /\ Shortlist.lines (snd e) = Shortlist.p_lines row0
       /\ Shortlist.views (snd e) = Shortlist.p_views row0
       /\ Py.is_empty (Shortlist.text (snd e)) = false
       /\ (Shortlist.typed_chars (snd e), Shortlist.words (snd e))
          = Shortlist.score_text (Shortlist.text (snd e))
       /\ is_Some (Os.files w'
                     !! Shortlist._cache_path E (Shortlist.cache_dir args)
                          (Shortlist.link (snd e)))).
  { intros e (band & row0 & H1 & H2 & H3 & Hrest).
    exists band, row0. split; [done|]. split; [done|]. split; [by right|done]. }
  destruct (assign_cases bands (Shortlist.per_band args) s candidate)
    as [Hsame|(n & b & Hin & Hb & Hroom & Hnew)].
  - rewrite Hsame in Hsize, Hacc. split; [done|].
    exists acc. split; [lia|]. split; [done|]. split; [|by apply sublist_cons].
    eapply Forall_impl; [exact Hall|exact Hweaken].
  - rewrite Hnew in Hsize, Hacc. split.
    + intros name. specialize (Hsize name).
      destruct (decide (n = name)) as [->|Hne].
      * rewrite lookup_insert_eq in Hsize. simpl in Hsize.
        rewrite length_app in Hsize. simpl in Hsize. lia.
      * by rewrite lookup_insert_ne in Hsize.
    + exists ((n, candidate) :: acc). split; [simpl List.length; lia|]. split.
      * intros name. rewrite (Hacc name). simpl.
        destruct (String.eqb_spec n name) as [->|Hne].
        -- rewrite lookup_insert_eq. simpl. by rewrite <- app_assoc.
        -- by rewrite lookup_insert_ne.
      * split; [|destruct row; by apply sublist_skip].
        constructor; [|eapply Forall_impl; [exact Hall|exact Hweaken]].
        exists b, row. simpl. split; [done|]. split; [done|]. split; [by left|].
        repeat split; try done.
        destruct Hcached as [stored Hstored]; [by eexists|].
        exists stored. eapply lookup_weaken; [exact Hstored|exact Hf].
Qed.

End Scan.

Section ScanTrace.

Variable E : Os.env.
Variable args : Shortlist.Args.
Variable bands : list (string * Shortlist.Band).

(** The requests of the scan follow the rows: at most one for each row, for
    its link, in the order of the rows; and no sleep is negative. *)
Lemma scan_loop_trace (rough_pool : list Shortlist.Poem)
    (shortlisted : gmap string (list Shortlist.Candidate)) (attempted : Z)
    (w : Os.world) :
  exists new,
    Os.trace (snd (Shortlist.scan_loop E args bands rough_pool shortlisted attempted w))
    = Os.trace w ++ new
    /\ List.filter Os.is_get new
       `sublist_of` map (fun row => Os.EvGet (Shortlist.p_link row)) rough_pool
    /\ Forall (fun e => match e with
                        | Os.EvSleep seconds => (0 <= seconds)%Q
                        | _ => True
                        end) new.
Proof.
  revert shortlisted attempted w.
  induction rough_pool as [|row pool IH]; intros s a w.
  { exists []. simpl. rewrite app_nil_r. repeat split; [constructor|constructor]. }
  assert (Stop : exists new,
    Os.trace w = Os.trace w ++ new
    /\ List.filter Os.is_get new
       `sublist_of` map (fun row => Os.EvGet (Shortlist.p_link row)) (row :: pool)
    /\ Forall (fun e => match e with
                        | Os.EvSleep seconds => (0 <= seconds)%Q
                        | _ => True
                        end) new).
  { exists []. rewrite app_nil_r. repeat split; [apply sublist_nil_l|constructor]. }
  cbn [Shortlist.scan_loop].
  destruct (Shortlist.all_full _ s); [exact Stop|].
  destruct (Shortlist.max_fetch args <=? a); [exact Stop|].
  clear Stop.
  destruct (fetch_candidate_text_cached_world E (Shortlist.p_link row)
              (Shortlist.cache_dir args) w) as (_ & _ & _ & new1 & Htr1 & Hget1 & Hall1).
  assert (Hsub1 : forall rest,
    rest `sublist_of` map (fun row => Os.EvGet (Shortlist.p_link row)) pool ->
    List.filter Os.is_get new1 ++ rest
    `sublist_of` map (fun row => Os.EvGet (Shortlist.p_link row)) (row :: pool)).
  { intros rest Hrest. destruct Hget1 as [->| ->]; simpl.
    - by apply sublist_cons.
    - by apply sublist_skip. }
  destruct (Shortlist.fetch_candidate_text_cached E (Shortlist.p_link row)
              (Shortlist.cache_dir args) w) as [[text|] w1]; simpl in Htr1.
  2:{ destruct (IH s (a + 1) w1) as (new & -> & Hsub & Hall).
      exists (new1 ++ new). rewrite Htr1, <- app_assoc. split; [done|].
      rewrite List.filter_app. split; [by apply Hsub1|by apply Forall_app]. }
  destruct (Py.is_empty text).
  { destruct (IH s (a + 1) w1) as (new & -> & Hsub & Hall).
    exists (new1 ++ new). rewrite Htr1, <- app_assoc. split; [done|].
    rewrite List.filter_app. split; [by apply Hsub1|by apply Forall_app]. }
  destruct (Qle_bool 0 (Shortlist.delay args)) eqn:Hdelay.
  - match goal with
    | |- context [Shortlist.scan_loop E args bands pool ?s' _ _] =>
        destruct (IH s' (a + 1) (Os.sleep (Shortlist.delay args) w1))
          as (new & -> & Hsub & Hall)
    end.
    exists (new1 ++ Os.EvSleep (Shortlist.delay args) :: new).
    simpl. rewrite Htr1, <- !app_assoc. split; [done|].
    rewrite List.filter_app. simpl. split; [by apply Hsub1|].
    apply Forall_app. split; [done|]. constructor; [|done].
    by apply Qle_bool_iff.
  - exists new1. simpl. split; [done|]. split; [|done].
    rewrite <- (app_nil_r (List.filter _ _)). apply Hsub1, sublist_nil_l.
Qed.

(** The scan ends normally when the delay is not negative. *)
Lemma scan_loop_returns (rough_pool : list Shortlist.Poem)
    (shortlisted : gmap string (list Shortlist.Candidate)) (attempted : Z)
    (w : Os.world) :
  Qle_bool 0 (Shortlist.delay args) = true ->
  is_Some (fst (Shortlist.scan_loop E args bands rough_pool shortlisted attempted w)).
Proof.
  intros Hdelay. revert shortlisted attempted w.
  induction rough_pool as [|row pool IH]; intros s a w; [by eexists|].
  cbn [Shortlist.scan_loop].
  destruct (Shortlist.all_full _ s); [by eexists|].
  destruct (Shortlist.max_fetch args <=? a); [by eexists|].
  destruct (Shortlist.fetch_candidate_text_cached E (Shortlist.p_link row)
              (Shortlist.cache_dir args) w) as [[text|] w1]; [|apply IH].
  destruct (Py.is_empty text); [apply IH|].
  rewrite Hdelay. apply IH.
Qed.

End ScanTrace.

Lemma rough_pool_rows (all_poems : list Shortlist.Poem) (row : Shortlist.Poem) :
  In row (Shortlist.rough_pool all_poems) ->
  In row all_poems /\ 8 <= Shortlist.p_lines row <= 60.
Proof.
  unfold Shortlist.rough_pool. cbv zeta. intros H.
  apply (Permutation_in _ (sort_by_Permutation _ _)) in H.
  apply filter_In in H as [Hin Hb]. split; [done|]. lia.
Qed.

Lemma rough_pool_links (reader : list (gmap string string))
    (all_poems : list Shortlist.Poem) :
  Shortlist.load_poems reader = Some all_poems ->
  NoDup (map Shortlist.p_link (Shortlist.rough_pool all_poems)).
Proof.
  intros H. apply load_poems_loop_spec in H as (new & -> & Hnd & _).
  simpl. unfold Shortlist.rough_pool. cbv zeta.
  rewrite (Permutation_map Shortlist.p_link (sort_by_Permutation _ _)).
  by apply NoDup_map_filter.
Qed.

(** X13. The scan of [main] attempts at most [max_fetch] rows and no
    more rows than the pool has, sends at most one request for each attempt,
    and only adds files to the cache. *)
Theorem scan_attempts_bounded (E : Os.env) (py313 : bool) (args : Shortlist.Args)
    (passages : list string) (reader : list (gmap string string)) (w : Os.world)
    (shortlisted : gmap string (list Shortlist.Candidate)) (attempted : Z)
    (w' : Os.world) :
  Shortlist.scan E py313 args passages reader w = (Some (shortlisted, attempted), w') ->
  0 <= attempted <= Z.max 0 (Shortlist.max_fetch args)
  /\ (exists all_poems,
        Shortlist.load_poems reader = Some all_poems
        /\ attempted <= Z.of_nat (List.length (Shortlist.rough_pool all_poems)))
  /\ (Os.requests w <= Os.requests w' <= Os.requests w + Z.to_nat attempted)%nat
  /\ Os.files w ⊆ Os.files w'.
Proof.
  unfold Shortlist.scan.
  destruct (Shortlist.load_baseline_ranges py313 passages) as [bands|]; [|done].
  destruct (Shortlist.load_poems reader) as [all_poems|]; [|done].
  intros H. apply scan_loop_spec in H as (Ha & Hm & Hr & Hf & _).
  split; [lia|]. split; [exists all_poems; split; [done|lia]|].
  split; [|done]. by rewrite Z.sub_0_r in Hr.
Qed.

Lemma scan_attempts_bounded_witness :
  exists shortlisted attempted w',
    Shortlist.scan Inputs.poem_server false (Inputs.shortlist_args (1 # 5))
      Inputs.verses Inputs.corpus Inputs.empty_world
    = (Some (shortlisted, attempted), w')
    /\ 0 <= attempted <= Z.max 0 (Shortlist.max_fetch (Inputs.shortlist_args (1 # 5)))
    /\ (exists all_poems,
          Shortlist.load_poems Inputs.corpus = Some all_poems
          /\ attempted <= Z.of_nat (List.length (Shortlist.rough_pool all_poems)))
    /\ (Os.requests Inputs.empty_world <= Os.requests w'
        <= Os.requests Inputs.empty_world + Z.to_nat attempted)%nat
    /\ Os.files Inputs.empty_world ⊆ Os.files w'.
Proof.
  destruct (Shortlist.scan Inputs.poem_server false (Inputs.shortlist_args (1 # 5))
              Inputs.verses Inputs.corpus Inputs.empty_world)
    as [[[shortlisted attempted]|] w'] eqn:H.
  - exists shortlisted, attempted, w'. split; [reflexivity|].
    exact (scan_attempts_bounded _ _ _ _ _ _ _ _ _ H).
  - vm_compute in H. discriminate H.
Defined.

(** X14. What the scan of [main] shortlists: the accepted candidates, no
    more of them than attempts, split by band with their order kept. Their
    titles, links, lines and views are those of rows picked from the pool,
    in the order of the pool. A band holds at most [per_band] candidates.
    Each candidate lies in the ranges of its band, comes from a row of the
    corpus with 8 to 60 lines, has a text that is not empty with its score,
    and has its page in the cache. *)
Theorem shortlist_members (E : Os.env) (py313 : bool) (args : Shortlist.Args)
    (passages : list string) (reader : list (gmap string string)) (w : Os.world)
    (shortlisted : gmap string (list Shortlist.Candidate)) (attempted : Z)
    (w' : Os.world) :
  Shortlist.scan E py313 args passages reader w = (Some (shortlisted, attempted), w') ->
  exists bands all_poems (accepted : list (string * Shortlist.Candidate)),
    Shortlist.load_baseline_ranges py313 passages = Some bands
    /\ Shortlist.load_poems reader = Some all_poems
    /\ Z.of_nat (List.length accepted) <= attempted
    /\ map (fun e =>
              {| Shortlist.p_title := Shortlist.title (snd e);
                 Shortlist.p_link := Shortlist.link (snd e);
                 Shortlist.p_lines := Shortlist.lines (snd e);
                 Shortlist.p_views := Shortlist.views (snd e) |}) accepted
       `sublist_of` Shortlist.rough_pool all_poems
    /\ (forall name,
          default [] (shortlisted !! name)
          = map snd (List.filter (fun e => String.eqb (fst e) name) accepted))
    /\ (forall name,
          Z.of_nat (List.length (default [] (shortlisted !! name)))
          <= Z.max 0 (Shortlist.per_band args))
    /\ Forall (fun e =>
         exists band row,
           In (fst e, band) bands
           /\ Shortlist.in_band (snd e) band = true
           /\ In row all_poems
           /\ 8 <= Shortlist.p_lines row <= 60
           /\ Shortlist.title (snd e) = Shortlist.p_title row
           /\ Shortlist.link (snd e) = Shortlist.p_link row
           /\ Shortlist.lines (snd e) = Shortlist.p_lines row
           /\ Shortlist.views (snd e) = Shortlist.p_views row
           /\ Py.is_empty (Shortlist.text (snd e)) = false
           /\ (Shortlist.typed_chars (snd e), Shortlist.words (snd e))
              = Shortlist.score_text (Shortlist.text (snd e))
           /\ is_Some (Os.files w'
                         !! Shortlist._cache_path E (Shortlist.cache_dir args)
                              (Shortlist.link (snd e)))) accepted.
Proof.
  unfold Shortlist.scan.
  destruct (Shortlist.load_baseline_ranges py313 passages) as [bands|]; [|done].
  destruct (Shortlist.load_poems reader) as [all_poems|]; [|done].
  intros H.
  apply scan_loop_spec in H
    as (_ & _ & _ & _ & _ & Hsize & accepted & Hlen & Hacc & Hall & Hord).
  exists bands, all_poems, accepted. split; [done|]. split; [done|].
  split; [lia|]. split; [exact Hord|]. split; [|split].
  - intros name. rewrite (Hacc name).
    destruct (decide (name = "easy")) as [->|?]; [done|].
    destruct (decide (name = "medium")) as [->|?]; [done|].
    destruct (decide (name = "hard")) as [->|?]; [done|].
    by rewrite !lookup_insert_ne, lookup_empty by done.
  - intros name. specialize (Hsize name).
    assert (Hinit : default []
              ((<[ "easy" := [] ]> (<[ "medium" := [] ]> (<[ "hard" := [] ]> ∅))
                : gmap string (list Shortlist.Candidate)) !! name) = []).
    { destruct (decide (name = "easy")) as [->|?]; [done|].
      destruct (decide (name = "medium")) as [->|?]; [done|].
      destruct (decide (name = "hard")) as [->|?]; [done|].
      by rewrite !lookup_insert_ne, lookup_empty by done. }
    rewrite Hinit in Hsize. exact Hsize.
  - eapply Forall_impl; [exact Hall|]. simpl.
    intros e (band & row & H1 & H2 & H3 & Hrest).
    apply rough_pool_rows in H3 as [H3 H4].
    exists band, row. split; [done|]. split; [done|]. split; [done|]. split; done.
Qed.

Lemma shortlist_members_witness :
  exists shortlisted attempted w',
    Shortlist.scan Inputs.poem_server false (Inputs.shortlist_args (1 # 5))
      Inputs.verses Inputs.corpus Inputs.empty_world
    = (Some (shortlisted, attempted), w')
    /\ exists bands all_poems (accepted : list (string * Shortlist.Candidate)),
         Shortlist.load_baseline_ranges false Inputs.verses = Some bands
         /\ Shortlist.load_poems Inputs.corpus = Some all_poems
         /\ Z.of_nat (List.length accepted) <= attempted
         /\ map (fun e =>
                   {| Shortlist.p_title := Shortlist.title (snd e);
                      Shortlist.p_link := Shortlist.link (snd e);
                      Shortlist.p_lines := Shortlist.lines (snd e);
                      Shortlist.p_views := Shortlist.views (snd e) |}) accepted
            `sublist_of` Shortlist.rough_pool all_poems
         /\ (forall name,
               default [] (shortlisted !! name)
               = map snd (List.filter (fun e => String.eqb (fst e) name) accepted))
         /\ (forall name,
               Z.of_nat (List.length (default [] (shortlisted !! name)))
               <= Z.max 0 (Shortlist.per_band (Inputs.shortlist_args (1 # 5))))
         /\ Forall (fun e =>
              exists band row,
                In (fst e, band) bands
                /\ Shortlist.in_band (snd e) band = true
                /\ In row all_poems
                /\ 8 <= Shortlist.p_lines row <= 60
                /\ Shortlist.title (snd e) = Shortlist.p_title row
                /\ Shortlist.link (snd e) = Shortlist.p_link row
                /\ Shortlist.lines (snd e) = Shortlist.p_lines row
                /\ Shortlist.views (snd e) = Shortlist.p_views row
                /\ Py.is_empty (Shortlist.text (snd e)) = false
                /\ (Shortlist.typed_chars (snd e), Shortlist.words (snd e))
                   = Shortlist.score_text (Shortlist.text (snd e))
                /\ is_Some (Os.files w'
                              !! Shortlist._cache_path Inputs.poem_server
                                   (Shortlist.cache_dir (Inputs.shortlist_args (1 # 5)))
                                   (Shortlist.link (snd e)))) accepted.
Proof.
  destruct (Shortlist.scan Inputs.poem_server false (Inputs.shortlist_args (1 # 5))
              Inputs.verses Inputs.corpus Inputs.empty_world)
    as [[[shortlisted attempted]|] w'] eqn:H.
  - exists shortlisted, attempted, w'. split; [reflexivity|].
    exact (shortlist_members _ _ _ _ _ _ _ _ _ H).
  - vm_compute in H. discriminate H.
Defined.

(** X15. The scan of [main] requests no page twice: the requests that it
    adds to the trace are all different; and it never sleeps a negative
    time. *)
Theorem scan_requests_distinct (E : Os.env) (py313 : bool) (args : Shortlist.Args)
    (passages : list string) (reader : list (gmap string string)) (w : Os.world) :
  exists new,
    Os.trace (snd (Shortlist.scan E py313 args passages reader w)) = Os.trace w ++ new
    /\ NoDup (List.filter Os.is_get new)
    /\ Forall (fun e => match e with
                        | Os.EvSleep seconds => (0 <= seconds)%Q
                        | _ => True
                        end) new.
Proof.
  unfold Shortlist.scan.
  destruct (Shortlist.load_baseline_ranges py313 passages) as [bands|].
  2:{ exists []. simpl. rewrite app_nil_r. repeat split; constructor. }
  destruct (Shortlist.load_poems reader) as [all_poems|] eqn:Hpoems.
  2:{ exists []. simpl. rewrite app_nil_r. repeat split; constructor. }
  match goal with
  | |- context [Shortlist.scan_loop E args bands _ ?s ?a w] =>
      destruct (scan_loop_trace E args bands (Shortlist.rough_pool all_poems) s a w)
        as (new & Htr & Hsub & Hall)
  end.
  exists new. split; [done|]. split; [|done].
  eapply sublist_NoDup; [|exact Hsub].
  rewrite <- (map_map Shortlist.p_link Os.EvGet).
  assert (Inj (=) (=) Os.EvGet) by (by intros x y [= ->]).
  apply (NoDup_fmap_2 Os.EvGet).
  by eapply rough_pool_links.
Qed.

(** X16. With a negative delay the scan cannot shortlist anything: the
    sleep that follows the first scored candidate raises, so a run that ends
    normally leaves the three bands empty. *)
Theorem negative_delay_shortlists_nothing (E : Os.env) (py313 : bool)
    (args : Shortlist.Args) (passages : list string)
    (reader : list (gmap string string)) (w : Os.world)
    (shortlisted : gmap string (list Shortlist.Candidate)) (attempted : Z)
    (w' : Os.world) :
  (Shortlist.delay args < 0)%Q ->
  Shortlist.scan E py313 args passages reader w = (Some (shortlisted, attempted), w') ->
  shortlisted = <[ "easy" := [] ]> (<[ "medium" := [] ]> (<[ "hard" := [] ]> ∅)).
Proof.
  intros Hd. unfold Shortlist.scan.
  destruct (Shortlist.load_baseline_ranges py313 passages) as [bands|]; [|done].
  destruct (Shortlist.load_poems reader) as [all_poems|]; [|done].
  intros H. apply scan_loop_spec in H as (_ & _ & _ & _ & Hneg & _).
  apply Hneg. destruct (Qle_bool 0 (Shortlist.delay args)) eqn:Hb; [|done].
  apply Qle_bool_iff in Hb. by apply Qle_not_lt in Hb.
Qed.

Lemma negative_delay_shortlists_nothing_witness :
  exists shortlisted attempted w',
    Shortlist.scan Inputs.env false (Inputs.shortlist_args (- 1 # 5))
      Inputs.verses Inputs.corpus Inputs.empty_world
    = (Some (shortlisted, attempted), w')
    /\ shortlisted = <[ "easy" := [] ]> (<[ "medium" := [] ]> (<[ "hard" := [] ]> ∅)).
Proof.
  destruct (Shortlist.scan Inputs.env false (Inputs.shortlist_args (- 1 # 5))
              Inputs.verses Inputs.corpus Inputs.empty_world)
    as [[[shortlisted attempted]|] w'] eqn:H.
  - exists shortlisted, attempted, w'. split; [reflexivity|].
    refine (negative_delay_shortlists_nothing _ _ _ _ _ _ _ _ _ _ H).
    vm_compute. reflexivity.
  - vm_compute in H. discriminate H.
Defined.

(** X17. With a baseline of two passages or more, line and view counts
    that [int] reads whenever they are made of digits (decimal digits, 4300
    of them at most), and a delay that [time.sleep] accepts, [main] reaches
    the end of its scan. *)
Theorem scan_returns (E : Os.env) (py313 : bool) (args : Shortlist.Args)
    (passages : list string) (reader : list (gmap string string)) (w : Os.world) :
  (2 <= List.length passages)%nat ->
  (forall row, In row reader ->
     Py.str_isdigit (Shortlist.field row "lines") = true ->
     is_Some (Py.int_of_digits (Shortlist.field row "lines"))) ->
  (forall row, In row reader ->
     Py.str_isdigit (Shortlist.field row "views") = true ->
     is_Some (Py.int_of_digits (Shortlist.field row "views"))) ->
  Os.can_sleep (Shortlist.delay args) ->
  is_Some (fst (Shortlist.scan E py313 args passages reader w)).
Proof.
  intros Hp Hl Hv [Hd _]. unfold Shortlist.scan.
  destruct (load_baseline_ranges_returns py313 passages Hp) as [bands ->].
  destruct (load_poems_loop_returns reader [] ∅ Hl Hv) as [all_poems Hpoems].
  unfold Shortlist.load_poems. rewrite Hpoems.
  apply scan_loop_returns. by apply Qle_bool_iff.
Qed.

Lemma scan_returns_witness :
  is_Some (fst (Shortlist.scan Inputs.poem_server false (Inputs.shortlist_args (1 # 5))
                  Inputs.verses Inputs.corpus Inputs.empty_world)).
Proof.
  apply (scan_returns Inputs.poem_server false (Inputs.shortlist_args (1 # 5))
           Inputs.verses Inputs.corpus Inputs.empty_world).
  - simpl. lia.
  - intros row Hin Hd. unfold Inputs.corpus in Hin. cbn [In] in Hin.
    repeat (destruct Hin as [<-|Hin];
            [first [by vm_compute in Hd | by (vm_compute; eexists)]|]).
    destruct Hin.
  - intros row Hin Hd. unfold Inputs.corpus in Hin. cbn [In] in Hin.
    repeat (destruct Hin as [<-|Hin];
            [first [by vm_compute in Hd | by (vm_compute; eexists)]|]).
    destruct Hin.
  - split; vm_compute; discriminate.
Defined.

(** ** The output file of [main] *)

Lemma slice_to_prefix (n : nat) (s : string) : String.prefix (Py.slice_to n s) s = true.
Proof.
  unfold Py.slice_to. revert s. induction n as [|n IH]; intros [|c s]; simpl; try done.
  destruct (ascii_dec c c); [apply IH|done].
Qed.

Lemma slice_to_length (n : nat) (s : string) :
  String.length (Py.slice_to n s) = Nat.min n (String.length s).
Proof.
  unfold Py.slice_to. revert s. induction n as [|n IH]; intros [|c s]; simpl; try done.
  by rewrite IH.
Qed.

Lemma scan_loop_tables (E : Os.env) (args : Shortlist.Args)
    (bands : list (string * Shortlist.Band)) (rough_pool : list Shortlist.Poem)
    (shortlisted : gmap string (list Shortlist.Candidate)) (attempted : Z)
    (w : Os.world) :
  Os.tables (snd (Shortlist.scan_loop E args bands rough_pool shortlisted attempted w))
  = Os.tables w.
Proof.
  revert shortlisted attempted w.
  induction rough_pool as [|row pool IH]; intros s a w; [done|].
  cbn [Shortlist.scan_loop].
  destruct (Shortlist.all_full _ s); [done|].
  destruct (Shortlist.max_fetch args <=? a); [done|].
  assert (Hfetch : Os.tables (snd (Shortlist.fetch_candidate_text_cached E
                                     (Shortlist.p_link row) (Shortlist.cache_dir args) w))
                   = Os.tables w).
  { unfold Shortlist.fetch_candidate_text_cached. cbv zeta.
    destruct (Os.files w !! _); [done|]. unfold Os.get.
    destruct (Os.http_get E _ _) as [|response]; [done|].
    by destruct (Os.is_error_status _). }
  destruct (Shortlist.fetch_candidate_text_cached E (Shortlist.p_link row)
              (Shortlist.cache_dir args) w) as [[text|] w1]; simpl in Hfetch.
  2:{ by rewrite IH. }
  destruct (Py.is_empty text); [by rewrite IH|].
  destruct (Qle_bool 0 (Shortlist.delay args)); [|done].
  by rewrite IH.
Qed.

(** X18. When [main] ends normally the output file holds the header and
    then the shortlist, band after band in the order easy, medium, hard,
    whatever it held before: at most three times [per_band] rows of eight
    fields, each with the name of its band, the fields of its candidate and,
    as sample text, the first 300 characters of the text. No other CSV
    file changes. *)
Theorem shortlist_output (E : Os.env) (py313 : bool) (args : Shortlist.Args)
    (output : string) (passages : list string) (reader : list (gmap string string))
    (w : Os.world) (shortlisted : gmap string (list Shortlist.Candidate))
    (attempted : Z) (w' : Os.world) :
  Shortlist.main E py313 args output passages reader w
  = (Some (shortlisted, attempted), w') ->
  exists easy medium hard,
    Os.tables w' !! output
    = Some (Shortlist.output_fieldnames
            :: map (Shortlist.output_row "easy") easy
            ++ map (Shortlist.output_row "medium") medium
            ++ map (Shortlist.output_row "hard") hard)
    /\ easy = default [] (shortlisted !! "easy")
    /\ medium = default [] (shortlisted !! "medium")
    /\ hard = default [] (shortlisted !! "hard")
    /\ Z.of_nat (List.length (easy ++ medium ++ hard))
       <= 3 * Z.max 0 (Shortlist.per_band args)
    /\ (forall band_name candidate,
          List.length (Shortlist.output_row band_name candidate) = 8%nat
          /\ String.prefix (List.last (Shortlist.output_row band_name candidate) "")
               (Shortlist.text candidate) = true
          /\ String.length (List.last (Shortlist.output_row band_name candidate) "")
             = Nat.min 300 (String.length (Shortlist.text candidate)))
    /\ (forall other, other <> output -> Os.tables w' !! other = Os.tables w !! other).
Proof.
  unfold Shortlist.main.
  destruct (Shortlist.scan E py313 args passages reader w) as [[[s a]|] w1] eqn:Hscan;
    [|done].
  intros [= <- <- <-].
  exists (default [] (s !! "easy")), (default [] (s !! "medium")),
    (default [] (s !! "hard")).
  assert (Htables : Os.tables w1 = Os.tables w /\
                    forall name,
                      Z.of_nat (List.length (default [] (s !! name)))
                      <= Z.max 0 (Shortlist.per_band args)).
  { unfold Shortlist.scan in Hscan.
    destruct (Shortlist.load_baseline_ranges py313 passages) as [bands|];
      [|by injection Hscan].
    destruct (Shortlist.load_poems reader) as [all_poems|]; [|by injection Hscan].
    split.
    - rewrite <- (scan_loop_tables E args bands (Shortlist.rough_pool all_poems)
                    (<[ "easy" := [] ]> (<[ "medium" := [] ]> (<[ "hard" := [] ]> ∅)))
                    0 w).
      by rewrite Hscan.
    - apply scan_loop_spec in Hscan as (_ & _ & _ & _ & _ & Hsize & _).
      intros name. specialize (Hsize name).
      assert (Hinit : default []
                ((<[ "easy" := [] ]> (<[ "medium" := [] ]> (<[ "hard" := [] ]> ∅))
                  : gmap string (list Shortlist.Candidate)) !! name) = []).
      { destruct (decide (name = "easy")) as [->|?]; [done|].
        destruct (decide (name = "medium")) as [->|?]; [done|].
        destruct (decide (name = "hard")) as [->|?]; [done|].
        by rewrite !lookup_insert_ne, lookup_empty by done. }
      rewrite Hinit in Hsize. exact Hsize. }
  destruct Htables as [Htables Hsize].
  split; [|split; [done|split; [done|split; [done|split; [|split]]]]].
  - simpl. rewrite lookup_insert_eq. unfold Shortlist.output_rows. simpl.
    by rewrite app_nil_r.
  - rewrite !length_app.
    pose proof (Hsize "easy"). pose proof (Hsize "medium"). pose proof (Hsize "hard").
    lia.
  - intros band_name candidate. split; [done|]. simpl.
    split; [apply slice_to_prefix|apply slice_to_length].
  - intros other Hother. simpl. by rewrite lookup_insert_ne, Htables.
Qed.

Lemma shortlist_output_witness :
  exists shortlisted attempted w',
    Shortlist.main Inputs.poem_server false (Inputs.shortlist_args (1 # 5))
      "shortlist_candidates.csv" Inputs.verses Inputs.corpus Inputs.empty_world
    = (Some (shortlisted, attempted), w')
    /\ exists easy medium hard,
         Os.tables w' !! "shortlist_candidates.csv"
         = Some (Shortlist.output_fieldnames
                 :: map (Shortlist.output_row "easy") easy
                 ++ map (Shortlist.output_row "medium") medium
                 ++ map (Shortlist.output_row "hard") hard)
         /\ easy = default [] (shortlisted !! "easy")
         /\ medium = default [] (shortlisted !! "medium")
         /\ hard = default [] (shortlisted !! "hard")
         /\ Z.of_nat (List.length (easy ++ medium ++ hard))
            <= 3 * Z.max 0 (Shortlist.per_band (Inputs.shortlist_args (1 # 5)))
         /\ (forall band_name candidate,
               List.length (Shortlist.output_row band_name candidate) = 8%nat
               /\ String.prefix (List.last (Shortlist.output_row band_name candidate) "")
                    (Shortlist.text candidate) = true
               /\ String.length
                    (List.last (Shortlist.output_row band_name candidate) "")
                  = Nat.min 300 (String.length (Shortlist.text candidate)))
         /\ (forall other, other <> "shortlist_candidates.csv" ->
               Os.tables w' !! other = Os.tables Inputs.empty_world !! other).
Proof.
  destruct (Shortlist.main Inputs.poem_server false (Inputs.shortlist_args (1 # 5))
              "shortlist_candidates.csv" Inputs.verses Inputs.corpus Inputs.empty_world)
    as [[[shortlisted attempted]|] w'] eqn:H.
  - exists shortlisted, attempted, w'. split; [reflexivity|].
    exact (shortlist_output _ _ _ _ _ _ _ _ _ _ H).
  - vm_compute in H. discriminate H.
Defined.

(** ** The scores *)

Lemma star_suffix {A} (step : bool -> string -> (bool -> string -> option A) -> option A)
    (k : bool -> string -> option A) (x : A) :
  (forall b s k', step b s k' = Some x ->
     exists b' s', k' b' s' = Some x /\ (String.length s' <= String.length s)%nat) ->
  forall fuel b s,
    Re.star step fuel b s k = Some x ->
    exists b' s', k b' s' = Some x /\ (String.length s' <= String.length s)%nat.
Proof.
  intros Hstep. induction fuel as [|fuel IH]; intros b s H.
  - exists b, s. by split.
  - simpl in H.
    destruct (step b s _) as [y|] eqn:Hs.
    + injection H as ->. apply Hstep in Hs as (b1 & s1 & Hk & Hlen).
      destruct (String.length s1 <? String.length s)%nat; [|done].
      apply IH in Hk as (b2 & s2 & Hk & Hlen2). exists b2, s2. split; [done|lia].
    + exists b, s. by split.
Qed.

Lemma run_suffix {A} (r : Re.regex) (b : bool) (s : string)
    (k : bool -> string -> option A) (x : A) :
  Re.run r b s k = Some x ->
  exists b' s', k b' s' = Some x /\ (String.length s' <= String.length s)%nat.
Proof.
  revert b s k. induction r as [|p|r1 IH1 r2 IH2|r1 IH1 r2 IH2|r IH| |]; intros b s k H;
    simpl in H.
  - exists b, s. by split.
  - destruct s as [|c s']; [done|]. destruct (p c); [|done].
    exists false, s'. split; [done|simpl; lia].
  - apply IH1 in H as (b1 & s1 & H & Hlen1).
    apply IH2 in H as (b2 & s2 & H & Hlen2). exists b2, s2. split; [done|lia].
  - destruct (Re.run r1 b s k) as [y|] eqn:H1.
    + injection H as ->. exact (IH1 b s k H1).
    + exact (IH2 b s k H).
  - eapply star_suffix; [|exact H]. intros b0 s0 k'. apply IH.
  - destruct b; [|done]. exists true, s. by split.
  - destruct (_ || _); [|done]. exists b, s. by split.
Qed.

(** A pattern that begins with a character class consumes a character. *)
Lemma match_at_class (p : ascii -> bool) (r : Re.regex) (b : bool) (s rest : string) :
  Re.match_at (Re.Seq (Re.Chr p) r) b s = Some rest ->
  (String.length rest < String.length s)%nat.
Proof.
  unfold Re.match_at. simpl. destruct s as [|c s']; [done|].
  destruct (p c); [|done]. intros H.
  apply run_suffix in H as (b' & s1 & [= <-] & Hlen). simpl. lia.
Qed.

Lemma match_at_chr (p : ascii -> bool) (b : bool) (s rest : string) :
  Re.match_at (Re.Chr p) b s = Some rest ->
  (String.length rest < String.length s)%nat.
Proof.
  unfold Re.match_at. simpl. destruct s as [|c s']; [done|].
  destruct (p c); [|done]. intros [= <-]. simpl. lia.
Qed.

Lemma length_append (s1 s2 : string) :
  String.length (s1 +:+ s2) = (String.length s1 + String.length s2)%nat.
Proof. induction s1 as [|c s1 IH]; simpl; [done|]. by rewrite IH. Qed.

(** A substitution of at most one character for matches that are not
    empty does not make the text longer. *)
Lemma sub_go_length (r : Re.regex) (repl : string) :
  (String.length repl <= 1)%nat ->
  (forall b s rest,
     Re.match_at r b s = Some rest -> (String.length rest < String.length s)%nat) ->
  forall s b skip,
    (String.length (Re.sub_go r repl b skip s) <= String.length s)%nat.
Proof.
  intros Hrepl Hr. induction s as [|c s IH]; intros b skip.
  - simpl. destruct skip; [|simpl; lia].
    destruct (Re.match_at r b "") as [rest|] eqn:Hm; [|simpl; lia].
    apply Hr in Hm. simpl in Hm. lia.
  - cbn [Re.sub_go]. destruct skip as [|n].
    + destruct (Re.match_at r b (String c s)) as [rest|] eqn:Hm.
      * apply Hr in Hm.
        destruct (String.length (String c s) - String.length rest)%nat as [|n] eqn:Hd;
          [lia|].
        rewrite length_append. specialize (IH false n). simpl. lia.
      * simpl. specialize (IH false 0%nat). lia.
    + specialize (IH false n). simpl. lia.
Qed.

Lemma count_go_bounds (r : Re.regex) :
  (forall b s rest,
     Re.match_at r b s = Some rest -> (String.length rest < String.length s)%nat) ->
  forall s b skip, 0 <= Re.count_go r b skip s <= Z.of_nat (String.length s).
Proof.
  intros Hr. induction s as [|c s IH]; intros b skip.
  - simpl. destruct skip; [|lia].
    destruct (Re.match_at r b "") as [rest|] eqn:Hm; [|lia].
    apply Hr in Hm. simpl in Hm. lia.
  - assert (Hlen : String.length (String c s) = S (String.length s)) by done.
    cbn [Re.count_go]. destruct skip as [|n].
    + destruct (Re.match_at r b (String c s)) as [rest|] eqn:Hm.
      * match goal with
        | |- context [Re.count_go r false ?n s] => specialize (IH false n)
        end.
        lia.
      * specialize (IH false 0%nat). lia.
    + specialize (IH false n). lia.
Qed.

Lemma lstrip_length (s : string) : (String.length (Py.lstrip s) <= String.length s)%nat.
Proof.
  induction s as [|c s IH]; simpl; [lia|]. destruct (Py.isspace c); simpl; lia.
Qed.

Lemma rstrip_length (s : string) : (String.length (Py.rstrip s) <= String.length s)%nat.
Proof.
  induction s as [|c s IH]; simpl; [lia|].
  destruct (Py.is_empty (Py.rstrip s) && Py.isspace c); simpl; lia.
Qed.

Lemma strip_length (s : string) : (String.length (Py.strip s) <= String.length s)%nat.
Proof.
  unfold Py.strip. pose proof (rstrip_length (Py.lstrip s)).
  pose proof (lstrip_length s). lia.
Qed.

(** X19. The score of a text: the words are no more than the typed
    characters, which are no more than the characters of the text, and
    neither count is negative. *)
Theorem score_text_bounds (text : string) :
  0 <= snd (Shortlist.score_text text)
  <= fst (Shortlist.score_text text)
  /\ fst (Shortlist.score_text text) <= Py.len text.
Proof.
  unfold Shortlist.score_text, Shortlist.normalize_for_difficulty, Re.findall_count,
    Re.sub, Py.len. cbv zeta. simpl fst. simpl snd.
  set (kept := Re.sub_go (Re.Chr _) "" true 0 text).
  set (spaced := Re.sub_go (Re.Plus Re.ws) " " true 0 kept).
  assert (H1 : (String.length kept <= String.length text)%nat).
  { apply sub_go_length; [simpl; lia|]. intros b s rest. apply match_at_chr. }
  assert (H2 : (String.length spaced <= String.length kept)%nat).
  { apply sub_go_length; [simpl; lia|]. intros b s rest. apply match_at_class. }
  pose proof (strip_length spaced) as H3.
  pose proof (count_go_bounds (Re.Plus Re.word)
                (fun b s rest => match_at_class Py.is_word (Re.Star Re.word) b s rest)
                (Py.strip spaced) true 0%nat) as H4.
  lia.
Qed.

(** * Further properties of [3-build_band_mods.py] *)

(** ** The rows by band *)

Lemma read_shortlist_loop_spec (reader : list (gmap string string))
    (by_band : gmap string (list (gmap string string))) (name : string) :
  BandMods.read_shortlist_loop reader by_band !! name
  = match by_band !! name with
    | Some rows =>
        Some (rows
              ++ List.filter
                   (fun row =>
                      String.eqb (Py.lower (Py.strip (default "" (row !! "band")))) name)
                   reader)
    | None => None
    end.
Proof.
  revert by_band. induction reader as [|row reader IH]; intros by_band.
  - simpl. destruct (by_band !! name); [by rewrite app_nil_r|done].
  - cbn [BandMods.read_shortlist_loop List.filter].
    set (band := Py.lower (Py.strip (default "" (row !! "band")))).
    destruct (by_band !! band) as [rows|] eqn:Hband.
    + rewrite IH. destruct (String.eqb_spec band name) as [<-|Hne].
      * rewrite lookup_insert_eq, Hband. by rewrite <- app_assoc.
      * by rewrite lookup_insert_ne.
    + rewrite IH. destruct (String.eqb_spec band name) as [<-|Hne]; [|done].
      by rewrite Hband.
Qed.

(** X20. [read_shortlist] groups the rows by their band, the stripped and
    lowered [band] field: each of the three bands gets its rows in the order
    of the file, the rows of any other band are dropped, and no other key
    appears. *)
Theorem read_shortlist_groups (reader : list (gmap string string)) (name : string) :
  BandMods.read_shortlist reader !! name
  = if existsb (String.eqb name) ["easy"; "medium"; "hard"]
    then Some (List.filter
                 (fun row =>
                    String.eqb (Py.lower (Py.strip (default "" (row !! "band")))) name)
                 reader)
    else None.
Proof.
  unfold BandMods.read_shortlist. rewrite read_shortlist_loop_spec. simpl.
  destruct (String.eqb_spec name "easy") as [->|H1]; [done|].
  destruct (String.eqb_spec name "medium") as [->|H2]; [done|].
  destruct (String.eqb_spec name "hard") as [->|H3]; [done|].
  by rewrite !lookup_insert_ne, lookup_empty by done.
Qed.

(** ** The attempts for one row *)

Lemma fetch_html_cached_world (E : Os.env) (url cache_dir : string) (w : Os.world) :
  (Os.requests w
   <= Os.requests (snd (BandMods.fetch_html_cached E url cache_dir w))
   <= S (Os.requests w))%nat
  /\ Os.files w ⊆ Os.files (snd (BandMods.fetch_html_cached E url cache_dir w))
  /\ exists new,
       Os.trace (snd (BandMods.fetch_html_cached E url cache_dir w)) = Os.trace w ++ new
       /\ Forall (Trace.of_cached_fetch E cache_dir) new.
Proof.
  unfold BandMods.fetch_html_cached. cbv zeta.
  destruct (Os.files w !! BandMods._cache_path E cache_dir url) as [stored|] eqn:Hc.
  { simpl. split; [lia|]. split; [done|].
    exists []. rewrite app_nil_r. split; [done|constructor]. }
  unfold Os.get.
  assert (Hlog : Os.requests (Os.log (Os.EvGet url) w) = S (Os.requests w)).
  { rewrite requests_log. simpl. lia. }
  assert (Fail :
    (Os.requests w <= Os.requests (Os.log (Os.EvGet url) w) <= S (Os.requests w))%nat
    /\ Os.files w ⊆ Os.files (Os.log (Os.EvGet url) w)
    /\ exists new,
         Os.trace (Os.log (Os.EvGet url) w) = Os.trace w ++ new
         /\ Forall (Trace.of_cached_fetch E cache_dir) new).
  { split; [lia|]. split; [done|].
    exists [Os.EvGet url]. split; [done|]. by repeat constructor. }
  destruct (Os.http_get E (Os.requests w) url) as [|response]; [exact Fail|].
  destruct (Os.is_error_status _); [exact Fail|]. simpl.
  split; [rewrite requests_write_file, Hlog; lia|].
  split; [by apply insert_subseteq|].
  eexists. split; [by rewrite <- app_assoc|].
  constructor; [done|]. constructor; [|constructor].
  simpl. by exists url.
Qed.

Section Build.

Variable E : Os.env.

Lemma attempts_loop_spec (link title cache_dir : string) (attempts : list Z)
    (poem_text : string) (w : Os.world) :
  Forall (fun attempt => 0 <= attempt) attempts ->
  (fst (BandMods.attempts_loop E link title cache_dir attempts poem_text w) = poem_text
   \/ Py.is_empty
        (fst (BandMods.attempts_loop E link title cache_dir attempts poem_text w)) = true
   \/ exists html,
        fst (BandMods.attempts_loop E link title cache_dir attempts poem_text w)
        = BandMods.extract_poem_text E html title)
  /\ (Os.requests w
      <= Os.requests
           (snd (BandMods.attempts_loop E link title cache_dir attempts poem_text w))
      <= Os.requests w + List.length attempts)%nat
  /\ Os.files w
     ⊆ Os.files (snd (BandMods.attempts_loop E link title cache_dir attempts poem_text w))
  /\ exists new,
       Os.trace (snd (BandMods.attempts_loop E link title cache_dir attempts poem_text w))
       = Os.trace w ++ new
       /\ Forall (Trace.of_cached_fetch E cache_dir) new.
Proof.
  intros Hatt. revert poem_text w.
  induction Hatt as [|attempt attempts Hattempt _ IH]; intros poem_text w.
  { simpl. split; [by left|]. split; [lia|]. split; [done|].
    exists []. rewrite app_nil_r. split; [done|constructor]. }
  cbn [BandMods.attempts_loop].
  destruct (fetch_html_cached_world E link cache_dir w)
    as (Hreq & Hfiles & new1 & Htr1 & Hall1).
  assert (Hsleep : (0 <= (1 # 2) * inject_Z (attempt + 1))%Q).
  { apply Qmult_le_0_compat; [done|].
    change 0%Q with (inject_Z 0). rewrite <- Zle_Qle. lia. }
  assert (Next : forall text w1,
    (Os.requests w <= Os.requests w1 <= S (Os.requests w))%nat ->
    Os.files w ⊆ Os.files w1 ->
    Os.trace w1 = Os.trace w ++ new1 ->
    (text = poem_text \/ Py.is_empty text = true) ->
    (fst (BandMods.attempts_loop E link title cache_dir attempts text
            (Os.sleep ((1 # 2) * inject_Z (attempt + 1)) w1)) = poem_text
     \/ Py.is_empty
          (fst (BandMods.attempts_loop E link title cache_dir attempts text
                  (Os.sleep ((1 # 2) * inject_Z (attempt + 1)) w1))) = true
     \/ exists html,
          fst (BandMods.attempts_loop E link title cache_dir attempts text
                 (Os.sleep ((1 # 2) * inject_Z (attempt + 1)) w1))
          = BandMods.extract_poem_text E html title)
    /\ (Os.requests w
        <= Os.requests
             (snd (BandMods.attempts_loop E link title cache_dir attempts text
                     (Os.sleep ((1 # 2) * inject_Z (attempt + 1)) w1)))
        <= Os.requests w + List.length (attempt :: attempts))%nat
    /\ Os.files w
       ⊆ Os.files (snd (BandMods.attempts_loop E link title cache_dir attempts text
                          (Os.sleep ((1 # 2) * inject_Z (attempt + 1)) w1)))
    /\ exists new,
         Os.trace (snd (BandMods.attempts_loop E link title cache_dir attempts text
                          (Os.sleep ((1 # 2) * inject_Z (attempt + 1)) w1)))
         = Os.trace w ++ new
         /\ Forall (Trace.of_cached_fetch E cache_dir) new).
  { intros text w1 Hreq1 Hfiles1 Htrace1 Htext.
    destruct (IH text (Os.sleep ((1 # 2) * inject_Z (attempt + 1)) w1))
      as (Hres & Hr & Hf & new & Htr & Hall).
    rewrite requests_sleep in Hr. split.
    { destruct Hres as [Hres|[Hres|Hres]]; [|by right; left|by right; right].
      rewrite Hres. destruct Htext as [->|Htext]; [by left|by right; left]. }
    split; [simpl List.length; lia|]. split; [by etransitivity|].
    exists (new1 ++ Os.EvSleep ((1 # 2) * inject_Z (attempt + 1)) :: new). split.
    - rewrite Htr. simpl. rewrite Htrace1, <- !app_assoc. done.
    - apply Forall_app. split; [done|]. by constructor. }
  destruct (BandMods.fetch_html_cached E link cache_dir w) as [[html|] w1];
    simpl in Hreq, Hfiles, Htr1.
  2:{ apply Next; try done. by left. }
  cbv zeta.
  destruct (Py.is_empty (BandMods.extract_poem_text E html title)) eqn:Hempty; simpl.
  - apply Next; try done. by right.
  - split; [right; right; by exists html|]. split; [lia|]. split; [done|].
    by exists new1.
Qed.

Lemma attempts_loop_cached_empty (link title cache_dir stored : string)
    (attempts : list Z) (poem_text : string) (w : Os.world) :
  Os.files w !! BandMods._cache_path E cache_dir link = Some stored ->
  Py.is_empty (BandMods.extract_poem_text E (Os.read_text stored) title) = true ->
  BandMods.attempts_loop E link title cache_dir attempts poem_text w
  = (match attempts with [] => poem_text | _ :: _ => "" end,
     {| Os.files := Os.files w; Os.tables := Os.tables w; Os.draws := Os.draws w;
        Os.trace :=
          Os.trace w
          ++ map (fun attempt => Os.EvSleep ((1 # 2) * inject_Z (attempt + 1)))
               attempts |}).
Proof.
  intros Hc Hempty. revert poem_text w Hc.
  induction attempts as [|attempt attempts IH]; intros poem_text w Hc.
  - simpl. rewrite app_nil_r. by destruct w.
  - cbn [BandMods.attempts_loop].
    rewrite (fetch_html_cached_hit E link cache_dir stored w Hc). cbv zeta.
    rewrite Hempty. simpl negb. cbv iota.
    rewrite (IH _ (Os.sleep ((1 # 2) * inject_Z (attempt + 1)) w) Hc).
    simpl. rewrite <- app_assoc. simpl. f_equal.
    destruct (BandMods.extract_poem_text E (Os.read_text stored) title); [|done].
    by destruct attempts.
Qed.

(** X21. When the page of a row is in the cache, the attempts send no
    request and write nothing. A text that is not empty is returned at
    once, without a sleep; an empty one is extracted three times from the
    same file, with the three sleeps in between, and stays empty. *)
Theorem cached_page_attempts (link title cache_dir stored : string) (w : Os.world) :
  Os.files w !! BandMods._cache_path E cache_dir link = Some stored ->
  BandMods.attempts_loop E link title cache_dir (Py.range 0 3) "" w
  = if Py.is_empty (BandMods.extract_poem_text E (Os.read_text stored) title)
    then ("",
          {| Os.files := Os.files w; Os.tables := Os.tables w; Os.draws := Os.draws w;
             Os.trace :=
               Os.trace w
               ++ map (fun attempt => Os.EvSleep ((1 # 2) * inject_Z (attempt + 1)))
                    (Py.range 0 3) |})
    else (BandMods.extract_poem_text E (Os.read_text stored) title, w).
Proof.
  intros Hc.
  destruct (Py.is_empty (BandMods.extract_poem_text E (Os.read_text stored) title))
    eqn:Hempty.
  - by rewrite (attempts_loop_cached_empty link title cache_dir stored _ _ w Hc Hempty).
  - change (Py.range 0 3) with [0; 1; 2]. cbn [BandMods.attempts_loop].
    rewrite (fetch_html_cached_hit E link cache_dir stored w Hc). cbv zeta.
    by rewrite Hempty.
Qed.

End Build.

Lemma cached_page_attempts_witness :
  BandMods.attempts_loop Inputs.env "https://example.org/raven" "The Raven"
    ".cache/poem_pages" (Py.range 0 3) ""
    {| Os.files := {[ ".cache/poem_pages/https://example.org/raven.html" := "cached" ]};
       Os.tables := ∅; Os.draws := 0; Os.trace := [] |}
  = ("",
     {| Os.files := {[ ".cache/poem_pages/https://example.org/raven.html" := "cached" ]};
        Os.tables := ∅; Os.draws := 0;
        Os.trace :=
          [] ++ map (fun attempt => Os.EvSleep ((1 # 2) * inject_Z (attempt + 1)))
                  (Py.range 0 3) |}).
Proof.
  exact (cached_page_attempts Inputs.env "https://example.org/raven" "The Raven"
           ".cache/poem_pages" "cached"
           {| Os.files :=
                {[ ".cache/poem_pages/https://example.org/raven.html" := "cached" ]};
              Os.tables := ∅; Os.draws := 0; Os.trace := [] |} eq_refl).
Defined.

(** ** The paragraphs of a band and the files of a build *)

Section Bands.

Variable E : Os.env.
Variable args : BandMods.Args.

Lemma band_loop_spec (rows : list (gmap string string)) (paragraphs : list string)
    (w : Os.world) :
  exists added new,
    fst (BandMods.band_loop E args rows paragraphs w) = paragraphs ++ added
    /\ Forall (fun paragraph =>
         Py.is_empty paragraph = false
         /\ exists row,
              In row rows
              /\ ((exists html,
                     paragraph
                     = BandMods.extract_poem_text E html
                         (Py.strip (default "" (row !! "title"))))
                  \/ paragraph
                     = BandMods.clean_sample_text
                         (Py.strip (default "" (row !! "sample_text"))))) added
    /\ (List.length added <= List.length rows)%nat
    /\ Z.of_nat (List.length (fst (BandMods.band_loop E args rows paragraphs w)))
       <= Z.max (Z.of_nat (List.length paragraphs)) (BandMods.target_per_band args)
    /\ (Os.requests w
        <= Os.requests (snd (BandMods.band_loop E args rows paragraphs w))
        <= Os.requests w + 3 * List.length rows)%nat
    /\ Os.files w ⊆ Os.files (snd (BandMods.band_loop E args rows paragraphs w))
    /\ Os.trace (snd (BandMods.band_loop E args rows paragraphs w)) = Os.trace w ++ new
    /\ Forall (Trace.of_cached_fetch E (BandMods.cache_dir args)) new.
Proof.
  revert paragraphs w. induction rows as [|row rows IH]; intros paragraphs w.
  { exists [], []. simpl. rewrite !app_nil_r.
    repeat split; try done; try lia; constructor. }
  cbn [BandMods.band_loop].
  destruct (Z.leb_spec (BandMods.target_per_band args)
              (Z.of_nat (List.length paragraphs))) as [Hfull|Hroom].
  { exists [], []. simpl. rewrite !app_nil_r.
    repeat split; try done; try lia; constructor. }
  assert (Weaken : forall added : list string,
    Forall (fun paragraph =>
      Py.is_empty paragraph = false
      /\ exists row0,
           In row0 rows
           /\ ((exists html,
                  paragraph
                  = BandMods.extract_poem_text E html
                      (Py.strip (default "" (row0 !! "title"))))
               \/ paragraph
                  = BandMods.clean_sample_text
                      (Py.strip (default "" (row0 !! "sample_text"))))) added ->
    Forall (fun paragraph =>
      Py.is_empty paragraph = false
      /\ exists row0,
           In row0 (row :: rows)
           /\ ((exists html,
                  paragraph
                  = BandMods.extract_poem_text E html
                      (Py.strip (default "" (row0 !! "title"))))
               \/ paragraph
                  = BandMods.clean_sample_text
                      (Py.strip (default "" (row0 !! "sample_text"))))) added).
  { intros added Hadded. eapply Forall_impl; [exact Hadded|].
    intros p (Hne & row0 & Hin & Hp).
    split; [done|]. exists row0. split; [by right|done]. }
  cbv zeta.
  destruct (Py.is_empty (Py.strip (default "" (row !! "link")))).
  { destruct (IH paragraphs w)
      as (added & new & Hp & Hall & Hlen & Hsize & Hreq & Hf & Htr & Hev).
    exists added, new. split; [done|]. split; [by apply Weaken|].
    split; [simpl; lia|]. split; [done|]. split; [simpl List.length; lia|]. done. }
  destruct (attempts_loop_spec E (Py.strip (default "" (row !! "link")))
              (Py.strip (default "" (row !! "title"))) (BandMods.cache_dir args)
              (Py.range 0 3) "" w)
    as (Hres & Hreq1 & Hf1 & new1 & Htr1 & Hev1).
  { change (Py.range 0 3) with [0; 1; 2]. repeat constructor; lia. }
  rewrite length_range in Hreq1. change (Z.to_nat (3 - 0)) with 3%nat in Hreq1.
  destruct (BandMods.attempts_loop E _ _ _ _ "" w) as [poem_text w1];
    simpl in Hres, Hreq1, Hf1, Htr1.
  (* a row that gives a paragraph *)
  assert (Keep : forall paragraph,
    Py.is_empty paragraph = false ->
    ((exists html,
        paragraph
        = BandMods.extract_poem_text E html (Py.strip (default "" (row !! "title"))))
     \/ paragraph
        = BandMods.clean_sample_text (Py.strip (default "" (row !! "sample_text")))) ->
    exists added new,
      fst (BandMods.band_loop E args rows (paragraphs ++ [paragraph]) w1)
      = paragraphs ++ added
      /\ Forall (fun paragraph =>
           Py.is_empty paragraph = false
           /\ exists row0,
                In row0 (row :: rows)
                /\ ((exists html,
                       paragraph
                       = BandMods.extract_poem_text E html
                           (Py.strip (default "" (row0 !! "title"))))
                    \/ paragraph
                       = BandMods.clean_sample_text
                           (Py.strip (default "" (row0 !! "sample_text"))))) added
      /\ (List.length added <= List.length (row :: rows))%nat
      /\ Z.of_nat (List.length
                     (fst (BandMods.band_loop E args rows (paragraphs ++ [paragraph]) w1)))
         <= Z.max (Z.of_nat (List.length paragraphs)) (BandMods.target_per_band args)
      /\ (Os.requests w
          <= Os.requests
               (snd (BandMods.band_loop E args rows (paragraphs ++ [paragraph]) w1))
          <= Os.requests w + 3 * List.length (row :: rows))%nat
      /\ Os.files w
         ⊆ Os.files (snd (BandMods.band_loop E args rows (paragraphs ++ [paragraph]) w1))
      /\ Os.trace (snd (BandMods.band_loop E args rows (paragraphs ++ [paragraph]) w1))
         = Os.trace w ++ new
      /\ Forall (Trace.of_cached_fetch E (BandMods.cache_dir args)) new).
  { intros paragraph Hne Hfrom.
    destruct (IH (paragraphs ++ [paragraph]) w1)
      as (added & new & Hp & Hall & Hlen & Hsize & Hreq & Hf & Htr & Hev).
    exists (paragraph :: added), (new1 ++ new).
    split; [by rewrite Hp, <- app_assoc|]. split.
    { constructor; [|by apply Weaken]. split; [done|]. exists row. split; [by left|done]. }
    split; [simpl; lia|]. split.
    { rewrite length_app in Hsize. simpl in Hsize. lia. }
    split; [simpl List.length; lia|]. split; [by etransitivity|].
    split; [by rewrite Htr, Htr1, <- app_assoc|by apply Forall_app]. }
  destruct (Py.is_empty poem_text) eqn:Hempty; simpl negb; cbv iota.
  2:{ apply Keep; [done|]. left.
      destruct Hres as [->|[Hres|Hres]]; [done|congruence|done]. }
  destruct (Py.is_empty (BandMods.clean_sample_text _)) eqn:Hfallback; simpl negb; cbv iota.
  2:{ apply Keep; [done|]. by right. }
  destruct (IH paragraphs w1)
    as (added & new & Hp & Hall & Hlen & Hsize & Hreq & Hf & Htr & Hev).
  exists added, (new1 ++ new). split; [done|]. split; [by apply Weaken|].
  split; [simpl; lia|]. split; [done|]. split; [simpl List.length; lia|].
  split; [by etransitivity|].
  split; [by rewrite Htr, Htr1, <- app_assoc|by apply Forall_app].
Qed.

End Bands.

Lemma read_shortlist_band (reader : list (gmap string string)) (name : string) :
  In name ["easy"; "medium"; "hard"] ->
  default [] (BandMods.read_shortlist reader !! name)
  = List.filter
      (fun row => String.eqb (Py.lower (Py.strip (default "" (row !! "band")))) name)
      reader.
Proof.
  unfold BandMods.read_shortlist. rewrite read_shortlist_loop_spec.
  intros [<-|[<-|[<-|[]]]]; reflexivity.
Qed.

Lemma read_shortlist_rows (reader : list (gmap string string)) (name : string)
    (row : gmap string string) :
  In row (default [] (BandMods.read_shortlist reader !! name)) -> In row reader.
Proof.
  unfold BandMods.read_shortlist. rewrite read_shortlist_loop_spec.
  destruct (decide (name = "easy")) as [->|H1];
    [simpl; intros H; by apply filter_In in H as [H _]|].
  destruct (decide (name = "medium")) as [->|H2];
    [simpl; intros H; by apply filter_In in H as [H _]|].
  destruct (decide (name = "hard")) as [->|H3];
    [simpl; intros H; by apply filter_In in H as [H _]|].
  by rewrite !lookup_insert_ne, lookup_empty by done.
Qed.

Lemma bands_partition (reader : list (gmap string string)) :
  (List.length (default [] (BandMods.read_shortlist reader !! "easy"))
   + List.length (default [] (BandMods.read_shortlist reader !! "medium"))
   + List.length (default [] (BandMods.read_shortlist reader !! "hard"))
   <= List.length reader)%nat.
Proof.
  rewrite !read_shortlist_band by (simpl; auto).
  induction reader as [|row reader IH]; simpl; [lia|].
  destruct (String.eqb_spec (Py.lower (Py.strip (default "" (row !! "band")))) "easy")
    as [He|He];
    destruct (String.eqb_spec (Py.lower (Py.strip (default "" (row !! "band"))))
                "medium") as [Hm|Hm];
    destruct (String.eqb_spec (Py.lower (Py.strip (default "" (row !! "band"))))
                "hard") as [Hh|Hh];
    try congruence; simpl; lia.
Qed.

(** X22. A build writes three files and no other outside the cache, in
    the order easy, medium, hard, each named [mod.paragraphs.<band>] in the
    output directory and holding at most [target_per_band] paragraphs, none
    of them empty, each one the text extracted from a page or the cleaned
    sample text of a row; together they hold no more paragraphs than the
    shortlist has rows, and the build sends at most three requests for each
    row. What happens before each file is written are requests, sleeps that
    are not negative and cache files. *)
Theorem build_writes_three_files (E : Os.env) (dumps : Os.json -> string)
    (args : BandMods.Args) (reader : list (gmap string string)) (w : Os.world) :
  exists easy medium hard before_easy before_medium before_hard,
    Os.trace (BandMods.main E dumps args reader w)
    = Os.trace w
      ++ before_easy
      ++ Os.EvWriteText (Os.path_join (BandMods.out_dir args) "mod.paragraphs.easy")
           (dumps (Os.JDict [("mod", Os.JList (map Os.JStr easy))]))
      :: before_medium
      ++ Os.EvWriteText (Os.path_join (BandMods.out_dir args) "mod.paragraphs.medium")
           (dumps (Os.JDict [("mod", Os.JList (map Os.JStr medium))]))
      :: before_hard
      ++ [ Os.EvWriteText (Os.path_join (BandMods.out_dir args) "mod.paragraphs.hard")
             (dumps (Os.JDict [("mod", Os.JList (map Os.JStr hard))])) ]
    /\ Forall (Trace.of_cached_fetch E (BandMods.cache_dir args))
         (before_easy ++ before_medium ++ before_hard)
    /\ Forall (fun paragraphs =>
         Z.of_nat (List.length paragraphs) <= Z.max 0 (BandMods.target_per_band args)
         /\ Forall (fun paragraph =>
              Py.is_empty paragraph = false
              /\ exists row,
                   In row reader
                   /\ ((exists html,
                          paragraph
                          = BandMods.extract_poem_text E html
                              (Py.strip (default "" (row !! "title"))))
                       \/ paragraph
                          = BandMods.clean_sample_text
                              (Py.strip (default "" (row !! "sample_text")))))
              paragraphs) [easy; medium; hard]
    /\ (List.length easy + List.length medium + List.length hard
        <= List.length reader)%nat
    /\ (Os.requests w
        <= Os.requests (BandMods.main E dumps args reader w)
        <= Os.requests w + 3 * List.length reader)%nat.
Proof.
  pose proof (bands_partition reader) as Hpart.
  pose proof (read_shortlist_rows reader) as Hrows.
  unfold BandMods.main. cbv zeta. cbn [fold_left]. unfold BandMods.build_band.
  set (by_band := BandMods.read_shortlist reader) in *.
  destruct (band_loop_spec E args (default [] (by_band !! "easy")) [] w)
    as (easy & t1 & Hp1 & Hall1 & Hlen1 & Hsize1 & Hreq1 & _ & Htr1 & Hev1).
  destruct (BandMods.band_loop E args (default [] (by_band !! "easy")) [] w)
    as [p1 w1]. simpl in Hp1, Hsize1, Hreq1, Htr1. subst p1.
  set (w1' := BandMods.write_mod_file E dumps _ easy w1).
  assert (Hw1 : Os.requests w1' = Os.requests w1) by apply requests_write_file.
  destruct (band_loop_spec E args (default [] (by_band !! "medium")) [] w1')
    as (medium & t2 & Hp2 & Hall2 & Hlen2 & Hsize2 & Hreq2 & _ & Htr2 & Hev2).
  destruct (BandMods.band_loop E args (default [] (by_band !! "medium")) [] w1')
    as [p2 w2]. simpl in Hp2, Hsize2, Hreq2, Htr2. subst p2.
  set (w2' := BandMods.write_mod_file E dumps _ medium w2).
  assert (Hw2 : Os.requests w2' = Os.requests w2) by apply requests_write_file.
  destruct (band_loop_spec E args (default [] (by_band !! "hard")) [] w2')
    as (hard & t3 & Hp3 & Hall3 & Hlen3 & Hsize3 & Hreq3 & _ & Htr3 & Hev3).
  destruct (BandMods.band_loop E args (default [] (by_band !! "hard")) [] w2')
    as [p3 w3]. simpl in Hp3, Hsize3, Hreq3, Htr3. subst p3.
  exists easy, medium, hard, t1, t2, t3.
  split; [|split; [|split; [|split]]].
  - unfold BandMods.write_mod_file. simpl. rewrite Htr3. simpl. rewrite Htr2. simpl.
    rewrite Htr1. rewrite <- !app_assoc. reflexivity.
  - apply Forall_app. split; [done|]. by apply Forall_app.
  - assert (Hfrom : forall name paragraphs,
      Forall (fun paragraph =>
        Py.is_empty paragraph = false
        /\ exists row,
             In row (default [] (by_band !! name))
             /\ ((exists html,
                    paragraph
                    = BandMods.extract_poem_text E html
                        (Py.strip (default "" (row !! "title"))))
                 \/ paragraph
                    = BandMods.clean_sample_text
                        (Py.strip (default "" (row !! "sample_text"))))) paragraphs ->
      Forall (fun paragraph =>
        Py.is_empty paragraph = false
        /\ exists row,
             In row reader
             /\ ((exists html,
                    paragraph
                    = BandMods.extract_poem_text E html
                        (Py.strip (default "" (row !! "title"))))
                 \/ paragraph
                    = BandMods.clean_sample_text
                        (Py.strip (default "" (row !! "sample_text"))))) paragraphs).
    { intros name paragraphs Hfrom. eapply Forall_impl; [exact Hfrom|].
      intros p (Hne & row & Hin & Hp).
      split; [done|]. exists row. split; [by eapply Hrows|done]. }
    repeat constructor; eauto.
  - lia.
  - unfold BandMods.write_mod_file. rewrite requests_write_file. lia.
Qed.

(** ** The cleaning and the choice of a poem block *)

Lemma clean_loop_spec (normalized_title : string) (lines cleaned : list string)
    (dropped_title dropped_byline : bool) :
  exists kept,
    BandMods.clean_loop normalized_title lines cleaned dropped_title dropped_byline
    = cleaned ++ kept
    /\ kept `sublist_of` map BandMods.squeeze lines
    /\ Forall (fun text =>
         Py.is_empty text = false
         /\ Py.contains "Sponsored Links" text = false
         /\ Py.startswith text "Public Domain Poetry" = false) kept
    /\ (List.length
          (List.filter
             (fun text =>
                negb (Py.is_empty text)
                && negb (Py.contains "Sponsored Links" text
                         || Py.startswith text "Public Domain Poetry"))
             (map BandMods.squeeze lines))
        <= List.length kept
           + (if dropped_title then 0 else 1) + (if dropped_byline then 0 else 1))%nat.
Proof.
  revert cleaned dropped_title dropped_byline.
  induction lines as [|line lines IH]; intros cleaned dropped_title dropped_byline.
  { exists []. simpl. rewrite app_nil_r. repeat split; [constructor|constructor|lia]. }
  cbn [BandMods.clean_loop map List.filter]. cbv zeta.
  set (text := BandMods.squeeze line).
  destruct (Py.is_empty text) eqn:Hempty.
  { destruct (IH cleaned dropped_title dropped_byline) as (kept & -> & Hsub & Hall & Hlen).
    exists kept. split; [done|]. split; [by apply sublist_cons|]. by split. }
  simpl negb at 1. cbn [andb].
  destruct (negb dropped_title && String.eqb (Py.lower text) normalized_title) eqn:Ht.
  { apply andb_true_iff in Ht as [Hdt _]. apply negb_true_iff in Hdt. subst dropped_title.
    destruct (IH cleaned true dropped_byline) as (kept & -> & Hsub & Hall & Hlen).
    exists kept. split; [done|]. split; [by apply sublist_cons|]. split; [done|].
    destruct (negb false && _); simpl List.length; lia. }
  destruct (negb dropped_byline && Re.matches BandMods.byline text) eqn:Hb.
  { apply andb_true_iff in Hb as [Hdb _]. apply negb_true_iff in Hdb. subst dropped_byline.
    destruct (IH cleaned dropped_title true) as (kept & -> & Hsub & Hall & Hlen).
    exists kept. split; [done|]. split; [by apply sublist_cons|]. split; [done|].
    destruct (negb false && _); simpl List.length; lia. }
  destruct (Py.contains "Sponsored Links" text
            || Py.startswith text "Public Domain Poetry") eqn:Hs.
  { destruct (IH cleaned dropped_title dropped_byline) as (kept & -> & Hsub & Hall & Hlen).
    exists kept. split; [done|]. split; [by apply sublist_cons|]. by split. }
  destruct (IH (cleaned ++ [text]) dropped_title dropped_byline)
    as (kept & -> & Hsub & Hall & Hlen).
  exists (text :: kept). split; [by rewrite <- app_assoc|].
  split; [by apply sublist_skip|]. split.
  - constructor; [|done]. apply orb_false_iff in Hs as [Hs1 Hs2]. by repeat split.
  - simpl. lia.
Qed.

(** X23. [clean_poem_lines] keeps lines of the block in their order, each
    with its white space squeezed. No line that it keeps is empty, holds
    "Sponsored Links" or starts with "Public Domain Poetry"; and of the
    other lines it drops at most two: one that is the title and one
    byline. *)
Theorem clean_poem_lines_keeps (lines : list string) (title : string) :
  BandMods.clean_poem_lines lines title `sublist_of` map BandMods.squeeze lines
  /\ Forall (fun text =>
       Py.is_empty text = false
       /\ Py.contains "Sponsored Links" text = false
       /\ Py.startswith text "Public Domain Poetry" = false)
       (BandMods.clean_poem_lines lines title)
  /\ (List.length
        (List.filter
           (fun text =>
              negb (Py.is_empty text)
              && negb (Py.contains "Sponsored Links" text
                       || Py.startswith text "Public Domain Poetry"))
           (map BandMods.squeeze lines))
      <= List.length (BandMods.clean_poem_lines lines title) + 2)%nat.
Proof.
  unfold BandMods.clean_poem_lines. cbv zeta.
  destruct (clean_loop_spec (Py.lower (BandMods.squeeze title)) lines [] false false)
    as (kept & -> & Hsub & Hall & Hlen).
  simpl. split; [done|]. split; [done|]. lia.
Qed.

(** X24. The block that [extract_poem_text] cleans: every block that is
    collected has six lines or more, none of them empty; the one that is
    chosen is the first of those with the greatest total length; and a page
    with no cell of 180 characters and six lines gives the empty text. *)
Theorem band_extraction_selects (tds : list string) (title : string) :
  Forall (fun lines =>
    (6 <= List.length lines)%nat
    /\ Forall (fun line => Py.is_empty line = false) lines)
    (BandMods.collect_blocks tds)
  /\ (Forall (fun raw =>
        ((180 <=? Py.len raw)
         && (6 <=? Z.of_nat (List.length (BandMods.block_lines raw)))) = false) tds ->
      BandMods.extract_poem_text_of_cells tds title = "")
  /\ (BandMods.collect_blocks tds <> [] ->
      exists pre best_lines post,
        BandMods.collect_blocks tds = pre ++ best_lines :: post
        /\ (forall lines, In lines pre ->
              Py.sum (map Py.len lines) < Py.sum (map Py.len best_lines))
        /\ (forall lines, In lines post ->
              Py.sum (map Py.len lines) <= Py.sum (map Py.len best_lines))
        /\ BandMods.extract_poem_text_of_cells tds title
           = BandMods.clean_block best_lines title).
Proof.
  assert (Hlines : forall raw,
    Forall (fun line => Py.is_empty line = false) (BandMods.block_lines raw)).
  { intros raw. unfold BandMods.block_lines. apply Forall_map.
    apply List.Forall_forall. intros line Hin. apply filter_In in Hin as [_ Hne].
    by apply negb_true_iff in Hne. }
  assert (Hblocks : forall p : string -> bool,
    (forall raw, p raw = true ->
       (6 <=? Z.of_nat (List.length (BandMods.block_lines raw))) = true) ->
    Forall (fun lines =>
      (6 <= List.length lines)%nat
      /\ Forall (fun line => Py.is_empty line = false) lines)
      (map BandMods.block_lines (List.filter p tds))).
  { intros p Hp. apply Forall_map. apply List.Forall_forall. intros raw Hin.
    apply filter_In in Hin as [_ Hraw]. apply Hp in Hraw. split; [lia|apply Hlines]. }
  split; [|split].
  - unfold BandMods.collect_blocks. cbv zeta.
    rewrite primary_pass_spec, fallback_pass_spec. simpl.
    match goal with
    | |- context [match ?l with [] => _ | _ :: _ => _ end] => destruct l eqn:Hp
    end.
    + apply Hblocks. intros raw H. by apply andb_true_iff in H as [_ H].
    + rewrite <- Hp. apply Hblocks. intros raw H. by apply andb_true_iff in H as [_ H].
  - intros Hnone.
    assert (Hfb : List.filter (fun raw =>
                    (180 <=? Py.len raw)
                    && (6 <=? Z.of_nat (List.length (BandMods.block_lines raw)))) tds
                  = []).
    { clear -Hnone. induction Hnone as [|raw tds Hraw _ IH]; [done|].
      simpl. by rewrite Hraw. }
    assert (Hpr : List.filter (fun raw =>
                    (250 <=? Py.len raw) && negb (Spec44.has_marker raw)
                    && (6 <=? Z.of_nat (List.length (BandMods.block_lines raw)))) tds
                  = []).
    { clear -Hnone. induction Hnone as [|raw tds Hraw _ IH]; [done|].
      simpl. rewrite IH.
      destruct (250 <=? Py.len raw) eqn:H250; [|done].
      destruct (negb (Spec44.has_marker raw)); [|done]. simpl.
      destruct (6 <=? _); [|done].
      rewrite andb_true_r in Hraw. lia. }
    unfold BandMods.extract_poem_text_of_cells, BandMods.collect_blocks. cbv zeta.
    rewrite primary_pass_spec, fallback_pass_spec, Hpr, Hfb. reflexivity.
  - intros Hne. unfold BandMods.extract_poem_text_of_cells. cbv zeta.
    pose proof (max_by_key_spec (fun lines => Py.sum (map Py.len lines))
                  (BandMods.collect_blocks tds)) as Hmax.
    destruct (Py.max_by_key _ (BandMods.collect_blocks tds)) as [best|]; [|done].
    destruct Hmax as (pre & post & Hsplit & Hpre & Hpost).
    by exists pre, best, post.
Qed.

(** * Properties of [1-dedupe_poems_csv.py] *)

(** ** The dictionary of a row *)

Lemma to_dict_other (fieldnames row : list string) (d : gmap string (option string))
    (name : string) :
  ~ In name fieldnames -> Dedupe.to_dict fieldnames row d !! name = d !! name.
Proof.
  revert row d. induction fieldnames as [|f fieldnames IH]; intros row d Hname; [done|].
  assert (f <> name) by (intros ->; apply Hname; by left).
  assert (~ In name fieldnames) by (intros Hin; apply Hname; by right).
  simpl. destruct row as [|value row]; rewrite IH by done; by rewrite lookup_insert_ne.
Qed.

Lemma to_dict_of_columns (g : string -> string) (fieldnames : list string)
    (d : gmap string (option string)) (name : string) :
  In name fieldnames ->
  Dedupe.to_dict fieldnames (map g fieldnames) d !! name = Some (Some (g name)).
Proof.
  revert d. induction fieldnames as [|f fieldnames IH]; intros d Hname; [done|].
  simpl. destruct (in_dec string_dec name fieldnames) as [Hin|Hout].
  - by apply IH.
  - destruct Hname as [->|Hname]; [|done].
    by rewrite to_dict_other, lookup_insert_eq.
Qed.

(** What is written for a row reads back as the same dictionary, up to
    [None] and the empty string. *)
Lemma get_or_empty_written (fieldnames row : list string) (name : string) :
  Dedupe.get_or_empty
    (Dedupe.to_dict fieldnames (Dedupe.written_row fieldnames row) ∅) name
  = Dedupe.get_or_empty (Dedupe.to_dict fieldnames row ∅) name.
Proof.
  unfold Dedupe.written_row.
  destruct (in_dec string_dec name fieldnames) as [Hin|Hout].
  - unfold Dedupe.get_or_empty at 1. by rewrite to_dict_of_columns.
  - unfold Dedupe.get_or_empty. by rewrite !to_dict_other, lookup_empty.
Qed.

Lemma key_of_written (fieldnames key_columns row : list string) :
  Dedupe.key_of fieldnames key_columns (Dedupe.written_row fieldnames row)
  = Dedupe.key_of fieldnames key_columns row.
Proof.
  unfold Dedupe.key_of. apply map_ext. intros col. by rewrite get_or_empty_written.
Qed.

Lemma written_row_written (fieldnames row : list string) :
  Dedupe.written_row fieldnames (Dedupe.written_row fieldnames row)
  = Dedupe.written_row fieldnames row.
Proof.
  unfold Dedupe.written_row at 1 3. apply map_ext. intros name.
  apply get_or_empty_written.
Qed.

Lemma length_written_row (fieldnames row : list string) :
  List.length (Dedupe.written_row fieldnames row) = List.length fieldnames.
Proof. unfold Dedupe.written_row. by rewrite length_map. Qed.

(** ** The loop *)

Section DedupeLoop.

Variables fieldnames key_columns : list string.

Lemma dedupe_loop_spec (reader : list (list string)) (seen : gset (list string))
    (written : list (list string)) (total kept total' kept' : Z)
    (written' : list (list string)) :
  Dedupe.dedupe_loop fieldnames key_columns reader seen written total kept
  = (Some (total', kept'), written') ->
  exists kept_rows,
    written' = written ++ map (Dedupe.written_row fieldnames) kept_rows
    /\ kept_rows `sublist_of` reader
    /\ NoDup (map (Dedupe.key_of fieldnames key_columns) kept_rows)
    /\ (forall row, In row kept_rows ->
          (Dedupe.key_of fieldnames key_columns row ∉ seen)
          /\ row <> []
          /\ (List.length row <= List.length fieldnames)%nat
          /\ exists pre post,
               reader = pre ++ row :: post
               /\ forall r, In r pre -> r <> [] ->
                    Dedupe.key_of fieldnames key_columns r
                    <> Dedupe.key_of fieldnames key_columns row)
    /\ (forall row, In row reader -> row <> [] ->
          Dedupe.key_of fieldnames key_columns row ∈ seen
          \/ In (Dedupe.key_of fieldnames key_columns row)
               (map (Dedupe.key_of fieldnames key_columns) kept_rows))
    /\ total'
       = total
         + Z.of_nat (List.length
                       (List.filter (fun row => negb (bool_decide (row = []))) reader))
    /\ kept' = kept + Z.of_nat (List.length kept_rows).
Proof.
  revert seen written total kept.
  induction reader as [|row reader IH]; intros seen written total kept.
  { simpl. intros [= <- <- <-]. exists []. simpl. rewrite app_nil_r.
    split; [done|]. split; [constructor|]. split; [constructor|].
    split; [intros r []|]. split; [intros r []|]. lia. }
  assert (Skip : forall total0,
    total0 = total + (if bool_decide (row = []) then 0 else 1) ->
    (row <> [] -> Dedupe.key_of fieldnames key_columns row ∈ seen) ->
    Dedupe.dedupe_loop fieldnames key_columns reader seen written total0 kept
    = (Some (total', kept'), written') ->
    exists kept_rows,
      written' = written ++ map (Dedupe.written_row fieldnames) kept_rows
      /\ kept_rows `sublist_of` row :: reader
      /\ NoDup (map (Dedupe.key_of fieldnames key_columns) kept_rows)
      /\ (forall row0, In row0 kept_rows ->
            (Dedupe.key_of fieldnames key_columns row0 ∉ seen)
            /\ row0 <> []
            /\ (List.length row0 <= List.length fieldnames)%nat
            /\ exists pre post,
                 row :: reader = pre ++ row0 :: post
                 /\ forall r, In r pre -> r <> [] ->
                      Dedupe.key_of fieldnames key_columns r
                      <> Dedupe.key_of fieldnames key_columns row0)
      /\ (forall row0, In row0 (row :: reader) -> row0 <> [] ->
            Dedupe.key_of fieldnames key_columns row0 ∈ seen
            \/ In (Dedupe.key_of fieldnames key_columns row0)
                 (map (Dedupe.key_of fieldnames key_columns) kept_rows))
      /\ total'
         = total
           + Z.of_nat (List.length
                         (List.filter (fun row => negb (bool_decide (row = [])))
                            (row :: reader)))
      /\ kept' = kept + Z.of_nat (List.length kept_rows)).
  { intros total0 -> Hrow H.
    apply IH in H as (kept_rows & -> & Hsub & Hnd & Hkept & Hall & -> & ->).
    exists kept_rows. split; [done|]. split; [by apply sublist_cons|]. split; [done|].
    split; [|split; [|split; [|done]]].
    - intros row0 Hin.
      destruct (Hkept row0 Hin) as (Hns & Hne & Hlen & pre & post & -> & Hpre).
      split; [done|]. split; [done|]. split; [done|].
      exists (row :: pre), post. split; [done|].
      intros r [<-|Hr] Hr0; [|by apply Hpre].
      intros Heq. apply Hns. rewrite <- Heq. by apply Hrow.
    - intros row0 [<-|Hin] Hne; [left; by apply Hrow|by apply Hall].
    - simpl. destruct (bool_decide (row = [])); simpl List.length; lia. }
  cbn [Dedupe.dedupe_loop].
  destruct row as [|value row].
  { apply Skip; [rewrite bool_decide_eq_true_2 by done; lia|done]. }
  cbv zeta.
  destruct (bool_decide (Dedupe.key_of fieldnames key_columns (value :: row) ∈ seen))
    eqn:Hseen.
  { apply bool_decide_eq_true in Hseen.
    apply Skip; [rewrite bool_decide_eq_false_2 by done; lia|done]. }
  apply bool_decide_eq_false in Hseen.
  destruct (Nat.ltb_spec (List.length fieldnames) (List.length (value :: row)))
    as [Hover|Hfits]; [done|].
  intros H. apply IH in H as (kept_rows & -> & Hsub & Hnd & Hkept & Hall & -> & ->).
  exists ((value :: row) :: kept_rows).
  split; [by rewrite <- app_assoc|]. split; [by apply sublist_skip|].
  split; [|split; [|split; [|split]]].
  - simpl. constructor; [|done].
    rewrite list_elem_of_In, in_map_iff. intros (r & Hr & Hin).
    destruct (Hkept r Hin) as [Hns _]. apply Hns. rewrite Hr.
    apply elem_of_union. left. by apply elem_of_singleton.
  - intros row0 [<-|Hin].
    + split; [done|]. split; [done|]. split; [done|].
      exists [], reader. split; [done|]. intros r [].
    + destruct (Hkept row0 Hin) as (Hns & Hne & Hlen & pre & post & -> & Hpre).
      split; [intros Hin0; apply Hns, elem_of_union; by right|].
      split; [done|]. split; [done|].
      exists ((value :: row) :: pre), post. split; [done|].
      intros r [<-|Hr] Hr0; [|by apply Hpre].
      intros Heq. apply Hns, elem_of_union. left. by apply elem_of_singleton.
  - intros row0 [<-|Hin] Hne; [right; by left|].
    destruct (Hall row0 Hin Hne) as [Hs0|Hs0]; [|right; by right].
    apply elem_of_union in Hs0 as [Hs0|Hs0]; [|by left].
    apply elem_of_singleton in Hs0. right. left. done.
  - cbn [List.filter]. rewrite bool_decide_eq_false_2 by done. simpl List.length. lia.
  - simpl List.length. lia.
Qed.

(** The loop over rows that were written by an earlier run keeps them
    all. *)
Lemma dedupe_loop_written (kept_rows : list (list string)) (seen : gset (list string))
    (written : list (list string)) (total kept : Z) :
  fieldnames <> [] ->
  NoDup (map (Dedupe.key_of fieldnames key_columns) kept_rows) ->
  (forall row, In row kept_rows -> Dedupe.key_of fieldnames key_columns row ∉ seen) ->
  Dedupe.dedupe_loop fieldnames key_columns
    (map (Dedupe.written_row fieldnames) kept_rows) seen written total kept
  = (Some (total + Z.of_nat (List.length kept_rows),
           kept + Z.of_nat (List.length kept_rows)),
     written ++ map (Dedupe.written_row fieldnames) kept_rows).
Proof.
  intros Hfields. revert seen written total kept.
  induction kept_rows as [|row kept_rows IH]; intros seen written total kept Hnd Hseen.
  { simpl. rewrite app_nil_r. do 3 f_equal; lia. }
  cbn [map Dedupe.dedupe_loop].
  pose proof (length_written_row fieldnames row) as Hlen.
  destruct (Dedupe.written_row fieldnames row) as [|value rest] eqn:Hw.
  { destruct fieldnames; [done|discriminate Hlen]. }
  rewrite <- Hw. cbv zeta. rewrite key_of_written.
  rewrite bool_decide_eq_false_2 by (apply Hseen; by left).
  rewrite length_written_row, Nat.ltb_irrefl, written_row_written.
  simpl in Hnd. apply NoDup_cons in Hnd as [Hrow Hnd].
  rewrite IH.
  - rewrite <- app_assoc. simpl List.length. do 3 f_equal; lia.
  - done.
  - intros r Hr Hin. apply elem_of_union in Hin as [Hin|Hin];
      [|by apply (Hseen r); [right|]].
    apply elem_of_singleton in Hin. apply Hrow.
    rewrite list_elem_of_In, in_map_iff. by exists r.
Qed.

End DedupeLoop.

(** ** The files *)

Lemma sublist_nonblank (kept_rows reader : list (list string)) :
  kept_rows `sublist_of` reader ->
  Forall (fun row => row <> []) kept_rows ->
  (List.length kept_rows
   <= List.length (List.filter (fun row => negb (bool_decide (row = []))) reader))%nat.
Proof.
  induction 1 as [|row l1 l2 Hsub IH|row l1 l2 Hsub IH]; intros Hall; simpl.
  - lia.
  - apply Forall_cons in Hall as [Hrow Hall].
    rewrite bool_decide_eq_false_2 by done. simpl. specialize (IH Hall). lia.
  - specialize (IH Hall). destruct (negb _); simpl; lia.
Qed.

Lemma dedupe_csv_spec (input_path output_path : string) (key_columns : list string)
    (w : Os.world) :
  match Os.tables w !! input_path with
  | Some (fieldnames :: reader) =>
      if forallb (fun col => existsb (String.eqb col) fieldnames) key_columns
      then
        Dedupe.dedupe_csv input_path output_path key_columns w
        = (fst (Dedupe.dedupe_loop fieldnames key_columns reader ∅ [] 0 0),
           {| Os.files := Os.files w;
              Os.tables :=
                <[ output_path :=
                     fieldnames
                     :: snd (Dedupe.dedupe_loop fieldnames key_columns reader ∅ [] 0 0) ]>
                  (Os.tables w);
              Os.draws := Os.draws w; Os.trace := Os.trace w |})
      else Dedupe.dedupe_csv input_path output_path key_columns w = (None, w)
  | _ => Dedupe.dedupe_csv input_path output_path key_columns w = (None, w)
  end.
Proof.
  unfold Dedupe.dedupe_csv.
  destruct (Os.tables w !! input_path) as [[|fieldnames reader]|]; [done| |done].
  cbv zeta.
  assert (Hmissing :
    List.filter (fun col => negb (existsb (String.eqb col) fieldnames)) key_columns = []
    <-> forallb (fun col => existsb (String.eqb col) fieldnames) key_columns = true).
  { induction key_columns as [|col cols IH]; simpl; [done|].
    destruct (existsb (String.eqb col) fieldnames); simpl; [exact IH|done]. }
  destruct (forallb _ key_columns).
  - destruct Hmissing as [_ ->]; [|done].
    by destruct (Dedupe.dedupe_loop fieldnames key_columns reader ∅ [] 0 0).
  - destruct (List.filter _ key_columns); [|done].
    destruct Hmissing as [Hm _]. by specialize (Hm eq_refl).
Qed.

(** X25. When [dedupe_csv] returns, the output file holds the header of
    the input and, for each key, the first line of the input that has it,
    in the order of the input, each written with the columns of the header:
    no two lines that were kept have the same key, and every line of the
    input that is not empty has the key of a line that was kept. The counts
    are those of the lines that are not empty and of the lines that were
    kept. Every key column is in the header, and no other CSV file
    changes. *)
Theorem dedupe_keeps_first_rows (input_path output_path : string)
    (key_columns : list string) (w : Os.world) (total kept : Z) (w' : Os.world) :
  input_path <> output_path ->
  Dedupe.dedupe_csv input_path output_path key_columns w = (Some (total, kept), w') ->
  exists fieldnames reader kept_rows,
    Os.tables w !! input_path = Some (fieldnames :: reader)
    /\ Forall (fun col => In col fieldnames) key_columns
    /\ Os.tables w' !! output_path
       = Some (fieldnames :: map (Dedupe.written_row fieldnames) kept_rows)
    /\ (forall other, other <> output_path ->
          Os.tables w' !! other = Os.tables w !! other)
    /\ kept_rows `sublist_of` reader
    /\ NoDup (map (Dedupe.key_of fieldnames key_columns) kept_rows)
    /\ (forall row, In row kept_rows ->
          row <> []
          /\ (List.length row <= List.length fieldnames)%nat
          /\ exists pre post,
               reader = pre ++ row :: post
               /\ forall r, In r pre -> r <> [] ->
                    Dedupe.key_of fieldnames key_columns r
                    <> Dedupe.key_of fieldnames key_columns row)
    /\ (forall row, In row reader -> row <> [] ->
          In (Dedupe.key_of fieldnames key_columns row)
            (map (Dedupe.key_of fieldnames key_columns) kept_rows))
    /\ total
       = Z.of_nat (List.length
                     (List.filter (fun row => negb (bool_decide (row = []))) reader))
    /\ kept = Z.of_nat (List.length kept_rows)
    /\ 0 <= kept <= total.
Proof.
  intros _ H. pose proof (dedupe_csv_spec input_path output_path key_columns w) as Hspec.
  destruct (Os.tables w !! input_path) as [[|fieldnames reader]|];
    [congruence| |congruence].
  destruct (forallb _ key_columns) eqn:Hcols; [|congruence].
  rewrite Hspec in H. clear Hspec.
  destruct (Dedupe.dedupe_loop fieldnames key_columns reader ∅ [] 0 0)
    as [result written] eqn:Hloop.
  simpl in H. injection H as -> <-.
  apply dedupe_loop_spec in Hloop
    as (kept_rows & -> & Hsub & Hnd & Hkept & Hall & -> & ->).
  exists fieldnames, reader, kept_rows. split; [done|]. split.
  { apply List.Forall_forall. intros col Hin.
    rewrite forallb_forall in Hcols. apply Hcols in Hin.
    apply existsb_exists in Hin as (name & Hname & Heq).
    apply String.eqb_eq in Heq. by subst. }
  split; [simpl; by rewrite lookup_insert_eq|].
  split; [intros other Hother; simpl; by rewrite lookup_insert_ne|].
  split; [done|]. split; [done|]. split.
  { intros row Hin. destruct (Hkept row Hin) as (_ & Hne & Hlen & Hfirst). done. }
  split.
  { intros row Hin Hne. destruct (Hall row Hin Hne) as [Hs|Hs]; [|done].
    by apply not_elem_of_empty in Hs. }
  split; [lia|]. split; [lia|].
  assert (Hnb : Forall (fun row => row <> []) kept_rows).
  { apply List.Forall_forall. intros row Hin. by destruct (Hkept row Hin) as (_ & Hne & _). }
  pose proof (sublist_nonblank kept_rows reader Hsub Hnb). lia.
Qed.

Lemma dedupe_keeps_first_rows_witness :
  exists total kept w',
    Dedupe.dedupe_csv "poems.csv" "deduped.csv" Scrape.fieldnames Inputs.harvested_world
    = (Some (total, kept), w')
    /\ exists fieldnames reader kept_rows,
         Os.tables Inputs.harvested_world !! "poems.csv" = Some (fieldnames :: reader)
         /\ Forall (fun col => In col fieldnames) Scrape.fieldnames
         /\ Os.tables w' !! "deduped.csv"
            = Some (fieldnames :: map (Dedupe.written_row fieldnames) kept_rows)
         /\ (forall other, other <> "deduped.csv" ->
               Os.tables w' !! other = Os.tables Inputs.harvested_world !! other)
         /\ kept_rows `sublist_of` reader
         /\ NoDup (map (Dedupe.key_of fieldnames Scrape.fieldnames) kept_rows)
         /\ (forall row, In row kept_rows ->
               row <> []
               /\ (List.length row <= List.length fieldnames)%nat
               /\ exists pre post,
                    reader = pre ++ row :: post
                    /\ forall r, In r pre -> r <> [] ->
                         Dedupe.key_of fieldnames Scrape.fieldnames r
                         <> Dedupe.key_of fieldnames Scrape.fieldnames row)
         /\ (forall row, In row reader -> row <> [] ->
               In (Dedupe.key_of fieldnames Scrape.fieldnames row)
                 (map (Dedupe.key_of fieldnames Scrape.fieldnames) kept_rows))
         /\ total
            = Z.of_nat (List.length
                          (List.filter (fun row => negb (bool_decide (row = []))) reader))
         /\ kept = Z.of_nat (List.length kept_rows)
         /\ 0 <= kept <= total.
Proof.
  destruct (Dedupe.dedupe_csv "poems.csv" "deduped.csv" Scrape.fieldnames
              Inputs.harvested_world) as [[[total kept]|] w'] eqn:H.
  - exists total, kept, w'. split; [reflexivity|].
    refine (dedupe_keeps_first_rows _ _ _ _ _ _ _ _ H). discriminate.
  - vm_compute in H. discriminate H.
Defined.

(** X26. A second run over the output of a first one, with the same key
    columns, keeps every line: its two counts are the number of lines that
    the first run kept, and its output is the file it read. *)
Theorem dedupe_twice (input_path output_path again_path : string)
    (key_columns : list string) (w : Os.world) (total kept : Z) (w' : Os.world) :
  input_path <> output_path ->
  output_path <> again_path ->
  key_columns <> [] ->
  Dedupe.dedupe_csv input_path output_path key_columns w = (Some (total, kept), w') ->
  fst (Dedupe.dedupe_csv output_path again_path key_columns w') = Some (kept, kept)
  /\ Os.tables (snd (Dedupe.dedupe_csv output_path again_path key_columns w'))
       !! again_path
     = Os.tables w' !! output_path.
Proof.
  intros _ _ Hkeys H.
  pose proof (dedupe_csv_spec input_path output_path key_columns w) as Hspec.
  destruct (Os.tables w !! input_path) as [[|fieldnames reader]|];
    [congruence| |congruence].
  destruct (forallb _ key_columns) eqn:Hcols; [|congruence].
  rewrite Hspec in H. clear Hspec.
  destruct (Dedupe.dedupe_loop fieldnames key_columns reader ∅ [] 0 0)
    as [result written] eqn:Hloop.
  simpl in H. injection H as -> <-.
  apply dedupe_loop_spec in Hloop
    as (kept_rows & -> & Hsub & Hnd & Hkept & Hall & -> & ->).
  assert (Hfields : fieldnames <> []).
  { intros ->. destruct key_columns as [|col cols]; [done|]. simpl in Hcols. done. }
  pose proof (dedupe_csv_spec output_path again_path key_columns
                {| Os.files := Os.files w;
                   Os.tables :=
                     <[ output_path :=
                          fieldnames :: [] ++ map (Dedupe.written_row fieldnames) kept_rows ]>
                       (Os.tables w);
                   Os.draws := Os.draws w; Os.trace := Os.trace w |}) as Hspec.
  simpl in Hspec. rewrite lookup_insert_eq in Hspec. rewrite Hcols in Hspec.
  simpl. rewrite Hspec.
  rewrite (dedupe_loop_written fieldnames key_columns kept_rows ∅ [] 0 0 Hfields Hnd)
    by (intros; apply not_elem_of_empty).
  simpl. rewrite !lookup_insert_eq. split; [do 2 f_equal; lia|done].
Qed.

Lemma dedupe_twice_witness :
  exists total kept w',
    Dedupe.dedupe_csv "poems.csv" "deduped.csv" Scrape.fieldnames Inputs.harvested_world
    = (Some (total, kept), w')
    /\ fst (Dedupe.dedupe_csv "deduped.csv" "again.csv" Scrape.fieldnames w')
       = Some (kept, kept)
    /\ Os.tables (snd (Dedupe.dedupe_csv "deduped.csv" "again.csv" Scrape.fieldnames w'))
         !! "again.csv"
       = Os.tables w' !! "deduped.csv".
Proof.
  destruct (Dedupe.dedupe_csv "poems.csv" "deduped.csv" Scrape.fieldnames
              Inputs.harvested_world) as [[[total kept]|] w'] eqn:H.
  - exists total, kept, w'. split; [reflexivity|].
    refine (dedupe_twice _ _ _ _ _ _ _ _ _ _ _ H); discriminate.
  - vm_compute in H. discriminate H.
Defined.

(** X27. [dedupe_in_place] with a temporary file that is new: a run that
    raises leaves every CSV file as it was, and one that returns changes
    the input file alone, to what [dedupe_csv] wrote. The temporary file is
    gone in both cases. *)
Theorem dedupe_in_place_files (temp_path input_path : string)
    (key_columns : list string) (w : Os.world) :
  temp_path <> input_path ->
  Os.tables w !! temp_path = None ->
  match Dedupe.dedupe_in_place temp_path input_path key_columns w with
  | (None, w') => Os.tables w' = Os.tables w
  | (Some (total, kept), w') =>
      exists fieldnames reader,
        Os.tables w !! input_path = Some (fieldnames :: reader)
        /\ Dedupe.dedupe_loop fieldnames key_columns reader ∅ [] 0 0
           = (Some (total, kept),
              snd (Dedupe.dedupe_loop fieldnames key_columns reader ∅ [] 0 0))
        /\ Os.tables w'
           = <[ input_path :=
                  fieldnames
                  :: snd (Dedupe.dedupe_loop fieldnames key_columns reader ∅ [] 0 0) ]>
               (Os.tables w)
  end.
Proof.
  intros Hne Htemp. unfold Dedupe.dedupe_in_place. cbv zeta.
  set (w0 := {| Os.files := Os.files w; Os.tables := <[ temp_path := [] ]> (Os.tables w);
                Os.draws := Os.draws w; Os.trace := Os.trace w |}).
  pose proof (dedupe_csv_spec input_path temp_path key_columns w0) as Hspec.
  assert (Hin : Os.tables w0 !! input_path = Os.tables w !! input_path).
  { simpl. by rewrite lookup_insert_ne. }
  rewrite Hin in Hspec.
  assert (Hclean : delete temp_path (Os.tables w0) = Os.tables w).
  { simpl. by rewrite delete_insert_eq, delete_id. }
  destruct (Os.tables w !! input_path) as [[|fieldnames reader]|] eqn:Hinput;
    [by rewrite Hspec|  |by rewrite Hspec].
  destruct (forallb _ key_columns); [|by rewrite Hspec].
  rewrite Hspec. clear Hspec.
  destruct (Dedupe.dedupe_loop fieldnames key_columns reader ∅ [] 0 0)
    as [[[total kept]|] written] eqn:Hloop; simpl.
  - exists fieldnames, reader. rewrite Hloop. split; [done|]. split; [done|].
    rewrite lookup_insert_eq. simpl.
    by rewrite insert_insert_eq, delete_insert_eq, delete_id.
  - by rewrite insert_insert_eq, delete_insert_eq, delete_id.
Qed.

Lemma dedupe_in_place_files_witness :
  match Dedupe.dedupe_in_place "tmp0a1b2c3d.csv" "poems.csv" Scrape.fieldnames
          Inputs.harvested_world with
  | (None, w') => Os.tables w' = Os.tables Inputs.harvested_world
  | (Some (total, kept), w') =>
      exists fieldnames reader,
        Os.tables Inputs.harvested_world !! "poems.csv" = Some (fieldnames :: reader)
        /\ Dedupe.dedupe_loop fieldnames Scrape.fieldnames reader ∅ [] 0 0
           = (Some (total, kept),
              snd (Dedupe.dedupe_loop fieldnames Scrape.fieldnames reader ∅ [] 0 0))
        /\ Os.tables w'
           = <[ "poems.csv" :=
                  fieldnames
                  :: snd (Dedupe.dedupe_loop fieldnames Scrape.fieldnames reader
                            ∅ [] 0 0) ]>
               (Os.tables Inputs.harvested_world)
  end.
Proof.
  apply (dedupe_in_place_files "tmp0a1b2c3d.csv" "poems.csv" Scrape.fieldnames
           Inputs.harvested_world).
  - discriminate.
  - vm_compute. reflexivity.
Defined.
